(** * brainspy-smg: surrogate-model training glue and plotting helpers

    A shallow embedding of [bspysmg/model/data/outputs/train_model.py] and
    [bspysmg/utils/plots.py].  Both files are sequential glue over library
    calls (brainspy, torch, numpy, matplotlib), so the embedding is a small
    state-and-exception monad in which every library call is an event:
    the library's answer comes from an arbitrary handler over an arbitrary
    world, and the run records the calls, in order, with their outcomes.
    Python-level work done by the files themselves (dict reads and writes,
    list indexing, branching, string concatenation, the list comprehension)
    is modelled exactly. *)

From Stdlib Require Import ZArith List String Floats.
From stdpp Require Import gmap strings list pretty.

Set Warnings "-register-all,-inexact-float".
Local Open Scope string_scope.
Local Open Scope list_scope.
Local Open Scope Z_scope.

(** ** Python values and exceptions *)

Module Py.

Inductive exn : Type :=
| KeyError (key : string)
| IndexError
| TypeError
| ValueError
| ZeroDivisionError
| OverflowError
| LibraryError (msg : string).

(** [inl e]: the exception [e] was raised; [inr a]: normal return. *)
Definition result (A : Type) : Type := (exn + A)%type.

Definition rbind {A B} (r : result A) (f : A -> result B) : result B :=
  match r with
  | inl e => inl e
  | inr a => f a
  end.

(** Values found in configuration dicts and passed through to libraries.
    A dict keeps its items in insertion order; [PyObj] is a reference to
    an object owned by a library (a model, an optimizer, a logger...). *)
Inductive pyval : Type :=
| PyNone
| PyBool (b : bool)
| PyInt (n : Z)
| PyFloat (x : float)
| PyStr (s : string)
| PyList (items : list pyval)
| PyDict (items : list (string * pyval))
| PyObj (ref : N).

(** [seq[i]] on a Python list: negative indices count from the end. *)
Definition list_getitem {A} (l : list A) (i : Z) : result A :=
  let n := Z.of_nat (length l) in
  let j := if i <? 0 then i + n else i in
  if (j <? 0) || (n <=? j) then inl IndexError
  else match l !! Z.to_nat j with
       | Some a => inr a
       | None => inl IndexError
       end.

(** [l[start:stop]] on a Python sequence (step 1): a negative bound counts
    from the end, and bounds are clipped to the sequence. *)
Definition py_slice {A} (l : list A) (start stop : option Z) : list A :=
  let n := Z.of_nat (length l) in
  let clip i := if i <? 0 then Z.max (i + n) 0 else Z.min i n in
  let lo := clip (default 0 start) in
  let hi := clip (default n stop) in
  take (Z.to_nat (hi - lo)) (drop (Z.to_nat lo) l).

(** [d[key]] on a dict with string keys. *)
Fixpoint dict_getitem {V} (d : list (string * V)) (key : string) : result V :=
  match d with
  | [] => inl (KeyError key)
  | (k, v) :: d' => if String.eqb k key then inr v else dict_getitem d' key
  end.

(** [v[key]] for a string key: only a dict has string keys. *)
Definition py_getitem (v : pyval) (key : string) : result pyval :=
  match v with
  | PyDict d => dict_getitem d key
  | _ => inl TypeError
  end.

(** The characters of a string, each a string of length one. *)
Definition py_chars (s : string) : list pyval :=
  (fun c => PyStr (String c EmptyString)) <$> list_ascii_of_string s.

(** [v[i]] for an integer index: a list or a string is indexed, a dict
    with string keys has no such key. *)
Definition py_getindex (v : pyval) (i : Z) : result pyval :=
  match v with
  | PyList l => list_getitem l i
  | PyStr s => list_getitem (py_chars s) i
  | PyDict _ => inl (KeyError (pretty i))
  | _ => inl TypeError
  end.

(** [bool(v)]: the truth value Python gives [v] in [if v] and [not v]. *)
Definition py_truthy (v : pyval) : bool :=
  match v with
  | PyNone => false
  | PyBool b => b
  | PyInt n => negb (n =? 0)
  | PyFloat x => negb (PrimFloat.eqb x 0%float)
  | PyStr s => negb (String.eqb s "")
  | PyList l => negb (bool_decide (length l = 0%nat))
  | PyDict d => negb (bool_decide (length d = 0%nat))
  | PyObj _ => true
  end.

(** [v == 1] *)
Definition py_eq_one (v : pyval) : bool :=
  match v with
  | PyBool b => b
  | PyInt n => n =? 1
  | PyFloat x => PrimFloat.eqb x 1%float
  | _ => false
  end.

(** [sum(l)] for a list of ints (a bool counts as 0 or 1).  Any other
    entry raises here: a string or [None] raises in Python too, and a
    float makes the total a float, which is no sequence index, so the
    indexing that follows in the code raises. *)
Fixpoint py_sum (l : list pyval) : result Z :=
  match l with
  | [] => inr 0
  | PyInt n :: l' => match py_sum l' with inr t => inr (n + t) | inl e => inl e end
  | PyBool b :: l' =>
      match py_sum l' with inr t => inr ((if b then 1 else 0) + t) | inl e => inl e end
  | _ => inl TypeError
  end.

(** [v[:stop]] on a list. *)
Definition py_take (v : pyval) (stop : Z) : result (list pyval) :=
  match v with
  | PyList l => inr (py_slice l None (Some stop))
  | _ => inl TypeError
  end.

(** The items a [for] loop sees: the elements of a list, the keys of a
    dict, the characters of a string. *)
Definition py_iter (v : pyval) : result (list pyval) :=
  match v with
  | PyList l => inr l
  | PyDict d => inr ((fun kv => PyStr kv.1) <$> d)
  | PyStr s => inr (py_chars s)
  | _ => inl TypeError
  end.

(** ["text" + v]: only a string can be appended to a string. *)
Definition py_str_operand (v : pyval) : result string :=
  match v with
  | PyStr s => inr s
  | _ => inl TypeError
  end.

(** [str(n)] for an int. *)
Definition str (n : Z) : string := pretty n.

(** [os.path.join(a, b)] (posixpath). *)
Definition path_join (a b : string) : string :=
  if String.prefix "/" b then b
  else if (String.length a =? 0)%nat then b
  else if String.eqb (String.substring (String.length a - 1) 1 a) "/" then a +:+ b
  else a +:+ "/" +:+ b.

(** [directory] with the separator that [os.path.join] puts after it. *)
Definition with_separator (directory : string) : string :=
  if String.eqb (String.substring (String.length directory - 1) 1 directory) "/"
  then directory
  else directory +:+ "/".

(** [path] lies under [directory], as strings: it starts with the directory
    and its separator; under the empty directory, the current one, lies
    every path that is not absolute. *)
Definition under (directory path : string) : bool :=
  if String.eqb directory "" then negb (String.prefix "/" path)
  else String.prefix (with_separator directory) path.

End Py.
Import Py.

Declare Scope result_scope.
Delimit Scope result_scope with result.
Notation "x <- c ;; k" := (rbind c (fun x => k))
  (at level 100, c at next level, right associativity) : result_scope.

(** ** Runs: state, world, exceptions and the log of library calls *)

Section Effects.
Context {E : Type -> Type} {World State : Type}.

(** A library call together with what it did: raise or return. *)
Inductive event : Type :=
| Event {X : Type} (call : E X) (outcome : result X).

(** The libraries: any function of the call and the world. *)
Definition handler : Type := forall X, E X -> World -> result X * World.

Record run (A : Type) : Type := Run {
  value : result A;
  store : State;
  world : World;
  trace : list event
}.
Arguments Run {A}.
Arguments value {A}.
Arguments store {A}.
Arguments world {A}.
Arguments trace {A}.

Definition M (A : Type) : Type := handler -> State -> World -> run A.

Definition ret {A} (a : A) : M A := fun _ s w => Run (inr a) s w [].

Definition raise {A} (e : exn) : M A := fun _ s w => Run (inl e) s w [].

Definition bind {A B} (m : M A) (f : A -> M B) : M B := fun h s w =>
  match m h s w with
  | Run (inl e) s1 w1 t1 => Run (inl e) s1 w1 t1
  | Run (inr a) s1 w1 t1 =>
      match f a h s1 w1 with
      | Run v s2 w2 t2 => Run v s2 w2 (t1 ++ t2)
      end
  end.

Definition lift {A} (r : result A) : M A := fun _ s w => Run r s w [].

Definition get : M State := fun _ s w => Run (inr s) s w [].

Definition put (s : State) : M unit := fun _ _ w => Run (inr tt) s w [].

(** A library call: ask the handler, log the call with its outcome. *)
Definition call {X} (c : E X) : M X := fun h s w =>
  let '(r, w') := h X c w in Run r s w' [Event c r].

(** [try: body finally: cleanup]; an exception of the cleanup wins. *)
Definition finally {A} (body : M A) (cleanup : M unit) : M A := fun h s w =>
  match body h s w with
  | Run v s1 w1 t1 =>
      match cleanup h s1 w1 with
      | Run (inl e) s2 w2 t2 => Run (inl e) s2 w2 (t1 ++ t2)
      | Run (inr _) s2 w2 t2 => Run v s2 w2 (t1 ++ t2)
      end
  end.

Fixpoint mapM {A B} (f : A -> M B) (l : list A) : M (list B) :=
  match l with
  | [] => ret []
  | a :: l' => bind (f a) (fun b => bind (mapM f l') (fun bs => ret (b :: bs)))
  end.

(** [for a in l: body(a)] *)
Fixpoint forM_ {A} (l : list A) (body : A -> M unit) : M unit :=
  match l with
  | [] => ret tt
  | a :: l' => bind (body a) (fun _ => forM_ l' body)
  end.

(** [wp m s post]: whatever the libraries answer, running [m] from the
    store [s] ends with an outcome, a store and a log that satisfy [post]. *)
Definition wp {A} (m : M A) (s : State)
    (post : result A -> State -> list event -> Prop) : Prop :=
  forall h w, post (value (m h s w)) (store (m h s w)) (trace (m h s w)).

End Effects.

Arguments event : clear implicits.
Arguments handler : clear implicits.
Arguments run : clear implicits.
Arguments M : clear implicits.
Arguments Run {E World State A}.
Arguments value {E World State A}.
Arguments store {E World State A}.
Arguments world {E World State A}.
Arguments trace {E World State A}.

Declare Scope monad_scope.
Delimit Scope monad_scope with monad.
Notation "x <- c ;; k" := (bind c (fun x => k))
  (at level 100, c at next level, right associativity) : monad_scope.
Notation "c ;; k" := (bind c (fun _ => k))
  (at level 100, right associativity) : monad_scope.

(** [s] occurs in [t] as a block of consecutive entries. *)
Definition occurs_in {A} (s t : list A) : Prop :=
  exists before after, t = before ++ s ++ after.

(** ** bspysmg/model/data/outputs/train_model.py *)

Module TrainModel.

(** Tensors, arrays and datasets are opaque here.  Conversions and
    arithmetic on them are functions of their arguments:
    [get_numpy_from_tensor] is brainspy's [TorchUtils] conversion,
    [mul_l s a] is [s * a], [mul_r a s] is [a * s], [pow s n] is [s ** n]. *)
Class Torch : Type := {
  Tensor : Type;
  Ndarray : Type;
  Scalar : Type;
  Dataset : Type;
  get_numpy_from_tensor : Tensor -> Ndarray;
  mul_l : Scalar -> Ndarray -> Ndarray;
  mul_r : Ndarray -> Scalar -> Ndarray;
  pow : Scalar -> Z -> Scalar
}.

Section Program.
Context `{Torch} {World : Type}.

(** What the code reads of a [DataLoader]: [len(dl)] and [dl.dataset]. *)
Record DataLoader : Type := {
  len : nat;
  dataset : Dataset
}.

(** The [dataset] argument of [postprocess]: a dataset object, or the
    [(inputs, targets)] tuple that slicing a dataset returns. *)
Inductive samples : Type :=
| Whole (d : Dataset)
| Sliced (inputs targets : Tensor).

(** The library calls of the file.  [dataset_getitem d stop] is
    [d[:stop]] on a dataset object ([None]: [d[:]]); [model_call] is
    [model(inputs)]. *)
Inductive libE : Type -> Type :=
| create_directory_timestamp (path : pyval) (name : string) : libE string
| init_seed (seed : pyval) (deterministic : bool) : libE pyval
| load_data (configs : gmap string pyval) : libE (list DataLoader * Scalar)
| train (model : pyval) (dataloaders : DataLoader * DataLoader)
        (criterion optimizer hyperparameters logger : pyval)
        (save_dir : string) : libE (pyval * gmap string (list Tensor))
| plot_all (targets outputs : Ndarray) (results_dir name : string) : libE unit
| no_grad_enter : libE unit
| no_grad_exit : libE unit
| model_eval (model : pyval) : libE unit
| model_call (model : pyval) (inputs : Tensor) : libE Tensor
| dataset_getitem (d : Dataset) (stop : option Z) : libE (Tensor * Tensor)
| plt_figure : libE unit
| plt_plot (ys : list Ndarray) : libE unit
| plt_title (label : string) : libE unit
| plt_legend (labels : list string) : libE unit
| plt_savefig (fname : string) : libE unit
| print (line : string) : libE unit.

(** The state is the caller's [configs] dict, which the routine mutates.
    A library is handed the dict as it is at the call; what a library does
    to the dict object it receives is not part of the routine and is not
    modelled. *)
Abbreviation Prog := (M libE World (gmap string pyval)).

Local Open Scope monad_scope.

(** [key in configs] *)
Definition configs_contains (key : string) : Prog bool :=
  configs <- get ;; ret (bool_decide (is_Some (configs !! key))).

(** [configs[key]] *)
Definition configs_getitem (key : string) : Prog pyval :=
  configs <- get ;;
  match configs !! key with
  | Some v => ret v
  | None => raise (KeyError key)
  end.

(** [configs[key] = v] *)
Definition configs_setitem (key : string) (v : pyval) : Prog unit :=
  configs <- get ;; put (<[key := v]> configs).

(** [d[key]] on a dict returned by a library. *)
Definition dict_getitem {V} (d : gmap string V) (key : string) : Prog V :=
  match d !! key with
  | Some v => ret v
  | None => raise (KeyError key)
  end.

(** [dataset[:]]: a library call on a dataset object, a copy of the
    tuple on a tuple. *)
Definition samples_getitem_all (d : samples) : Prog (Tensor * Tensor) :=
  match d with
  | Whole d => call (dataset_getitem d None)
  | Sliced inputs targets => ret (inputs, targets)
  end.

Definition postprocess (dataset : samples) (model : pyval)
    (amplification : Scalar) (results_dir label : string) : Prog unit :=
  call (print ("Postprocessing " +:+ label +:+ " data ... ")) ;;
  call no_grad_enter ;;
  it <- finally
          (call (model_eval model) ;;
           it <- samples_getitem_all dataset ;;
           let '(inputs, targets) := it in
           predictions <- call (model_call model inputs) ;;
           ret (targets, predictions))
          (call no_grad_exit) ;;
  let '(targets, predictions) := it in
  let train_targets := mul_l amplification (get_numpy_from_tensor targets) in
  let train_output := mul_l amplification (get_numpy_from_tensor predictions) in
  call (plot_all train_targets train_output results_dir label).

(** [range(n)] *)
Definition range (n : nat) : list Z := Z.of_nat <$> seq 0 n.

Definition train_surrogate_model (model criterion optimizer logger : pyval)
    (main_folder : string) : Prog unit :=
  base <- configs_getitem "results_base_dir" ;;
  results_dir <- call (create_directory_timestamp base main_folder) ;;
  has_seed <- configs_contains "seed" ;;
  seed <- (if has_seed : bool then configs_getitem "seed" else ret PyNone) ;;
  seed <- call (init_seed seed true) ;;
  configs_setitem "seed" seed ;;
  configs <- get ;;
  loaded <- call (load_data configs) ;;
  let '(dataloaders, amplification) := loaded in
  dl0 <- lift (list_getitem dataloaders 0) ;;
  dl1 <- lift (list_getitem dataloaders 1) ;;
  hyperparameters <- configs_getitem "hyperparameters" ;;
  trained <- call (train model (dl0, dl1) criterion optimizer
                         hyperparameters logger results_dir) ;;
  let '(model, performances) := trained in
  dl0 <- lift (list_getitem dataloaders 0) ;;
  postprocess (Whole (dataset dl0)) model amplification results_dir "TRAINING" ;;
  dl1 <- lift (list_getitem dataloaders 1) ;;
  (if (0 <? len dl1)%nat then
     dl1 <- lift (list_getitem dataloaders 1) ;;
     postprocess (Whole (dataset dl1)) model amplification results_dir "VALIDATION"
   else
     dl0 <- lift (list_getitem dataloaders 0) ;;
     first <- call (dataset_getitem (dataset dl0) (Some 1000)) ;;
     postprocess (Sliced first.1 first.2) model amplification results_dir "VALIDATION") ;;
  dl2 <- lift (list_getitem dataloaders 2) ;;
  (if (0 <? len dl2)%nat then
     dl2 <- lift (list_getitem dataloaders 2) ;;
     postprocess (Whole (dataset dl2)) model amplification results_dir "TEST"
   else ret tt) ;;
  history <- dict_getitem performances "performance_history" ;;
  training_profile <-
    mapM (fun i =>
            history <- dict_getitem performances "performance_history" ;;
            entry <- lift (list_getitem history i) ;;
            ret (mul_r (get_numpy_from_tensor entry) (pow amplification 2)))
         (range (length history)) ;;
  call plt_figure ;;
  call (plt_plot training_profile) ;;
  call (plt_title "Training profile") ;;
  call (plt_legend ["training"; "validation"]) ;;
  call (plt_savefig (path_join results_dir "training_profile")) ;;
  call (print ("Model saved in :" +:+ results_dir)).

(** *** Reading the log of a run *)

(** The steps of the routine a library call belongs to. *)
Inductive step : Type :=
| Directory
| Seeding
| Loading
| Training
| Afterwards.

Definition step_of (e : event libE) : step :=
  match e with
  | Event c _ =>
      match c with
      | create_directory_timestamp _ _ => Directory
      | init_seed _ _ => Seeding
      | load_data _ => Loading
      | train _ _ _ _ _ _ _ => Training
      | _ => Afterwards
      end
  end.

(** The calls of one successful [postprocess], given what the dataset and
    the model returned. *)
Definition postprocess_events (dataset : samples) (model : pyval)
    (amplification : Scalar) (results_dir label : string)
    (inputs targets predictions : Tensor) : list (event libE) :=
  [Event (print ("Postprocessing " +:+ label +:+ " data ... ")) (inr tt);
   Event no_grad_enter (inr tt);
   Event (model_eval model) (inr tt)] ++
  match dataset with
  | Whole d => [Event (dataset_getitem d None) (inr (inputs, targets))]
  | Sliced _ _ => []
  end ++
  [Event (model_call model inputs) (inr predictions);
   Event no_grad_exit (inr tt);
   Event (plot_all (mul_l amplification (get_numpy_from_tensor targets))
                   (mul_l amplification (get_numpy_from_tensor predictions))
                   results_dir label) (inr tt)].

(** The tensors a [postprocess] works on: read from the dataset object, or
    the tuple it was given. *)
Definition samples_of (dataset : samples) (inputs targets : Tensor) : Prop :=
  match dataset with
  | Whole _ => True
  | Sliced i t => inputs = i /\ targets = t
  end.

(** The calls that plot and save the training profile, and the final
    message. *)
Definition profile_events (results_dir : string) (training_profile : list Ndarray)
    : list (event libE) :=
  [Event plt_figure (inr tt);
   Event (plt_plot training_profile) (inr tt);
   Event (plt_title "Training profile") (inr tt);
   Event (plt_legend ["training"; "validation"]) (inr tt);
   Event (plt_savefig (path_join results_dir "training_profile")) (inr tt);
   Event (print ("Model saved in :" +:+ results_dir)) (inr tt)].

(** The logs of [train_surrogate_model] on [configs], returning or not, with
    the [configs] they leave: nothing when [configs['results_base_dir']]
    is missing; the directory call alone; the seeding call when it raises;
    up to the loading call; up to the [train] call and whatever comes
    afterwards. *)
Inductive run_log (configs : gmap string pyval)
    (model criterion optimizer logger : pyval) (main_folder : string)
    : gmap string pyval -> list (event libE) -> Prop :=
| stopped_at_start :
    run_log configs model criterion optimizer logger main_folder configs []
| stopped_at_directory base o :
    configs !! "results_base_dir" = Some base ->
    run_log configs model criterion optimizer logger main_folder configs
      [Event (create_directory_timestamp base main_folder) o]
| stopped_at_seeding base results_dir chosen e :
    configs !! "results_base_dir" = Some base ->
    chosen = default PyNone (configs !! "seed") ->
    run_log configs model criterion optimizer logger main_folder configs
      [Event (create_directory_timestamp base main_folder) (inr results_dir);
       Event (init_seed chosen true) (inl e)]
| stopped_at_loading base results_dir chosen seed o :
    configs !! "results_base_dir" = Some base ->
    chosen = default PyNone (configs !! "seed") ->
    run_log configs model criterion optimizer logger main_folder
      (<["seed" := seed]> configs)
      [Event (create_directory_timestamp base main_folder) (inr results_dir);
       Event (init_seed chosen true) (inr seed);
       Event (load_data (<["seed" := seed]> configs)) o]
| reached_training base results_dir chosen seed dataloaders amplification dl0 dl1
    hyperparameters o after :
    configs !! "results_base_dir" = Some base ->
    chosen = default PyNone (configs !! "seed") ->
    configs !! "hyperparameters" = Some hyperparameters ->
    dataloaders !! 0%nat = Some dl0 ->
    dataloaders !! 1%nat = Some dl1 ->
    Forall (fun e => step_of e = Afterwards) after ->
    run_log configs model criterion optimizer logger main_folder
      (<["seed" := seed]> configs)
      ([Event (create_directory_timestamp base main_folder) (inr results_dir);
        Event (init_seed chosen true) (inr seed);
        Event (load_data (<["seed" := seed]> configs)) (inr (dataloaders, amplification));
        Event (train model (dl0, dl1) criterion optimizer hyperparameters logger
                 results_dir) o] ++ after).

(** [plot_all] calls of a log: label, targets, outputs. *)
Definition plots (t : list (event libE)) : list (string * Ndarray * Ndarray) :=
  omap (fun e =>
          match e with
          | Event (plot_all targets outputs _ name) _ => Some (name, targets, outputs)
          | _ => None
          end) t.

(** Datasets read in a log, with the bound of the slice. *)
Definition datasets_read (t : list (event libE)) : list (Dataset * option Z) :=
  omap (fun e =>
          match e with
          | Event (dataset_getitem d stop) _ => Some (d, stop)
          | _ => None
          end) t.

(** Arguments of the [train] calls of a log. *)
Definition train_calls (t : list (event libE))
    : list (pyval * (DataLoader * DataLoader) * string) :=
  omap (fun e =>
          match e with
          | Event (train model dataloaders _ _ _ _ save_dir) _ =>
              Some (model, dataloaders, save_dir)
          | _ => None
          end) t.

(** Arguments of the [init_seed] calls of a log. *)
Definition seed_calls (t : list (event libE)) : list (pyval * bool) :=
  omap (fun e =>
          match e with
          | Event (init_seed seed deterministic) _ => Some (seed, deterministic)
          | _ => None
          end) t.

(** What the [init_seed] calls of a log returned. *)
Definition seeds_returned (t : list (event libE)) : list pyval :=
  omap (fun e =>
          match e with
          | Event c o =>
              match c in libE X return result X -> option pyval with
              | init_seed _ _ => fun o => match o with inr seed => Some seed | inl _ => None end
              | _ => fun _ => None
              end o
          end) t.

(** The [configs] passed to the [load_data] calls of a log. *)
Definition configs_loaded (t : list (event libE)) : list (gmap string pyval) :=
  omap (fun e =>
          match e with
          | Event (load_data configs) _ => Some configs
          | _ => None
          end) t.

(** What the [load_data] calls of a log returned. *)
Definition data_loaded (t : list (event libE)) : list (list DataLoader * Scalar) :=
  omap (fun e =>
          match e with
          | Event c o =>
              match c in libE X return result X -> option (list DataLoader * Scalar) with
              | load_data _ => fun o => match o with inr d => Some d | inl _ => None end
              | _ => fun _ => None
              end o
          end) t.

(** What the [train] calls of a log returned. *)
Definition train_returned (t : list (event libE))
    : list (pyval * gmap string (list Tensor)) :=
  omap (fun e =>
          match e with
          | Event c o =>
              match c in libE X
                    return result X -> option (pyval * gmap string (list Tensor)) with
              | train _ _ _ _ _ _ _ =>
                  fun o => match o with inr d => Some d | inl _ => None end
              | _ => fun _ => None
              end o
          end) t.

(** The profiles passed to [plt.plot]. *)
Definition profiles_plotted (t : list (event libE)) : list (list Ndarray) :=
  omap (fun e =>
          match e with
          | Event (plt_plot ys) _ => Some ys
          | _ => None
          end) t.

(** The paths passed to [plt.savefig]. *)
Definition figures_saved (t : list (event libE)) : list string :=
  omap (fun e =>
          match e with
          | Event (plt_savefig fname) _ => Some fname
          | _ => None
          end) t.

(** The models put in evaluation mode or called, in order. *)
Definition models_evaluated (t : list (event libE)) : list pyval :=
  omap (fun e =>
          match e with
          | Event (model_eval model) _ => Some model
          | Event (model_call model _) _ => Some model
          | _ => None
          end) t.

(** How many times [torch.no_grad()] was entered: [__enter__] returned. *)
Definition no_grad_entered (t : list (event libE)) : nat :=
  length (omap (fun e =>
                  match e with
                  | Event c o =>
                      match c in libE X return result X -> option unit with
                      | no_grad_enter =>
                          fun o => match o with inr _ => Some tt | inl _ => None end
                      | _ => fun _ => None
                      end o
                  end) t).

(** How many times it was left: [__exit__] was called. *)
Definition no_grad_left (t : list (event libE)) : nat :=
  length (omap (fun e =>
                  match e with
                  | Event no_grad_exit _ => Some tt
                  | _ => None
                  end) t).

(** [no_grad_scoped inside t]: reading the log [t] of a [postprocess] from
    left to right, [inside] saying whether [torch.no_grad()] is entered:
    the block is entered from outside and left from inside, the model is
    put in evaluation mode and called, and the dataset read, inside it, and
    [plot_all] is called outside it. *)
Fixpoint no_grad_scoped (inside : bool) (t : list (event libE)) : Prop :=
  match t with
  | [] => True
  | Event c o :: t' =>
      match c in libE X return result X -> Prop with
      | no_grad_enter => fun o =>
          inside = false /\
          no_grad_scoped (match o with inr _ => true | inl _ => false end) t'
      | no_grad_exit => fun _ => inside = true /\ no_grad_scoped false t'
      | model_eval _ => fun _ => inside = true /\ no_grad_scoped inside t'
      | model_call _ _ => fun _ => inside = true /\ no_grad_scoped inside t'
      | dataset_getitem _ _ => fun _ => inside = true /\ no_grad_scoped inside t'
      | plot_all _ _ _ _ => fun _ => inside = false /\ no_grad_scoped inside t'
      | _ => fun _ => no_grad_scoped inside t'
      end o
  end.

End Program.

End TrainModel.


(** ** bspysmg/utils/plots.py *)

Module Plots.

(** Arrays, tensors and the objects of matplotlib and brainspy are opaque.
    numpy's and torch's computations are functions of their arguments, some
    of which can raise; [py_truediv] and [py_int] are Python's [/] and
    [int()] on numbers, whose floating-point arithmetic is not modelled. *)
Class Numpy : Type := {
  Ndarray : Type;
  Tensor : Type;
  Figure : Type;
  AxesGrid : Type;
  Axes : Type;
  Colormap : Type;
  Color : Type;
  Waveforms : Type;
  np_concatenate : Ndarray -> Ndarray -> result Ndarray;
  np_min : Ndarray -> result Ndarray;
  np_max : Ndarray -> result Ndarray;
  np_max_of : list Ndarray -> result Ndarray;
  np_linspace : Ndarray -> Ndarray -> option Z -> result Ndarray;
  np_sqrt : Ndarray -> Ndarray;
  np_size : Ndarray -> Z;
  np_reshape : Ndarray -> Z -> result Ndarray;
  np_abs : Ndarray -> Ndarray;
  np_neg : Ndarray -> Ndarray;
  np_scale : float -> Ndarray -> Ndarray;
  np_zeros_like : Ndarray -> Ndarray;
  np_len : Ndarray -> result Z;
  np_str : Ndarray -> string;
  np_slice_from : Ndarray -> Z -> result Ndarray;
  torch_tensor : Ndarray -> Tensor;
  tensor_numpy : Tensor -> Ndarray;
  py_truediv : pyval -> pyval -> result pyval;
  py_int : pyval -> result Z
}.

Section Program.
Context `{Numpy} {World : Type}.

(** The library calls of the file: pyplot's functions, the methods of a
    figure and of an axes, and brainspy's [WaveformManager]. *)
Inductive libE : Type -> Type :=
| plt_figure : libE unit
| plt_title (label : string) : libE unit
| plt_suptitle (label : string) : libE unit
| plt_subplot (args : list Z) : libE unit
| plt_plot (args : list Ndarray) (fmt label : option string) : libE unit
| plt_xlabel (label : string) : libE unit
| plt_ylabel (label : string) : libE unit
| plt_hist (x : Ndarray) (bins : Z) : libE unit
| plt_xlim (left right : Ndarray) : libE unit
| plt_legend (labels : list string) : libE unit
| plt_tight_layout : libE unit
| plt_savefig (fname : pyval) (dpi : option Z) : libE unit
| plt_show : libE unit
| plt_close : libE unit
| plt_get_cmap (name : string) : libE Colormap
| plt_subplots (nrows ncols : Z) : libE (Figure * AxesGrid)
| plt_subplots_adjust (hspace wspace : float) : libE unit
| fig_suptitle (fig : Figure) (label : string) : libE unit
| axs_getitem (axs : AxesGrid) (i j : Z) : libE Axes
| cmap_call (cmap : Colormap) (i : Z) : libE Color
| ax_plot (ax : Axes) (args : list Ndarray) (label : option string)
          (color : option Color) : libE unit
| ax_plot_empty (ax : Axes) : libE unit
| ax_set_xlabel (ax : Axes) (label : string) (labelpad : option Z) : libE unit
| ax_set_ylabel (ax : Axes) (label : string) (labelpad : option Z) : libE unit
| ax_set_title (ax : Axes) (label : string) : libE unit
| ax_xaxis_grid (ax : Axes) (visible : bool) : libE unit
| ax_yaxis_grid (ax : Axes) (visible : bool) : libE unit
| ax_legend (ax : Axes) : libE unit
| WaveformManager (configs : list (string * pyval)) : libE Waveforms
| points_to_plateaus (wm : Waveforms) (points : Tensor) : libE Tensor.

Abbreviation Prog := (M libE World unit).

Local Open Scope monad_scope.

Definition plot_error_hist (targets prediction error mse : Ndarray)
    (save_dir name : string) : Prog unit :=
  call plt_figure ;;
  call (plt_title "Predicted vs True values") ;;
  call (plt_subplot [1; 2; 1]) ;;
  call (plt_plot [targets; prediction] (Some ".") None) ;;
  call (plt_xlabel "True Output (nA)") ;;
  call (plt_ylabel "Predicted Output (nA)") ;;
  targets_and_prediction_array <- lift (np_concatenate targets prediction) ;;
  min_out <- lift (np_min targets_and_prediction_array) ;;
  max_out <- lift (np_max targets_and_prediction_array) ;;
  xs <- lift (np_linspace min_out max_out None) ;;
  ys <- lift (np_linspace min_out max_out None) ;;
  call (plt_plot [xs; ys] (Some "k") None) ;;
  call (plt_title ("RMSE " +:+ np_str (np_sqrt mse) +:+ " (nA)")) ;;
  call (plt_subplot [1; 2; 2]) ;;
  flat <- lift (np_reshape error (np_size error)) ;;
  call (plt_hist flat 500) ;;
  lowest <- lift (np_min error) ;;
  highest <- lift (np_max error) ;;
  widest <- lift (np_max_of [np_abs lowest; highest]) ;;
  let x_lim := np_scale 0.25%float widest in
  call (plt_xlim (np_neg x_lim) x_lim) ;;
  call (plt_title "Error histogram (nA) ") ;;
  let fig_loc := path_join save_dir name in
  call plt_tight_layout ;;
  call (plt_savefig (PyStr fig_loc) (Some 300)) ;;
  call plt_close.

Definition plot_error_vs_output (targets error : Ndarray)
    (save_dir name : string) : Prog unit :=
  call plt_figure ;;
  call (plt_plot [targets; error] (Some ".") None) ;;
  lowest <- lift (np_min targets) ;;
  highest <- lift (np_max targets) ;;
  n <- lift (np_len error) ;;
  xs <- lift (np_linspace lowest highest (Some n)) ;;
  call (plt_plot [xs; np_zeros_like error] None None) ;;
  call (plt_title "Error vs Output") ;;
  call (plt_xlabel "Output (nA)") ;;
  call (plt_ylabel "Error (nA)") ;;
  let fig_loc := path_join save_dir name in
  call (plt_savefig (PyStr fig_loc) (Some 300)) ;;
  call plt_close.

Definition plot_waves (inputs outputs : Ndarray) (input_no output_no batch : Z)
    (legend : list string) (save_directory : string) : Prog unit :=
  call plt_figure ;;
  call (plt_suptitle ("I/O data for batch " +:+ str batch)) ;;
  call (plt_subplot [211]) ;;
  call (plt_plot [inputs] None None) ;;
  call (plt_ylabel "Inputs (V)") ;;
  call (plt_xlabel "Time points (a.u.)") ;;
  call (plt_legend (py_slice legend None (Some input_no))) ;;
  call (plt_subplot [212]) ;;
  call (plt_plot [outputs] None None) ;;
  call (plt_ylabel "Outputs (nA)") ;;
  call (plt_legend (py_slice legend (Some (- output_no)) None)) ;;
  call (plt_xlabel "Time points (a.u.)") ;;
  call plt_tight_layout ;;
  call (plt_savefig (PyStr (path_join save_directory "example_batch")) None) ;;
  call plt_close.

Definition output_hist (outputs : Ndarray) (data_dir : string) (bins : Z)
    (show : bool) : Prog unit :=
  call plt_figure ;;
  call (plt_title "Output Histogram") ;;
  call (plt_hist outputs bins) ;;
  call (plt_ylabel "Counts") ;;
  call (plt_xlabel "Raw output (nA)") ;;
  (if show then call plt_show else ret tt) ;;
  call (plt_savefig (PyStr (data_dir +:+ "/output_distribution")) None) ;;
  call plt_close.

(** [x is not None] *)
Definition is_not_None (v : pyval) : bool :=
  match v with
  | PyNone => false
  | _ => true
  end.

Definition iv_plot (result : Ndarray) (input_electrode : Z) (save_plot : pyval)
    (show_plot : bool) : Prog unit :=
  call (plt_plot [result] None
          (Some ("IV Curve for electrode " +:+ str input_electrode))) ;;
  call (plt_xlabel "Point no.") ;;
  call (plt_ylabel "Current (nA)") ;;
  (if is_not_None save_plot then call (plt_savefig save_plot None) else ret tt) ;;
  (if show_plot then call plt_show else ret tt).

(** [configs['driver']['instruments_setup']] *)
Definition instruments_setup (configs : pyval) : result pyval :=
  (driver <- py_getitem configs "driver" ;;
   py_getitem driver "instruments_setup")%result.

(** [configs['driver']['instruments_setup'][dev]['activation_channel_mask']] *)
Definition activation_channel_mask (configs : pyval) (dev : string) : result pyval :=
  (setup <- instruments_setup configs ;;
   device <- py_getitem setup dev ;;
   py_getitem device "activation_channel_mask")%result.

(** [int(configs['driver']['instruments_setup']['readout_sampling_frequency']
        / configs['driver']['instruments_setup']['activation_sampling_frequency'])] *)
Definition plateau_length (configs : pyval) : result Z :=
  (setup <- instruments_setup configs ;;
   readout <- py_getitem setup "readout_sampling_frequency" ;;
   setup <- instruments_setup configs ;;
   activation <- py_getitem setup "activation_sampling_frequency" ;;
   ratio <- py_truediv readout activation ;;
   py_int ratio)%result.

(** [not configs['driver']['instruments_setup']['average_io_point_difference']] *)
Definition not_average_io_point_difference (configs : pyval) : result bool :=
  (setup <- instruments_setup configs ;;
   flag <- py_getitem setup "average_io_point_difference" ;;
   inr (negb (py_truthy flag)))%result.

(** [sum(mask[:k + 1]) - 1] *)
Definition masked_index (configs : pyval) (dev : string) (k : Z) : result Z :=
  (mask <- activation_channel_mask configs dev ;;
   head <- py_take mask (k + 1) ;;
   total <- py_sum head ;;
   inr (total - 1))%result.

(** [mask[k] == 1] *)
Definition channel_active (configs : pyval) (dev : string) (k : Z) : result bool :=
  (mask <- activation_channel_mask configs dev ;;
   channel <- py_getindex mask k ;;
   inr (py_eq_one channel))%result.

(** [inputs[exp][dev][masked_idx]] *)
Definition input_points (inputs : list (string * list (string * list Ndarray)))
    (exp dev : string) (masked_idx : Z) : result Ndarray :=
  (by_device <- dict_getitem inputs exp ;;
   waves <- dict_getitem by_device dev ;;
   list_getitem waves masked_idx)%result.

(** [output[exp][dev]] *)
Definition output_current (output : list (string * list (string * Ndarray)))
    (exp dev : string) : result Ndarray :=
  (by_device <- dict_getitem output exp ;;
   dict_getitem by_device dev)%result.

(** [WaveformManager({'slope_length': 0, 'plateau_length': int(...)})
      .points_to_plateaus(torch.tensor(inputs[exp][dev][masked_idx]))
      .detach().cpu().numpy()] *)
Definition plateaus (configs : pyval)
    (inputs : list (string * list (string * list Ndarray)))
    (exp dev : string) (masked_idx : Z) : Prog Ndarray :=
  n <- lift (plateau_length configs) ;;
  wm <- call (WaveformManager [("slope_length", PyInt 0); ("plateau_length", PyInt n)]) ;;
  points <- lift (input_points inputs exp dev masked_idx) ;;
  waves <- call (points_to_plateaus wm (torch_tensor points)) ;;
  ret (tensor_numpy waves).

(** [enumerate(l)] *)
Definition enumerate {A} (l : list A) : list (Z * A) :=
  imap (fun i a => (Z.of_nat i, a)) l.

Definition multi_iv_plot (configs : pyval)
    (inputs : list (string * list (string * list Ndarray)))
    (output : list (string * list (string * Ndarray))) : Prog unit :=
  let ylabeldist := -10 in
  cmap <- call (plt_get_cmap "tab10") ;;
  devices <- lift (py_getitem configs "devices") ;;
  devices <- lift (py_iter devices) ;;
  forM_ devices (fun dev =>
    subplots <- call (plt_subplots 2 4) ;;
    let '(fig, axs) := subplots in
    dev <- lift (py_str_operand dev) ;;
    call (fig_suptitle fig ("Device " +:+ dev +:+ " - Input voltage vs Output current")) ;;
    forM_ [0; 1] (fun i =>
      forM_ [0; 1; 2; 3] (fun j =>
        let exp_index := j + i * 4 in
        let exp := "IV" +:+ str (exp_index + 1) in
        if exp_index <? 7 then
          active <- lift (channel_active configs dev exp_index) ;;
          (if active : bool then
             masked_idx <- lift (masked_index configs dev exp_index) ;;
             temp <- lift (input_points inputs exp dev masked_idx) ;;
             convert <- lift (not_average_io_point_difference configs) ;;
             temp <- (if convert : bool
                      then plateaus configs inputs exp dev masked_idx
                      else ret temp) ;;
             ax <- call (axs_getitem axs i j) ;;
             current <- lift (output_current output exp dev) ;;
             color <- call (cmap_call cmap exp_index) ;;
             call (ax_plot ax [temp; current] None (Some color)) ;;
             ax <- call (axs_getitem axs i j) ;;
             call (ax_set_ylabel ax "output (nA)" (Some ylabeldist)) ;;
             ax <- call (axs_getitem axs i j) ;;
             call (ax_set_xlabel ax "input (V)" (Some 1)) ;;
             ax <- call (axs_getitem axs i j) ;;
             call (ax_xaxis_grid ax true) ;;
             ax <- call (axs_getitem axs i j) ;;
             call (ax_yaxis_grid ax true)
           else
             ax <- call (axs_getitem axs i j) ;;
             call (ax_plot_empty ax) ;;
             ax <- call (axs_getitem axs i j) ;;
             call (ax_set_xlabel ax "Channel Masked" None))
        else
          forM_ (enumerate (inputs.*1)) (fun zkey =>
            let '(z, key) := zkey in
            active <- lift (channel_active configs dev z) ;;
            if active : bool then
              masked_idx <- lift (masked_index configs dev z) ;;
              temp <- lift (input_points inputs key dev masked_idx) ;;
              convert <- lift (not_average_io_point_difference configs) ;;
              temp <- (if convert : bool
                       then
                         waves <- plateaus configs inputs key dev masked_idx ;;
                         n <- lift (plateau_length configs) ;;
                         lift (np_slice_from waves n)
                       else ret temp) ;;
              ax <- call (axs_getitem axs i j) ;;
              color <- call (cmap_call cmap z) ;;
              call (ax_plot ax [temp] (Some ("IV" +:+ str z)) (Some color))
            else ret tt) ;;
          ax <- call (axs_getitem axs i j) ;;
          call (ax_set_ylabel ax "input (V)" None) ;;
          ax <- call (axs_getitem axs i j) ;;
          call (ax_set_xlabel ax "points" (Some 1)) ;;
          ax <- call (axs_getitem axs i j) ;;
          call (ax_set_title ax "Input input_signal") ;;
          ax <- call (axs_getitem axs i j) ;;
          call (ax_xaxis_grid ax true) ;;
          ax <- call (axs_getitem axs i j) ;;
          call (ax_yaxis_grid ax true) ;;
          ax <- call (axs_getitem axs i j) ;;
          call (ax_legend ax)))) ;;
  call (plt_subplots_adjust 0.3%float 0.35%float) ;;
  call plt_show.

(** *** Reading the log of a run *)

(** The file names passed to [plt.savefig]. *)
Definition savefigs (t : list (event libE)) : list pyval :=
  omap (fun e =>
          match e with
          | Event (plt_savefig fname _) _ => Some fname
          | _ => None
          end) t.

(** How many times [plt.show] was called. *)
Definition shown (t : list (event libE)) : nat :=
  length (omap (fun e =>
                  match e with
                  | Event plt_show _ => Some tt
                  | _ => None
                  end) t).

(** The dicts [WaveformManager] was constructed with. *)
Definition waveform_configs (t : list (event libE)) : list (list (string * pyval)) :=
  omap (fun e =>
          match e with
          | Event (WaveformManager configs) _ => Some configs
          | _ => None
          end) t.

(** What [multi_iv_plot] is to construct a [WaveformManager] with. *)
Definition plateau_manager (configs : pyval) (e : event libE) : Prop :=
  match e with
  | Event (WaveformManager d) _ =>
      exists n, plateau_length configs = inr n /\
                d = [("slope_length", PyInt 0); ("plateau_length", PyInt n)]
  | _ => True
  end.

(** The calls to [points_to_plateaus]. *)
Definition plateau_calls (t : list (event libE)) : list (Waveforms * Tensor) :=
  omap (fun e =>
          match e with
          | Event (points_to_plateaus wm points) _ => Some (wm, points)
          | _ => None
          end) t.

(** [curves_converted inputs managers waves t]: reading the log [t] from
    left to right, starting with the waveform managers [managers] and the
    plateau waves [waves] already made, every [points_to_plateaus] call is
    made on a manager constructed before it and on the tensor of some
    [inputs[exp][dev][i]], and the first array of every curve drawn on an
    axes is the numpy array of a wave made before it, or a tail slice of
    it. *)
Fixpoint curves_converted (inputs : list (string * list (string * list Ndarray)))
    (managers : list Waveforms) (waves : list Tensor) (t : list (event libE)) : Prop :=
  match t with
  | [] => True
  | Event c o :: t' =>
      match c in libE X return result X -> Prop with
      | WaveformManager _ => fun o =>
          curves_converted inputs
            (match o with inr wm => wm :: managers | inl _ => managers end) waves t'
      | points_to_plateaus wm points => fun o =>
          wm ∈ managers /\
          (exists exp dev i raw,
             input_points inputs exp dev i = inr raw /\ points = torch_tensor raw) /\
          curves_converted inputs managers
            (match o with inr w => w :: waves | inl _ => waves end) t'
      | ax_plot _ (x :: _) _ _ => fun _ =>
          (exists w, w ∈ waves /\
             (x = tensor_numpy w \/
              exists n, np_slice_from (tensor_numpy w) n = inr x)) /\
          curves_converted inputs managers waves t'
      | _ => fun _ => curves_converted inputs managers waves t'
      end o
  end.

(** Neither a [WaveformManager] construction nor a conversion. *)
Definition no_conversion (e : event libE) : Prop :=
  match e with
  | Event (WaveformManager _) _ => False
  | Event (points_to_plateaus _ _) _ => False
  | _ => True
  end.

(** Not a [plt.savefig]. *)
Definition no_savefig (e : event libE) : Prop :=
  match e with
  | Event (plt_savefig _ _) _ => False
  | _ => True
  end.

(** How many [plt.figure()] calls returned. *)
Definition figures_opened (t : list (event libE)) : nat :=
  length (omap (fun e =>
                  match e with
                  | Event c o =>
                      match c in libE X return result X -> option unit with
                      | plt_figure =>
                          fun o => match o with inr _ => Some tt | inl _ => None end
                      | _ => fun _ => None
                      end o
                  end) t).

(** How many [plt.close()] calls returned. *)
Definition figures_closed (t : list (event libE)) : nat :=
  length (omap (fun e =>
                  match e with
                  | Event c o =>
                      match c in libE X return result X -> option unit with
                      | plt_close =>
                          fun o => match o with inr _ => Some tt | inl _ => None end
                      | _ => fun _ => None
                      end o
                  end) t).

(** Neither [plt.figure()] nor [plt.close()]. *)
Definition on_current_figure (e : event libE) : Prop :=
  match e with
  | Event plt_figure _ => False
  | Event plt_close _ => False
  | _ => True
  end.

(** The label lists passed to [plt.legend]. *)
Definition legends (t : list (event libE)) : list (list string) :=
  omap (fun e =>
          match e with
          | Event (plt_legend labels) _ => Some labels
          | _ => None
          end) t.

(** What happens to figures in [multi_iv_plot]: [plt.subplots] returned
    one, or [fig.suptitle] was called on one. *)
Inductive figure_call : Type :=
| Made (nrows ncols : Z) (fig : Figure)
| Titled (fig : Figure) (label : string).

Definition figure_calls (t : list (event libE)) : list figure_call :=
  omap (fun e =>
          match e with
          | Event c o =>
              match c in libE X return result X -> option figure_call with
              | plt_subplots nrows ncols =>
                  fun o => match o with
                           | inr (fig, _) => Some (Made nrows ncols fig)
                           | inl _ => None
                           end
              | fig_suptitle fig label => fun _ => Some (Titled fig label)
              | _ => fun _ => None
              end o
          end) t.

(** Neither of the two. *)
Definition no_figure_call (e : event libE) : Prop :=
  match e with
  | Event (plt_subplots _ _) _ => False
  | Event (fig_suptitle _ _) _ => False
  | _ => True
  end.

(** A channel mask of zeros and ones. *)
Definition mask_of (bits : list bool) : pyval :=
  PyList ((fun b : bool => PyInt (if b then 1 else 0)) <$> bits).

(** What panel [k] (the experiment 'IV' + str(k + 1)) of device [dev]
    reads when channel [k] is active. *)
Definition panel_inputs_found (configs : pyval)
    (inputs : list (string * list (string * list Ndarray)))
    (output : list (string * list (string * Ndarray))) (dev : string) (k : Z) : Prop :=
  exists active,
    channel_active configs dev k = inr active /\
    (active = true ->
     exists masked_idx points current,
       masked_index configs dev k = inr masked_idx /\
       input_points inputs ("IV" +:+ str (k + 1)) dev masked_idx = inr points /\
       output_current output ("IV" +:+ str (k + 1)) dev = inr current).

(** The curves drawn with a label are those of the eighth panel.
    [overview_curve configs inputs e]: if [e] draws such a curve, it draws
    one array, for some position [z] in [inputs.keys()], with the label
    ['IV' + str(z)]; and when the input points are not converted, the array
    is an [inputs[key][dev][i]] of the key at that position. *)
Definition overview_curve (configs : pyval)
    (inputs : list (string * list (string * list Ndarray))) (e : event libE) : Prop :=
  match e with
  | Event (ax_plot _ args (Some label) _) _ =>
      exists z key x,
        0 <= z /\
        inputs.*1 !! Z.to_nat z = Some key /\
        label = "IV" +:+ str z /\
        args = [x] /\
        (not_average_io_point_difference configs = inr false ->
         exists dev masked_idx, input_points inputs key dev masked_idx = inr x)
  | _ => True
  end.

(** The labels of the curves drawn on axes. *)
Definition curve_labels (t : list (event libE)) : list string :=
  omap (fun e =>
          match e with
          | Event (ax_plot _ _ (Some label) _) _ => Some label
          | _ => None
          end) t.

(** The same whatever was made before the log starts. *)
Definition plateaus_plotted (inputs : list (string * list (string * list Ndarray)))
    (t : list (event libE)) : Prop :=
  forall managers waves, curves_converted inputs managers waves t.

(** How many [plt.savefig] calls returned. *)
Definition figures_written (t : list (event libE)) : nat :=
  length (omap (fun e =>
                  match e with
                  | Event c o =>
                      match c in libE X return result X -> option unit with
                      | plt_savefig _ _ =>
                          fun o => match o with inr _ => Some tt | inl _ => None end
                      | _ => fun _ => None
                      end o
                  end) t).

(** How many of the calls [plt.plot], [plt.xlabel] and [plt.ylabel]
    returned. *)
Definition drawing_calls_returned (t : list (event libE)) : nat :=
  length (omap (fun e =>
                  match e with
                  | Event c o =>
                      match c in libE X return result X -> option unit with
                      | plt_plot _ _ _ =>
                          fun o => match o with inr _ => Some tt | inl _ => None end
                      | plt_xlabel _ =>
                          fun o => match o with inr _ => Some tt | inl _ => None end
                      | plt_ylabel _ =>
                          fun o => match o with inr _ => Some tt | inl _ => None end
                      | _ => fun _ => None
                      end o
                  end) t).

(** *** The log of a multi_iv_plot that returns *)

(** The calls that make the array [temp] of a curve out of [points]: none,
    and [temp] is [points], when the points are drawn as they are;
    otherwise the construction of a [WaveformManager] and its
    [points_to_plateaus] on the tensor of the points, [temp] being the
    numpy array of what it returned, from [plateau_length] on when [tail]
    is set. *)
Definition conversion_log (configs : pyval) (points : Ndarray) (tail : bool)
    (temp : Ndarray) (t : list (event libE)) : Prop :=
  exists convert,
    not_average_io_point_difference configs = inr convert /\
    if convert : bool then
      exists n wm waves,
        plateau_length configs = inr n /\
        t = [Event (WaveformManager [("slope_length", PyInt 0);
                                     ("plateau_length", PyInt n)]) (inr wm);
             Event (points_to_plateaus wm (torch_tensor points)) (inr waves)] /\
        (if tail then np_slice_from (tensor_numpy waves) n = inr temp
         else temp = tensor_numpy waves)
    else t = [] /\ temp = points.

(** Panel [(i, j)] of an experiment, [j + i * 4 < 7]. *)
Definition experiment_log (configs : pyval)
    (inputs : list (string * list (string * list Ndarray)))
    (output : list (string * list (string * Ndarray)))
    (cmap : Colormap) (axs : AxesGrid) (dev : string) (i j : Z)
    (t : list (event libE)) : Prop :=
  let exp_index := j + i * 4 in
  let exp := "IV" +:+ str (exp_index + 1) in
  exists active,
    channel_active configs dev exp_index = inr active /\
    if active : bool then
      exists masked_idx points temp conversion current color ax1 ax2 ax3 ax4 ax5,
        masked_index configs dev exp_index = inr masked_idx /\
        input_points inputs exp dev masked_idx = inr points /\
        conversion_log configs points false temp conversion /\
        output_current output exp dev = inr current /\
        t = conversion ++
            [Event (axs_getitem axs i j) (inr ax1);
             Event (cmap_call cmap exp_index) (inr color);
             Event (ax_plot ax1 [temp; current] None (Some color)) (inr tt);
             Event (axs_getitem axs i j) (inr ax2);
             Event (ax_set_ylabel ax2 "output (nA)" (Some (-10))) (inr tt);
             Event (axs_getitem axs i j) (inr ax3);
             Event (ax_set_xlabel ax3 "input (V)" (Some 1)) (inr tt);
             Event (axs_getitem axs i j) (inr ax4);
             Event (ax_xaxis_grid ax4 true) (inr tt);
             Event (axs_getitem axs i j) (inr ax5);
             Event (ax_yaxis_grid ax5 true) (inr tt)]
    else
      exists ax1 ax2,
        t = [Event (axs_getitem axs i j) (inr ax1);
             Event (ax_plot_empty ax1) (inr tt);
             Event (axs_getitem axs i j) (inr ax2);
             Event (ax_set_xlabel ax2 "Channel Masked" None) (inr tt)].

(** The curve of the [z]-th key of [inputs] in the eighth panel. *)
Definition overview_entry_log (configs : pyval)
    (inputs : list (string * list (string * list Ndarray)))
    (cmap : Colormap) (axs : AxesGrid) (dev : string) (i j : Z)
    (z : Z) (key : string) (t : list (event libE)) : Prop :=
  exists active,
    channel_active configs dev z = inr active /\
    if active : bool then
      exists masked_idx points temp conversion ax color,
        masked_index configs dev z = inr masked_idx /\
        input_points inputs key dev masked_idx = inr points /\
        conversion_log configs points true temp conversion /\
        t = conversion ++
            [Event (axs_getitem axs i j) (inr ax);
             Event (cmap_call cmap z) (inr color);
             Event (ax_plot ax [temp] (Some ("IV" +:+ str z)) (Some color)) (inr tt)]
    else t = [].

(** The eighth panel. *)
Definition overview_log (configs : pyval)
    (inputs : list (string * list (string * list Ndarray)))
    (cmap : Colormap) (axs : AxesGrid) (dev : string) (i j : Z)
    (t : list (event libE)) : Prop :=
  exists entries ax1 ax2 ax3 ax4 ax5 ax6,
    Forall2 (fun zkey entry =>
               overview_entry_log configs inputs cmap axs dev i j zkey.1 zkey.2 entry)
      (enumerate inputs.*1) entries /\
    t = concat entries ++
        [Event (axs_getitem axs i j) (inr ax1);
         Event (ax_set_ylabel ax1 "input (V)" None) (inr tt);
         Event (axs_getitem axs i j) (inr ax2);
         Event (ax_set_xlabel ax2 "points" (Some 1)) (inr tt);
         Event (axs_getitem axs i j) (inr ax3);
         Event (ax_set_title ax3 "Input input_signal") (inr tt);
         Event (axs_getitem axs i j) (inr ax4);
         Event (ax_xaxis_grid ax4 true) (inr tt);
         Event (axs_getitem axs i j) (inr ax5);
         Event (ax_yaxis_grid ax5 true) (inr tt);
         Event (axs_getitem axs i j) (inr ax6);
         Event (ax_legend ax6) (inr tt)].

Definition panel_log (configs : pyval)
    (inputs : list (string * list (string * list Ndarray)))
    (output : list (string * list (string * Ndarray)))
    (cmap : Colormap) (axs : AxesGrid) (dev : string) (i j : Z)
    (t : list (event libE)) : Prop :=
  if j + i * 4 <? 7 then experiment_log configs inputs output cmap axs dev i j t
  else overview_log configs inputs cmap axs dev i j t.

(** The figure of one device: two rows of four panels. *)
Definition device_log (configs : pyval)
    (inputs : list (string * list (string * list Ndarray)))
    (output : list (string * list (string * Ndarray)))
    (cmap : Colormap) (dev : pyval) (t : list (event libE)) : Prop :=
  exists name fig axs rows,
    dev = PyStr name /\
    Forall2 (fun i row =>
               exists panels,
                 Forall2 (panel_log configs inputs output cmap axs name i)
                   [0; 1; 2; 3] panels /\
                 row = concat panels)
      [0; 1] rows /\
    t = [Event (plt_subplots 2 4) (inr (fig, axs));
         Event (fig_suptitle fig ("Device " +:+ name +:+
                                  " - Input voltage vs Output current")) (inr tt)] ++
        concat rows.

Definition multi_iv_plot_log (configs : pyval)
    (inputs : list (string * list (string * list Ndarray)))
    (output : list (string * list (string * Ndarray)))
    (t : list (event libE)) : Prop :=
  exists cmap devices figures,
    (devs <- py_getitem configs "devices" ;; py_iter devs)%result = inr devices /\
    Forall2 (device_log configs inputs output cmap) devices figures /\
    t = [Event (plt_get_cmap "tab10") (inr cmap)] ++
        concat figures ++
        [Event (plt_subplots_adjust 0.3%float 0.35%float) (inr tt);
         Event plt_show (inr tt)].

End Program.

End Plots.


(** ** The import statements of the two files *)

Module Imports.

Inductive statement : Type :=
| ImportModule (module : string) (alias : option string)
| FromImport (module name : string).

(** train_model.py, lines 1 to 11. *)
Definition train_model : list statement :=
  [ImportModule "os" None;
   ImportModule "torch" None;
   ImportModule "matplotlib.pyplot" (Some "plt");
   FromImport "brainspy.utils.pytorch" "TorchUtils";
   FromImport "brainspy.utils.io" "create_directory_timestamp";
   FromImport "brainspy.algorithms.gd" "train";
   FromImport "bspysmg.model.data.inputs.dataset" "load_data";
   FromImport "bspysmg.model.data.plots.model_results_plotter" "plot_all"].

(** plots.py, lines 1 to 6. *)
Definition plots : list statement :=
  [ImportModule "os" None;
   ImportModule "numpy" (Some "np");
   ImportModule "matplotlib.pyplot" (Some "plt");
   ImportModule "torch" None;
   FromImport "brainspy.utils.waveform" "WaveformManager"].

(** The functions each file defines. *)
Definition train_model_defines : list string :=
  ["train_surrogate_model"; "postprocess"].

Definition plots_defines : list string :=
  ["plot_error_hist"; "plot_error_vs_output"; "plot_waves"; "output_hist";
   "iv_plot"; "multi_iv_plot"].

(** The package of the repository: the files are
    [bspysmg/model/data/outputs/train_model.py] and [bspysmg/utils/plots.py]. *)
Definition package : string := "bspysmg".

(** The module a [from ... import name] binds [name] to. *)
Fixpoint module_of (statements : list statement) (name : string) : option string :=
  match statements with
  | [] => None
  | FromImport module imported :: rest =>
      if String.eqb imported name then Some module else module_of rest name
  | ImportModule _ _ :: rest => module_of rest name
  end.

(** The first component of a dotted module name. *)
Fixpoint top_level (module : string) : string :=
  match module with
  | EmptyString => EmptyString
  | String c rest =>
      if String.eqb (String c EmptyString) "." then EmptyString
      else String c (top_level rest)
  end.

(** A module of another distribution than the repository's package. *)
Definition external (module : string) : bool :=
  negb (String.eqb (top_level module) package).

(** [name] is not defined in the file and is imported from an external
    module. *)
Definition imported_from_outside (statements : list statement)
    (defines : list string) (name : string) : bool :=
  negb (bool_decide (name ∈ defines)) &&
  match module_of statements name with
  | Some module => external module
  | None => false
  end.

End Imports.


(** ** Stand-in libraries

    Small executable libraries over integer arrays, to run the routines on
    concrete inputs.  The world is a counter of the calls made so far, which
    doubles as the clock behind the timestamp and the random seed. *)

Module Lab.

Definition integers : TrainModel.Torch := {|
  TrainModel.Tensor := list Z;
  TrainModel.Ndarray := list Z;
  TrainModel.Scalar := Z;
  TrainModel.Dataset := (list Z * list Z)%type;
  TrainModel.get_numpy_from_tensor := fun t => t;
  TrainModel.mul_l := fun s a => Z.mul s <$> a;
  TrainModel.mul_r := fun a s => (fun x => x * s) <$> a;
  TrainModel.pow := Z.pow
|}.
#[local] Existing Instance integers.

(** brainspy, torch and matplotlib for [train_model.py]: [load_data]
    returns [loaders] with amplification 2, the model triples its inputs,
    [train] reports two histories. *)
Definition bench (loaders : list (@TrainModel.DataLoader integers))
    : handler (@TrainModel.libE integers) nat :=
  fun X c clock =>
    (match c in TrainModel.libE X return result X with
     | TrainModel.create_directory_timestamp path name =>
         match path with
         | PyStr p => inr (path_join p (name +:+ "_" +:+ pretty clock))
         | _ => inl TypeError
         end
     | TrainModel.init_seed seed _ =>
         match seed with
         | PyNone => inr (PyInt (Z.of_nat clock))
         | _ => inr seed
         end
     | TrainModel.load_data _ => inr (loaders, 2)
     | TrainModel.train model _ _ _ _ _ _ =>
         inr (model, {[ "performance_history" := [[9; 4]; [8; 5]] ]})
     | TrainModel.model_call _ inputs => inr (Z.mul 3 <$> inputs)
     | TrainModel.dataset_getitem d stop =>
         inr (py_slice d.1 None stop, py_slice d.2 None stop)
     | TrainModel.plot_all _ _ _ _ => inr tt
     | TrainModel.no_grad_enter => inr tt
     | TrainModel.no_grad_exit => inr tt
     | TrainModel.model_eval _ => inr tt
     | TrainModel.plt_figure => inr tt
     | TrainModel.plt_plot _ => inr tt
     | TrainModel.plt_title _ => inr tt
     | TrainModel.plt_legend _ => inr tt
     | TrainModel.plt_savefig _ => inr tt
     | TrainModel.print _ => inr tt
     end, S clock).

Definition configs : gmap string pyval :=
  <["results_base_dir" := PyStr "runs"]>
    (<["hyperparameters" := PyDict [("epochs", PyInt 2)]]> ∅).

Definition training_set : list Z * list Z := ([1; 2; 3], [10; 20; 30]).
Definition validation_set : list Z * list Z := ([4], [40]).
Definition test_set : list Z * list Z := ([5; 6], [50; 60]).

(** Three splits with data. *)
Definition full_loaders : list (@TrainModel.DataLoader integers) :=
  [ {| TrainModel.len := 3; TrainModel.dataset := training_set |};
    {| TrainModel.len := 1; TrainModel.dataset := validation_set |};
    {| TrainModel.len := 2; TrainModel.dataset := test_set |} ].

(** A training split only: the validation and test loaders are empty. *)
Definition training_only : list (@TrainModel.DataLoader integers) :=
  [ {| TrainModel.len := 3; TrainModel.dataset := training_set |};
    {| TrainModel.len := 0; TrainModel.dataset := ([], []) |};
    {| TrainModel.len := 0; TrainModel.dataset := ([], []) |} ].

(** Python's [/] and [int()] on the numbers met in configurations, for
    integers small enough to be floats exactly. *)
Definition float_of (v : pyval) : result float :=
  match v with
  | PyInt n =>
      if n <? 0 then inr (- PrimFloat.of_uint63 (Uint63.of_Z (- n)))%float
      else inr (PrimFloat.of_uint63 (Uint63.of_Z n))
  | PyFloat x => inr x
  | PyBool b => inr (if b then 1%float else 0%float)
  | _ => inl TypeError
  end.

Definition truediv (a b : pyval) : result pyval :=
  (x <- float_of a ;;
   y <- float_of b ;;
   if PrimFloat.eqb y 0%float then inl ZeroDivisionError
   else inr (PyFloat (x / y)%float))%result.

Definition int_of (v : pyval) : result Z :=
  match v with
  | PyInt n => inr n
  | PyBool b => inr (if b then 1 else 0)
  | PyFloat x =>
      match Prim2SF x with
      | S754_zero _ => inr 0
      | S754_finite negative m e =>
          let magnitude := if 0 <=? e then Zpos m * 2 ^ e else Zpos m / 2 ^ (- e) in
          inr (if negative then - magnitude else magnitude)
      | S754_infinity _ => inl OverflowError
      | S754_nan => inl ValueError
      end
  | _ => inl TypeError
  end.

(** numpy over lists of integers; a figure, an axes, a colour map and a
    colour are numbers, a waveform manager is its plateau length. *)
Definition arrays : Plots.Numpy := {|
  Plots.Ndarray := list Z;
  Plots.Tensor := list Z;
  Plots.Figure := nat;
  Plots.AxesGrid := nat;
  Plots.Axes := Z;
  Plots.Colormap := string;
  Plots.Color := Z;
  Plots.Waveforms := Z;
  Plots.np_concatenate := fun a b => inr (a ++ b);
  Plots.np_min := fun a =>
    match a with [] => inl ValueError | x :: a' => inr [foldr Z.min x a'] end;
  Plots.np_max := fun a =>
    match a with [] => inl ValueError | x :: a' => inr [foldr Z.max x a'] end;
  Plots.np_max_of := fun l =>
    match concat l with [] => inl ValueError | x :: a' => inr [foldr Z.max x a'] end;
  Plots.np_linspace := fun a b _ => inr (a ++ b);
  Plots.np_sqrt := fun a => Z.sqrt <$> a;
  Plots.np_size := fun a => Z.of_nat (length a);
  Plots.np_reshape := fun a n =>
    if n =? Z.of_nat (length a) then inr a else inl ValueError;
  Plots.np_abs := fun a => Z.abs <$> a;
  Plots.np_neg := fun a => Z.opp <$> a;
  Plots.np_scale := fun _ a => a;
  Plots.np_zeros_like := fun a => (fun _ => 0) <$> a;
  Plots.np_len := fun a => inr (Z.of_nat (length a));
  Plots.np_str := fun a => match a with [x] => pretty x | _ => "[...]" end;
  Plots.np_slice_from := fun a n => inr (py_slice a (Some n) None);
  Plots.torch_tensor := fun a => a;
  Plots.tensor_numpy := fun t => t;
  Plots.py_truediv := truediv;
  Plots.py_int := int_of
|}.
#[local] Existing Instance arrays.

(** matplotlib and brainspy for [plots.py]: a waveform manager repeats
    each point [plateau_length] times. *)
Definition studio : handler (@Plots.libE arrays) nat :=
  fun X c clock =>
    (match c in Plots.libE X return result X with
     | Plots.plt_get_cmap name => inr name
     | Plots.plt_subplots _ _ => inr (clock, clock)
     | Plots.axs_getitem _ i j => inr (4 * i + j)
     | Plots.cmap_call _ i => inr i
     | Plots.WaveformManager d =>
         (n <- dict_getitem d "plateau_length" ;; int_of n)%result
     | Plots.points_to_plateaus n points =>
         inr (points ≫= fun x => replicate (Z.to_nat n) x)
     | Plots.plt_figure => inr tt
     | Plots.plt_title _ => inr tt
     | Plots.plt_suptitle _ => inr tt
     | Plots.plt_subplot _ => inr tt
     | Plots.plt_plot _ _ _ => inr tt
     | Plots.plt_xlabel _ => inr tt
     | Plots.plt_ylabel _ => inr tt
     | Plots.plt_hist _ _ => inr tt
     | Plots.plt_xlim _ _ => inr tt
     | Plots.plt_legend _ => inr tt
     | Plots.plt_tight_layout => inr tt
     | Plots.plt_savefig _ _ => inr tt
     | Plots.plt_show => inr tt
     | Plots.plt_close => inr tt
     | Plots.plt_subplots_adjust _ _ => inr tt
     | Plots.fig_suptitle _ _ => inr tt
     | Plots.ax_plot _ _ _ _ => inr tt
     | Plots.ax_plot_empty _ => inr tt
     | Plots.ax_set_xlabel _ _ _ => inr tt
     | Plots.ax_set_ylabel _ _ _ => inr tt
     | Plots.ax_set_title _ _ => inr tt
     | Plots.ax_xaxis_grid _ _ => inr tt
     | Plots.ax_yaxis_grid _ _ => inr tt
     | Plots.ax_legend _ => inr tt
     end, S clock).

(** The same, with a [plt.savefig] that raises [TypeError] when the file
    name is not a string, as matplotlib's does for [False]. *)
Definition strict_studio : handler (@Plots.libE arrays) nat :=
  fun X c clock =>
    match c in Plots.libE X return result X * nat with
    | Plots.plt_savefig fname dpi =>
        match fname with
        | PyStr _ => studio _ (Plots.plt_savefig fname dpi) clock
        | _ => (inl TypeError, S clock)
        end
    | other => studio _ other clock
    end.

(** One device, 'A', whose first and third activation channels are on,
    read out three times as fast as it is driven. *)
Definition iv_configs (average : bool) : pyval :=
  PyDict
    [("devices", PyList [PyStr "A"]);
     ("driver",
      PyDict
        [("instruments_setup",
          PyDict
            [("average_io_point_difference", PyBool average);
             ("readout_sampling_frequency", PyInt 3000);
             ("activation_sampling_frequency", PyInt 1000);
             ("A", PyDict [("activation_channel_mask",
                            PyList [PyInt 1; PyInt 0; PyInt 1; PyInt 0;
                                    PyInt 0; PyInt 0; PyInt 0])])])])].

Definition iv_inputs : list (string * list (string * list (list Z))) :=
  (fun k => ("IV" +:+ pretty k, [("A", [[k; k + 1]; [10 * k; 10 * k + 1]])]))
    <$> [1; 2; 3; 4; 5; 6; 7].

Definition iv_output : list (string * list (string * list Z)) :=
  (fun k => ("IV" +:+ pretty k, [("A", [100 * k; 100 * k + 1])]))
    <$> [1; 2; 3; 4; 5; 6; 7].

End Lab.

(** * Reasoning about runs *)

Section Wp.
Context {E : Type -> Type} {World State : Type}.
Implicit Types (s : State) (t : list (event E)).

Lemma wp_ret {A} (a : A) s (post : result A -> State -> list (event E) -> Prop) :
  post (inr a) s [] -> wp (World:=World) (ret a) s post.
Proof. by intros Hp h w. Qed.

Lemma wp_raise {A} e s (post : result A -> State -> list (event E) -> Prop) :
  post (inl e) s [] -> wp (World:=World) (raise e) s post.
Proof. by intros Hp h w. Qed.

Lemma wp_lift {A} (r : result A) s (post : result A -> State -> list (event E) -> Prop) :
  post r s [] -> wp (World:=World) (lift r) s post.
Proof. by intros Hp h w. Qed.

Lemma wp_get s (post : result State -> State -> list (event E) -> Prop) :
  post (inr s) s [] -> wp (World:=World) get s post.
Proof. by intros Hp h w. Qed.

Lemma wp_put s' s (post : result unit -> State -> list (event E) -> Prop) :
  post (inr tt) s' [] -> wp (World:=World) (put s') s post.
Proof. by intros Hp h w. Qed.

Lemma wp_call {X} (c : E X) s (post : result X -> State -> list (event E) -> Prop) :
  (forall o, post o s [Event c o]) -> wp (World:=World) (call c) s post.
Proof. intros Hp h w. unfold call. destruct (h X c w) as [o w']. apply Hp. Qed.

Lemma wp_bind {A B} (m : M E World State A) (f : A -> M E World State B) s post :
  wp m s (fun v s1 t1 =>
    match v with
    | inl e => post (inl e) s1 t1
    | inr a => wp (f a) s1 (fun v' s2 t2 => post v' s2 (t1 ++ t2))
    end) ->
  wp (bind m f) s post.
Proof.
  intros Hm h w. specialize (Hm h w). unfold bind.
  destruct (m h s w) as [[e|a] s1 w1 t1]; simpl in *; [done|].
  specialize (Hm h w1). by destruct (f a h s1 w1).
Qed.

Lemma wp_finally {A} (body : M E World State A) cleanup s post :
  wp body s (fun v s1 t1 =>
    wp cleanup s1 (fun v' s2 t2 =>
      post (match v' with inl e => inl e | inr _ => v end) s2 (t1 ++ t2))) ->
  wp (finally body cleanup) s post.
Proof.
  intros Hm h w. specialize (Hm h w). unfold finally.
  destruct (body h s w) as [v s1 w1 t1]; simpl in *.
  specialize (Hm h w1). by destruct (cleanup h s1 w1) as [[e|u] s2 w2 t2].
Qed.

Lemma wp_mono {A} (m : M E World State A) s
    (post post' : result A -> State -> list (event E) -> Prop) :
  wp m s post -> (forall v s' t, post v s' t -> post' v s' t) -> wp m s post'.
Proof. intros Hm Hi h w. apply Hi, Hm. Qed.

(** A loop keeps what every pass keeps: [inv] relates the store before to
    the store and log after, holds of no pass at all, and composes. *)
Lemma wp_forM_ {A} (l : list A) (body : A -> M E World State unit)
    (inv : State -> State -> list (event E) -> Prop) s :
  (forall s0, inv s0 s0 []) ->
  (forall s0 s1 s2 t1 t2, inv s0 s1 t1 -> inv s1 s2 t2 -> inv s0 s2 (t1 ++ t2)) ->
  (forall a s0, wp (body a) s0 (fun _ s1 t => inv s0 s1 t)) ->
  wp (forM_ l body) s (fun _ s1 t => inv s s1 t).
Proof.
  intros Hnil Happ Hbody. revert s. induction l as [|a l IH]; intros s; simpl.
  - apply wp_ret, Hnil.
  - apply wp_bind. eapply wp_mono; [apply Hbody|]. intros [e|[]] s1 t1 H1; simpl.
    + rewrite <- (app_nil_r t1). eapply Happ; [done|apply Hnil].
    + eapply wp_mono; [apply IH|]. intros v s2 t2 H2. by eapply Happ.
Qed.

(** A comprehension [[F(l[i]) for i in range(len(l))]] whose body neither
    raises nor calls a library is [map F l]. *)
Lemma mapM_over_range {A B} (l : list A) (F : A -> B)
    (f : Z -> M E World State B) (k : nat) h s w :
  (forall i a, l !! i = Some a ->
     forall h s w, f (Z.of_nat (k + i)) h s w = Run (inr (F a)) s w []) ->
  mapM f (Z.of_nat <$> seq k (length l)) h s w = Run (inr (F <$> l)) s w [].
Proof.
  revert k. induction l as [|a l IH]; intros k Hf; [done|].
  cbn [length seq]. rewrite !fmap_cons. cbn [mapM].
  unfold bind at 1. rewrite <- (Nat.add_0_r k) at 1. rewrite (Hf 0%nat a eq_refl).
  unfold bind. rewrite (IH (S k)); [done|].
  intros i b Hi. rewrite Nat.add_succ_l, <- Nat.add_succ_r. by apply Hf.
Qed.

End Wp.

(** One step of a run: the rule for the head of the program. *)
Ltac wp_step :=
  lazymatch goal with
  | |- wp (bind _ _) _ _ => apply wp_bind
  | |- wp (finally _ _) _ _ => apply wp_finally
  | |- wp (ret _) _ _ => apply wp_ret
  | |- wp (raise _) _ _ => apply wp_raise
  | |- wp (lift _) _ _ => apply wp_lift
  | |- wp get _ _ => apply wp_get
  | |- wp (put _) _ _ => apply wp_put
  | |- wp (call _) _ _ => apply wp_call; intros [?|?]
  | |- wp (let '(_, _) := ?p in _) _ _ => destruct p
  | |- wp (if ?b then _ else _) _ _ => destruct b eqn:?
  | |- wp (match ?x with _ => _ end) _ _ => destruct x eqn:?
  | |- match ?r with inl _ => _ | inr _ => _ end =>
      first [ match goal with Heq : r = _ |- _ => rewrite Heq end | destruct r eqn:? ]
  end.

Ltac wp_run tac := repeat (wp_step; simpl; try tac).

(** * Facts about train_model.py *)

Module TrainModelFacts.
Import TrainModel.

Section Facts.
Context `{Torch} {World : Type}.
Implicit Types (cfg : gmap string pyval) (h : handler libE World) (w : World).

Lemma list_getitem_lookup {A} (l : list A) (i : nat) (a : A) :
  l !! i = Some a -> list_getitem l (Z.of_nat i) = inr a.
Proof.
  intros Hi. unfold list_getitem. pose proof (lookup_lt_Some _ _ _ Hi) as Hlt.
  assert ((Z.of_nat i <? 0) = false) as Hneg by (apply Z.ltb_ge; lia).
  assert ((Z.of_nat (length l) <=? Z.of_nat i) = false) as Hin by (apply Z.leb_gt; lia).
  rewrite Hneg. cbv zeta. by rewrite Hneg, Hin, Nat2Z.id, Hi.
Qed.

Lemma list_getitem_inv {A} (l : list A) (i : nat) (a : A) :
  list_getitem l (Z.of_nat i) = inr a -> l !! i = Some a.
Proof.
  unfold list_getitem.
  assert ((Z.of_nat i <? 0) = false) as Hneg by (apply Z.ltb_ge; lia).
  rewrite Hneg. cbv zeta. rewrite Hneg. simpl.
  destruct (Z.of_nat (length l) <=? Z.of_nat i); [done|].
  rewrite Nat2Z.id. by destruct (l !! i); intros [= ->].
Qed.

Lemma list_getitem_short {A} (l : list A) (i : Z) e :
  0 <= i -> list_getitem l i = inl e -> Z.of_nat (length l) <= i.
Proof.
  unfold list_getitem. intros Hi.
  assert ((i <? 0) = false) as Hneg by (apply Z.ltb_ge; lia).
  rewrite Hneg. cbv zeta. rewrite Hneg. simpl.
  destruct (Z.of_nat (length l) <=? i) eqn:Hle; [intros _; by apply Z.leb_le|].
  apply Z.leb_gt in Hle.
  destruct (l !! Z.to_nat i) eqn:Hlookup; [done|].
  apply lookup_ge_None in Hlookup. lia.
Qed.

(** The comprehension that builds the training profile. *)
Lemma wp_comprehension {A B} (l : list A) (F : A -> B)
    (f : Z -> M libE World (gmap string pyval) B) cfg
    (post : result (list B) -> gmap string pyval -> list (event libE) -> Prop) :
  (forall i a, l !! i = Some a ->
     forall h s w, f (Z.of_nat i) h s w = Run (inr (F a)) s w []) ->
  post (inr (F <$> l)) cfg [] ->
  wp (mapM f (range (length l))) cfg post.
Proof.
  intros Hf Hpost h w. unfold range.
  by rewrite (mapM_over_range l F f 0 h cfg w Hf).
Qed.

(** [postprocess] leaves [configs] alone, makes no call of the set-up
    steps, and when it returns its log is [postprocess_events]. *)
Lemma postprocess_spec cfg dataset model amplification results_dir label :
  wp (World:=World) (postprocess dataset model amplification results_dir label) cfg
    (fun v s t =>
       s = cfg /\
       Forall (fun e => step_of e = Afterwards) t /\
       (v = inr tt ->
        exists inputs targets predictions,
          samples_of dataset inputs targets /\
          t = postprocess_events dataset model amplification results_dir label
                inputs targets predictions)).
Proof.
  unfold postprocess, samples_getitem_all.
  wp_run ltac:(repeat match goal with u : unit |- _ => destruct u end);
    (split; [done|]); (split; [by repeat constructor|]); try done;
    intros _; subst dataset; by do 3 eexists.
Qed.

(** The rule for a [postprocess] in the middle of a program. *)
Lemma wp_postprocess {B} cfg dataset model amplification results_dir label
    (k : unit -> M libE World (gmap string pyval) B)
    (post : result B -> gmap string pyval -> list (event libE) -> Prop) :
  (forall e t, Forall (fun e => step_of e = Afterwards) t -> post (inl e) cfg t) ->
  (forall inputs targets predictions,
     samples_of dataset inputs targets ->
     wp (k tt) cfg (fun v s t =>
       post v s (postprocess_events dataset model amplification results_dir label
                   inputs targets predictions ++ t))) ->
  wp (bind (postprocess dataset model amplification results_dir label) k) cfg post.
Proof.
  intros Hraise Hret. apply wp_bind. eapply wp_mono; [apply postprocess_spec|].
  intros [e|[]] s t (-> & Hafter & Hlog); simpl; [by apply Hraise|].
  destruct (Hlog eq_refl) as (inputs & targets & predictions & Hsamples & ->).
  by apply Hret.
Qed.

(** The comprehension of [train_surrogate_model], once
    [performances['performance_history']] is known to be [history]. *)
Lemma wp_training_profile (performances : gmap string (list Tensor)) history
    amplification cfg
    (post : result (list Ndarray) -> gmap string pyval -> list (event libE) -> Prop) :
  performances !! "performance_history" = Some history ->
  post (inr ((fun entry => mul_r (get_numpy_from_tensor entry) (pow amplification 2))
               <$> history)) cfg [] ->
  wp (World:=World)
    (mapM (fun i =>
             history <- dict_getitem performances "performance_history" ;;
             entry <- lift (list_getitem history i) ;;
             ret (mul_r (get_numpy_from_tensor entry) (pow amplification 2)))%monad
          (range (length history))) cfg post.
Proof.
  intros Hhistory Hpost. eapply wp_comprehension; [|exact Hpost].
  intros i entry Hi h s w. unfold dict_getitem, bind. rewrite Hhistory. simpl.
  by rewrite (list_getitem_lookup _ _ _ Hi).
Qed.

Ltac wp_train :=
  lazymatch goal with
  | |- wp (bind (postprocess _ _ _ _ _) _) _ _ =>
      apply wp_postprocess; [intros ? ? ?|intros ? ? ? ?]
  | |- wp (postprocess _ _ _ _ _) _ _ =>
      let Hlog := fresh "Hlog" in
      eapply wp_mono; [apply postprocess_spec|];
      intros [?|[]] ? ? (-> & ? & Hlog);
      [|destruct (Hlog eq_refl) as (? & ? & ? & ? & ->)]
  | |- wp (mapM _ (range (length _))) _ _ =>
      eapply wp_training_profile; [eassumption|]
  | |- wp (dict_getitem _ _) _ _ => unfold dict_getitem at 1
  | _ => wp_step
  end.

Lemma train_surrogate_model_returns cfg model criterion optimizer logger main_folder :
  wp (World:=World)
    (train_surrogate_model model criterion optimizer logger main_folder) cfg
    (fun v s t =>
  v = inr tt ->
  exists base results_dir seed dataloaders amplification dl0 dl1 dl2
         hyperparameters trained performances history
         (training validation test : Tensor * Tensor * Tensor),
    cfg !! "results_base_dir" = Some base /\
    cfg !! "hyperparameters" = Some hyperparameters /\
    dataloaders !! 0%nat = Some dl0 /\
    dataloaders !! 1%nat = Some dl1 /\
    dataloaders !! 2%nat = Some dl2 /\
    performances !! "performance_history" = Some history /\
    s = <["seed" := seed]> cfg /\
    t =
      [Event (create_directory_timestamp base main_folder) (inr results_dir);
       Event (init_seed (default PyNone (cfg !! "seed")) true) (inr seed);
       Event (load_data (<["seed" := seed]> cfg)) (inr (dataloaders, amplification));
       Event (train model (dl0, dl1) criterion optimizer hyperparameters logger
                results_dir) (inr (trained, performances))] ++
      postprocess_events (Whole (dataset dl0)) trained amplification results_dir
        "TRAINING" training.1.1 training.1.2 training.2 ++
      (if (0 <? len dl1)%nat
       then postprocess_events (Whole (dataset dl1)) trained amplification results_dir
              "VALIDATION" validation.1.1 validation.1.2 validation.2
       else Event (dataset_getitem (dataset dl0) (Some 1000)) (inr validation.1) ::
            postprocess_events (Sliced validation.1.1 validation.1.2) trained
              amplification results_dir "VALIDATION"
              validation.1.1 validation.1.2 validation.2) ++
      (if (0 <? len dl2)%nat
       then postprocess_events (Whole (dataset dl2)) trained amplification results_dir
              "TEST" test.1.1 test.1.2 test.2
       else []) ++
      profile_events results_dir
        ((fun entry => mul_r (get_numpy_from_tensor entry) (pow amplification 2))
           <$> history)).
Proof.
  unfold train_surrogate_model, configs_getitem, configs_contains, configs_setitem.
  repeat (wp_train; simpl; try discriminate).
  all: intros _.
  all: repeat match goal with
         | Hb : bool_decide (is_Some (_ !! "seed")) = false |- _ =>
             apply bool_decide_eq_false in Hb; rewrite <- eq_None_not_Some in Hb;
             rewrite Hb
         | Hs : _ !! "seed" = Some _ |- _ => rewrite Hs; clear Hs
         | Hh : <["seed":=_]> _ !! "hyperparameters" = _ |- _ =>
             rewrite lookup_insert_ne in Hh by done
         end.
  all: try match goal with p : (Tensor * Tensor)%type |- _ => destruct p end.
  all: repeat match goal with
         | Hs : samples_of (Sliced _ _) _ _ |- _ => destruct Hs as [-> ->]
         end.
  all: do 12 eexists; do 3 (eexists (_, _, _)).
  all: repeat lazymatch goal with
         | |- _ /\ _ => split
         | |- _ !! _ = Some _ => first [eassumption | by eapply list_getitem_inv]
         end.
  all: repeat match goal with u : unit |- _ => destruct u end.
  all: repeat match goal with Hb : (0 <? _)%nat = _ |- _ => rewrite Hb; clear Hb end.
  all: try reflexivity.
  Unshelve. all: assumption.
Qed.

Lemma train_surrogate_model_runs cfg model criterion optimizer logger main_folder :
  wp (World:=World)
    (train_surrogate_model model criterion optimizer logger main_folder) cfg
    (fun _ => run_log cfg model criterion optimizer logger main_folder).
Proof.
  unfold train_surrogate_model, configs_getitem, configs_contains, configs_setitem.
  repeat (wp_train; simpl).
  all: repeat match goal with
         | Hh : <["seed":=_]> _ !! "hyperparameters" = _ |- _ =>
             rewrite lookup_insert_ne in Hh by done
         end.
  all: first
         [ apply stopped_at_start
         | eapply stopped_at_directory; eassumption
         | eapply stopped_at_seeding; [eassumption|]
         | eapply stopped_at_loading; [eassumption|]
         | eapply reached_training;
           [eassumption| |eassumption|by eapply list_getitem_inv
           |by eapply list_getitem_inv|] ].
  all: try match goal with
         | Hs : ?c !! "seed" = Some ?p |- ?p = default PyNone (?c !! "seed") =>
             by rewrite Hs
         | Hb : bool_decide (is_Some (?c !! "seed")) = false
           |- PyNone = default PyNone (?c !! "seed") =>
             apply bool_decide_eq_false in Hb; rewrite <- eq_None_not_Some in Hb;
             by rewrite Hb
         end.
  all: repeat match goal with
         | |- Forall _ (_ :: _) => constructor; [done|]
         | |- Forall _ [] => constructor
         | |- Forall _ _ => assumption
         end.
Qed.


Lemma afterwards_silent (t : list (event libE)) :
  Forall (fun e => step_of e = Afterwards) t ->
  seed_calls t = [] /\ seeds_returned t = [] /\ configs_loaded t = [] /\
  train_calls t = [].
Proof.
  induction 1 as [|[X c o] t He _ IH]; simpl; [done|].
  by destruct c, IH as (? & ? & ? & ?).
Qed.



Lemma regroup_around {A} (setup training validation test profile : list A) :
  setup ++ training ++ validation ++ test ++ profile =
  (setup ++ training) ++ validation ++ (test ++ profile).
Proof. by rewrite <- !app_assoc. Qed.

Lemma ltb_len_zero (n : nat) : n = 0%nat -> (0 <? n)%nat = false.
Proof. by intros ->. Qed.

Lemma ltb_len_nonzero (n : nat) : n <> 0%nat -> (0 <? n)%nat = true.
Proof. intros Hn. apply Nat.ltb_lt. lia. Qed.

(** C2, as amended. When [train_surrogate_model] returns, it has
    post-processed the training split under 'TRAINING'; under 'VALIDATION'
    the validation split when its dataloader is not empty, and otherwise the
    first 1000 training samples; and the test split under 'TEST' only when
    the test dataloader is not empty.  These are all the [plot_all] calls. *)
Theorem splits_postprocessed_when_present h cfg w
    model criterion optimizer logger main_folder :
  let r := train_surrogate_model model criterion optimizer logger main_folder h cfg w in
  value r = inr tt ->
  exists dataloaders amplification dl0 dl1 dl2 results_dir trained
         (training validation test : Tensor * Tensor * Tensor) before after,
    data_loaded (trace r) = [(dataloaders, amplification)] /\
    dataloaders !! 0%nat = Some dl0 /\
    dataloaders !! 1%nat = Some dl1 /\
    dataloaders !! 2%nat = Some dl2 /\
    trace r =
      before ++
      postprocess_events (Whole (dataset dl0)) trained amplification results_dir
        "TRAINING" training.1.1 training.1.2 training.2 ++
      (if decide (len dl1 = 0%nat)
       then Event (dataset_getitem (dataset dl0) (Some 1000)) (inr validation.1) ::
            postprocess_events (Sliced validation.1.1 validation.1.2) trained
              amplification results_dir "VALIDATION"
              validation.1.1 validation.1.2 validation.2
       else postprocess_events (Whole (dataset dl1)) trained amplification results_dir
              "VALIDATION" validation.1.1 validation.1.2 validation.2) ++
      (if decide (len dl2 = 0%nat)
       then []
       else postprocess_events (Whole (dataset dl2)) trained amplification results_dir
              "TEST" test.1.1 test.1.2 test.2) ++
      after /\
    (plots (trace r)).*1.*1 =
      ["TRAINING"; "VALIDATION"] ++ (if decide (len dl2 = 0%nat) then [] else ["TEST"]).
Proof.
  intros r.
  pose proof (train_surrogate_model_returns cfg model criterion optimizer logger
                main_folder h w) as Hret.
  cbv beta in Hret. fold r in Hret. clearbody r. intros Hvalue.
  destruct (Hret Hvalue)
    as (base & results_dir & seed & dataloaders & amplification & dl0 & dl1 & dl2
        & hyperparameters & trained & performances & history
        & training & validation & test & _ & _ & H0 & H1 & H2 & _ & _ & Hlog).
  exists dataloaders, amplification, dl0, dl1, dl2, results_dir, trained,
    training, validation, test.
  destruct (decide (len dl1 = 0%nat)) as [Hv|Hv];
    [rewrite (ltb_len_zero _ Hv) in Hlog|rewrite (ltb_len_nonzero _ Hv) in Hlog];
    (destruct (decide (len dl2 = 0%nat)) as [Ht|Ht];
     [rewrite (ltb_len_zero _ Ht) in Hlog|rewrite (ltb_len_nonzero _ Ht) in Hlog]);
    rewrite Hlog; do 2 eexists;
    (split; [done|]); (split; [done|]); (split; [done|]); (split; [done|]);
    (split; [reflexivity|done]).
Qed.

(** C3. In every run, returning or raising, [init_seed] is only ever
    called on [configs['seed']] when the key is there and on [None]
    otherwise, with [deterministic=True]; the [configs] that [load_data]
    receives is the caller's with the key 'seed' set to what [init_seed]
    returned; and the routine leaves [configs] as it found it up to that one
    key.  When the routine returns, 'seed' holds what [init_seed] returned. *)
Theorem seed_is_the_only_key_written h cfg w
    model criterion optimizer logger main_folder :
  let r := train_surrogate_model model criterion optimizer logger main_folder h cfg w in
  Forall (fun call => call = (default PyNone (cfg !! "seed"), true))
    (seed_calls (trace r)) /\
  configs_loaded (trace r) =
    (fun seed => <["seed" := seed]> cfg) <$> seeds_returned (trace r) /\
  store r = match seeds_returned (trace r) with
            | [] => cfg
            | seed :: _ => <["seed" := seed]> cfg
            end /\
  (forall key, key <> "seed" -> store r !! key = cfg !! key) /\
  (value r = inr tt ->
   exists seed, seeds_returned (trace r) = [seed] /\ store r !! "seed" = Some seed).
Proof.
  intros r.
  pose proof (train_surrogate_model_runs cfg model criterion optimizer logger
                main_folder h w) as Hlog.
  pose proof (train_surrogate_model_returns cfg model criterion optimizer logger
                main_folder h w) as Hret.
  cbv beta in Hlog, Hret. fold r in Hlog, Hret. clearbody r.
  split; [|split; [|split; [|split]]].
  - destruct Hlog as [| | |? ? ? ? ? ? ->|? ? ? ? ? ? ? ? ? ? after ? -> ? ? ? Hafter];
      [by constructor|by constructor|subst; by repeat constructor
      |by repeat constructor|].
    unfold seed_calls. rewrite omap_app. fold (seed_calls after).
    destruct (afterwards_silent _ Hafter) as (-> & _). by repeat constructor.
  - destruct Hlog as [| | | |? ? ? ? ? ? ? ? ? ? after ? ? ? ? ? Hafter]; try done.
    unfold configs_loaded, seeds_returned. rewrite !omap_app.
    fold (configs_loaded after). fold (seeds_returned after).
    by destruct (afterwards_silent _ Hafter) as (_ & -> & -> & _).
  - destruct Hlog as [| | | |? ? ? ? ? ? ? ? ? ? after ? ? ? ? ? Hafter]; try done.
  - intros key Hkey.
    destruct Hlog; try done; by rewrite lookup_insert_ne.
  - intros Hvalue.
    destruct (Hret Hvalue)
      as (base & results_dir & seed & dataloaders & amplification & dl0 & dl1 & dl2
          & hyperparameters & trained & performances & history
          & training & validation & test & _ & _ & _ & _ & _ & _ & -> & ->).
    exists seed. split; [|by rewrite lookup_insert_eq].
    by destruct (0 <? len dl1)%nat, (0 <? len dl2)%nat.
Qed.

(** C4. When [train_surrogate_model] returns: if the validation dataloader
    is empty ([len(dataloaders[1]) == 0]) the routine has read the first
    1000 samples of the training dataset ([dataloaders[0].dataset[:1000]])
    and post-processed them under 'VALIDATION'; otherwise it has
    post-processed the whole validation dataset under that label.  Either
    way there is exactly one 'VALIDATION' plot. *)
Theorem validation_falls_back_to_training_samples h cfg w
    model criterion optimizer logger main_folder :
  let r := train_surrogate_model model criterion optimizer logger main_folder h cfg w in
  value r = inr tt ->
  exists dataloaders amplification dl0 dl1 results_dir trained
         inputs targets predictions before after,
    data_loaded (trace r) = [(dataloaders, amplification)] /\
    dataloaders !! 0%nat = Some dl0 /\
    dataloaders !! 1%nat = Some dl1 /\
    trace r =
      before ++
      (if decide (len dl1 = 0%nat)
       then Event (dataset_getitem (dataset dl0) (Some 1000)) (inr (inputs, targets)) ::
            postprocess_events (Sliced inputs targets) trained amplification
              results_dir "VALIDATION" inputs targets predictions
       else postprocess_events (Whole (dataset dl1)) trained amplification results_dir
              "VALIDATION" inputs targets predictions) ++
      after /\
    filter (fun p => p.1.1 = "VALIDATION") (plots (trace r)) =
      [("VALIDATION",
        mul_l amplification (get_numpy_from_tensor targets),
        mul_l amplification (get_numpy_from_tensor predictions))].
Proof.
  intros r.
  pose proof (train_surrogate_model_returns cfg model criterion optimizer logger
                main_folder h w) as Hret.
  cbv beta in Hret. fold r in Hret. clearbody r. intros Hvalue.
  destruct (Hret Hvalue)
    as (base & results_dir & seed & dataloaders & amplification & dl0 & dl1 & dl2
        & hyperparameters & trained & performances & history
        & training & [[inputs targets] predictions] & test
        & _ & _ & H0 & H1 & H2 & _ & _ & Hlog).
  exists dataloaders, amplification, dl0, dl1, results_dir, trained,
    inputs, targets, predictions.
  destruct (decide (len dl1 = 0%nat)) as [Hv|Hv];
    [rewrite (ltb_len_zero _ Hv) in Hlog|rewrite (ltb_len_nonzero _ Hv) in Hlog];
    rewrite Hlog; do 2 eexists;
    (split; [by destruct (0 <? len dl2)%nat|]); (split; [done|]); (split; [done|]);
    (split; [apply regroup_around|by destruct (0 <? len dl2)%nat]).
Qed.

(** C5. When [train_surrogate_model] returns, the one profile it plotted
    has as many entries as [performances['performance_history']], and its
    i-th entry is the i-th entry of the history, as a numpy array, times
    [amplification ** 2]. *)
Theorem training_profile_scales_the_history h cfg w
    model criterion optimizer logger main_folder :
  let r := train_surrogate_model model criterion optimizer logger main_folder h cfg w in
  value r = inr tt ->
  exists dataloaders amplification trained performances history training_profile,
    data_loaded (trace r) = [(dataloaders, amplification)] /\
    train_returned (trace r) = [(trained, performances)] /\
    performances !! "performance_history" = Some history /\
    profiles_plotted (trace r) = [training_profile] /\
    length training_profile = length history /\
    forall (i : nat) entry,
      history !! i = Some entry ->
      training_profile !! i =
        Some (mul_r (get_numpy_from_tensor entry) (pow amplification 2)).
Proof.
  intros r.
  pose proof (train_surrogate_model_returns cfg model criterion optimizer logger
                main_folder h w) as Hret.
  cbv beta in Hret. fold r in Hret. clearbody r. intros Hvalue.
  destruct (Hret Hvalue)
    as (base & results_dir & seed & dataloaders & amplification & dl0 & dl1 & dl2
        & hyperparameters & trained & performances & history
        & training & validation & test & _ & _ & _ & _ & _ & Hhistory & _ & ->).
  exists dataloaders, amplification, trained, performances, history.
  eexists. split; [by destruct (0 <? len dl1)%nat, (0 <? len dl2)%nat|].
  split; [by destruct (0 <? len dl1)%nat, (0 <? len dl2)%nat|].
  split; [done|].
  split; [by destruct (0 <? len dl1)%nat, (0 <? len dl2)%nat|].
  split; [by rewrite length_fmap|].
  intros i entry Hi. by rewrite list_lookup_fmap, Hi.
Qed.

(** C6. When [postprocess] returns, the targets it passed to [plot_all] are
    [amplification] times the targets of the dataset and the outputs are
    [amplification] times what the model returned on the inputs of the
    dataset: both go through the same map [x => amplification * x], and
    this is the only [plot_all] call. *)
Theorem postprocess_rescales_targets_and_outputs h cfg w
    dataset model amplification results_dir label :
  let r := postprocess dataset model amplification results_dir label h cfg w in
  value r = inr tt ->
  exists inputs targets predictions,
    samples_of dataset inputs targets /\
    trace r = postprocess_events dataset model amplification results_dir label
                inputs targets predictions /\
    let rescale := mul_l amplification in
    plots (trace r) =
      [(label, rescale (get_numpy_from_tensor targets),
               rescale (get_numpy_from_tensor predictions))].
Proof.
  intros r.
  pose proof (postprocess_spec cfg dataset model amplification results_dir label h w)
    as Hspec.
  cbv beta in Hspec. fold r in Hspec. clearbody r. intros Hvalue.
  destruct Hspec as (_ & _ & Hlog).
  destruct (Hlog Hvalue) as (inputs & targets & predictions & Hsamples & ->).
  exists inputs, targets, predictions. split; [done|]. split; [done|].
  by destruct dataset.
Qed.

(** *** Further properties of the routine *)

(** [init_seed] is called at most once in a run, with [deterministic=True],
    on [configs['seed']] when the key is there and on [None] otherwise. *)
Theorem init_seed_called_deterministic h cfg w
    model criterion optimizer logger main_folder :
  let r := train_surrogate_model model criterion optimizer logger main_folder h cfg w in
  seed_calls (trace r) = [] \/
  seed_calls (trace r) = [(default PyNone (cfg !! "seed"), true)].
Proof.
  intros r.
  pose proof (train_surrogate_model_runs cfg model criterion optimizer logger
                main_folder h w) as Hlog.
  cbv beta in Hlog. fold r in Hlog. clearbody r.
  destruct Hlog as [| |? ? ? ? ? ->|? ? ? ? ? ? ->|? ? ? ? ? ? ? ? ? ? after ? -> ? ? ? Hafter];
    [by left|by left|by right|by right|right].
  unfold seed_calls. rewrite omap_app. fold (seed_calls after).
  by destruct (afterwards_silent _ Hafter) as (-> & _).
Qed.

(** Without [configs['results_base_dir']] the routine raises [KeyError]
    before any library call and leaves [configs] as it was. *)
Theorem missing_results_base_dir_raises h cfg w
    model criterion optimizer logger main_folder :
  cfg !! "results_base_dir" = None ->
  let r := train_surrogate_model model criterion optimizer logger main_folder h cfg w in
  value r = inl (KeyError "results_base_dir") /\ trace r = [] /\ store r = cfg.
Proof.
  intros Hmissing.
  assert (wp (World:=World)
            (train_surrogate_model model criterion optimizer logger main_folder) cfg
            (fun v s t => v = inl (KeyError "results_base_dir") /\ t = [] /\ s = cfg))
    as Hwp; [|apply Hwp].
  unfold train_surrogate_model, configs_getitem.
  apply wp_bind, wp_bind, wp_get. simpl. rewrite Hmissing. by apply wp_raise.
Qed.

(** When the routine returns, the one figure it saved itself is
    [os.path.join(results_dir, 'training_profile')], for the [results_dir]
    that [create_directory_timestamp] returned, and its last call prints
    ['Model saved in :' + results_dir]. *)
Theorem training_profile_saved_in_results_dir h cfg w
    model criterion optimizer logger main_folder :
  let r := train_surrogate_model model criterion optimizer logger main_folder h cfg w in
  value r = inr tt ->
  exists base results_dir,
    head (trace r) =
      Some (Event (create_directory_timestamp base main_folder) (inr results_dir)) /\
    figures_saved (trace r) = [path_join results_dir "training_profile"] /\
    last (trace r) = Some (Event (print ("Model saved in :" +:+ results_dir)) (inr tt)).
Proof.
  intros r.
  pose proof (train_surrogate_model_returns cfg model criterion optimizer logger
                main_folder h w) as Hret.
  cbv beta in Hret. fold r in Hret. clearbody r. intros Hvalue.
  destruct (Hret Hvalue)
    as (base & results_dir & seed & dataloaders & amplification & dl0 & dl1 & dl2
        & hyperparameters & trained & performances & history
        & training & validation & test & _ & _ & _ & _ & _ & _ & _ & ->).
  exists base, results_dir. split; [done|].
  split; [by destruct (0 <? len dl1)%nat, (0 <? len dl2)%nat|].
  rewrite !app_assoc. unfold profile_events.
  match goal with
  | |- last (?l ++ _) = _ => generalize l
  end.
  intros l. by rewrite last_app.
Qed.

(** [postprocess] leaves [torch.no_grad()] as often as it entered it, also
    when the model or the dataset raises.  The model is put in evaluation
    mode and called, and the dataset read, inside the block, and [plot_all]
    is called outside it: when [plot_all] is called, it is the last call of
    the run and the call before it is the [__exit__] of the block, which
    returned. *)
Theorem postprocess_leaves_no_grad h cfg w
    dataset model amplification results_dir label :
  let r := postprocess dataset model amplification results_dir label h cfg w in
  no_grad_left (trace r) = no_grad_entered (trace r) /\
  (plots (trace r) <> [] -> no_grad_left (trace r) = 1%nat) /\
  no_grad_scoped false (trace r) /\
  (plots (trace r) <> [] ->
   exists targets outputs o before,
     reverse (trace r) =
       Event (plot_all targets outputs results_dir label) o ::
       Event no_grad_exit (inr tt) :: before /\
     plots before = []).
Proof.
  intros r.
  assert (wp (World:=World)
            (postprocess dataset model amplification results_dir label) cfg
            (fun _ _ t =>
               no_grad_left t = no_grad_entered t /\
               (plots t <> [] -> no_grad_left t = 1%nat) /\
               no_grad_scoped false t /\
               (plots t <> [] ->
                exists targets outputs o before,
                  reverse t =
                    Event (plot_all targets outputs results_dir label) o ::
                    Event no_grad_exit (inr tt) :: before /\
                  plots before = [])))
    as Hwp; [|apply Hwp].
  unfold postprocess, samples_getitem_all.
  destruct dataset; wp_run idtac.
  all: repeat match goal with u : unit |- _ => destruct u end.
  all: split; [done|]. all: split; [done|].
  all: split; [by repeat split|].
  all: intros Hplots; try done.
  all: by eexists _, _, _, _.
Qed.

(** A run that returns found what it reads: [configs] had the keys
    'results_base_dir' and 'hyperparameters', [load_data] returned at least
    three dataloaders, and the performances [train] returned had the key
    'performance_history'. *)
Theorem returning_run_found_its_inputs h cfg w
    model criterion optimizer logger main_folder :
  let r := train_surrogate_model model criterion optimizer logger main_folder h cfg w in
  value r = inr tt ->
  is_Some (cfg !! "results_base_dir") /\
  is_Some (cfg !! "hyperparameters") /\
  exists dataloaders amplification trained performances,
    data_loaded (trace r) = [(dataloaders, amplification)] /\
    (3 <= length dataloaders)%nat /\
    train_returned (trace r) = [(trained, performances)] /\
    is_Some (performances !! "performance_history").
Proof.
  intros r.
  pose proof (train_surrogate_model_returns cfg model criterion optimizer logger
                main_folder h w) as Hret.
  cbv beta in Hret. fold r in Hret. clearbody r. intros Hvalue.
  destruct (Hret Hvalue)
    as (base & results_dir & seed & dataloaders & amplification & dl0 & dl1 & dl2
        & hyperparameters & trained & performances & history
        & training & validation & test & Hbase & Hhyper & _ & _ & H2 & Hhistory & _ & ->).
  split; [by eexists|]. split; [by eexists|].
  exists dataloaders, amplification, trained, performances.
  split; [by destruct (0 <? len dl1)%nat, (0 <? len dl2)%nat|].
  split; [apply lookup_lt_Some in H2; lia|].
  split; [by destruct (0 <? len dl1)%nat, (0 <? len dl2)%nat|by eexists].
Qed.

(** The model that is post-processed is the one [train] returned, not the
    one the caller passed: when the routine returns, every [model.eval()]
    and every [model(inputs)] was made on it, and there were such calls. *)
Theorem trained_model_is_postprocessed h cfg w
    model criterion optimizer logger main_folder :
  let r := train_surrogate_model model criterion optimizer logger main_folder h cfg w in
  value r = inr tt ->
  exists trained performances,
    train_returned (trace r) = [(trained, performances)] /\
    models_evaluated (trace r) <> [] /\
    Forall (fun evaluated => evaluated = trained) (models_evaluated (trace r)).
Proof.
  intros r.
  pose proof (train_surrogate_model_returns cfg model criterion optimizer logger
                main_folder h w) as Hret.
  cbv beta in Hret. fold r in Hret. clearbody r. intros Hvalue.
  destruct (Hret Hvalue)
    as (base & results_dir & seed & dataloaders & amplification & dl0 & dl1 & dl2
        & hyperparameters & trained & performances & history
        & training & validation & test & _ & _ & _ & _ & _ & _ & _ & ->).
  exists trained, performances.
  destruct (0 <? len dl1)%nat, (0 <? len dl2)%nat;
    (split; [done|]); (split; [done|]); by repeat constructor.
Qed.

(** Without [configs['hyperparameters']] the routine never calls [train]
    and never returns; the key is only read after the directory was
    created, the seed initialised and the data loaded, so when [load_data]
    returned two dataloaders or more the exception is
    [KeyError('hyperparameters')]. *)
Theorem missing_hyperparameters_raises_after_loading h cfg w
    model criterion optimizer logger main_folder :
  cfg !! "hyperparameters" = None ->
  let r := train_surrogate_model model criterion optimizer logger main_folder h cfg w in
  train_calls (trace r) = [] /\
  value r <> inr tt /\
  forall dataloaders amplification,
    data_loaded (trace r) = [(dataloaders, amplification)] ->
    (2 <= length dataloaders)%nat ->
    value r = inl (KeyError "hyperparameters").
Proof.
  intros Hmissing r.
  pose proof (train_surrogate_model_runs cfg model criterion optimizer logger
                main_folder h w) as Hlog.
  pose proof (train_surrogate_model_returns cfg model criterion optimizer logger
                main_folder h w) as Hret.
  assert (wp (World:=World)
            (train_surrogate_model model criterion optimizer logger main_folder) cfg
            (fun v _ t =>
               forall dataloaders amplification,
                 data_loaded t = [(dataloaders, amplification)] ->
                 (2 <= length dataloaders)%nat ->
                 v = inl (KeyError "hyperparameters"))) as Hwp.
  { unfold train_surrogate_model, configs_getitem, configs_contains, configs_setitem.
    repeat (wp_train; simpl;
            try match goal with
              | Hh : <["seed":=_]> _ !! "hyperparameters" = Some _ |- _ =>
                  rewrite lookup_insert_ne in Hh by done; congruence
              end;
            try (intros ? ? [=]; fail)).
    all: intros dataloaders amplification [= <- <-] Hlen.
    all: try done.
    all: repeat match goal with
           | Hi : list_getitem _ _ = inl _ |- _ =>
               apply list_getitem_short in Hi; simpl in Hi; lia
           end. }
  specialize (Hwp h w). cbv beta in Hlog, Hret, Hwp.
  fold r in Hlog, Hret, Hwp. clearbody r.
  split; [|split; [|done]].
  - destruct Hlog as [| | | |? ? ? ? ? ? ? ? ? ? after ? ? Hhyper]; try done.
    congruence.
  - intros Hvalue. destruct (Hret Hvalue) as (? & ? & ? & ? & ? & ? & ? & ? & ? & ?
      & ? & ? & ? & ? & ? & _ & Hhyper & _). congruence.
Qed.

(** [postprocess] draws no profile and saves no figure itself. *)
Lemma postprocess_draws_nothing cfg dataset model amplification results_dir label :
  wp (World:=World) (postprocess dataset model amplification results_dir label) cfg
    (fun v s t =>
       s = cfg /\
       profiles_plotted t = [] /\
       figures_saved t = [] /\
       (v = inr tt ->
        exists inputs targets predictions,
          samples_of dataset inputs targets /\
          t = postprocess_events dataset model amplification results_dir label
                inputs targets predictions)).
Proof.
  unfold postprocess, samples_getitem_all.
  wp_run ltac:(repeat match goal with u : unit |- _ => destruct u end);
    (split; [done|]); (split; [done|]); (split; [done|]); try done;
    intros _; subst dataset; by do 3 eexists.
Qed.

Ltac wp_train_quiet :=
  lazymatch goal with
  | |- wp (bind (postprocess _ _ _ _ _) _) _ _ =>
      let Hlog := fresh "Hlog" in
      apply wp_bind; eapply wp_mono; [apply postprocess_draws_nothing|];
      intros [?|[]] ? ? (-> & ? & ? & Hlog); cbv beta iota;
      [|destruct (Hlog eq_refl) as (? & ? & ? & ? & ->)]
  | |- wp (postprocess _ _ _ _ _) _ _ =>
      let Hlog := fresh "Hlog" in
      eapply wp_mono; [apply postprocess_draws_nothing|];
      intros [?|[]] ? ? (-> & ? & ? & Hlog); cbv beta iota;
      [|destruct (Hlog eq_refl) as (? & ? & ? & ? & ->)]
  | |- wp (mapM _ (range (length _))) _ _ =>
      eapply wp_training_profile; [eassumption|]
  | |- wp (dict_getitem _ _) _ _ => unfold dict_getitem at 1
  | _ => wp_step
  end.

Lemma train_surrogate_model_draws_last cfg model criterion optimizer logger main_folder :
  wp (World:=World)
    (train_surrogate_model model criterion optimizer logger main_folder) cfg
    (fun _ _ t =>
       (profiles_plotted t = [] /\ figures_saved t = []) \/
       exists dataloaders amplification dl2,
         data_loaded t = [(dataloaders, amplification)] /\
         dataloaders !! 2%nat = Some dl2 /\
         (plots t).*1.*1 =
           ["TRAINING"; "VALIDATION"] ++
           (if decide (len dl2 = 0%nat) then [] else ["TEST"])).
Proof.
  unfold train_surrogate_model, configs_getitem, configs_contains, configs_setitem.
  repeat (wp_train_quiet; simpl).
  all: unfold profiles_plotted, figures_saved in *.
  all: try (left; rewrite ?omap_app; simpl; rewrite ?omap_app; simpl;
            repeat match goal with
              | Hq : omap _ ?t = [] |- _ => rewrite Hq
              end;
            by split).
  all: right; eexists _, _, _; (split; [reflexivity|]);
    (split; [by eapply (list_getitem_inv _ 2%nat)|]).
  all: match goal with
       | Hb : (0 <? len ?d)%nat = _ |- context [decide (len ?d = 0%nat)] =>
           destruct (decide (len d = 0%nat)) as [Hz|Hz];
           [rewrite (ltb_len_zero _ Hz) in Hb|rewrite (ltb_len_nonzero _ Hz) in Hb];
           done
       end.
Qed.

(** Nothing is drawn or saved by the routine itself before the
    post-processing is over: in every run in which [plt.plot] or
    [plt.savefig] is reached, [load_data] had returned a third dataloader
    and [plot_all] had been called under 'TRAINING', under 'VALIDATION' and,
    when the test dataloader is not empty, under 'TEST'.  A run that raises
    during the post-processing leaves no training profile. *)
Theorem training_profile_drawn_after_postprocessing h cfg w
    model criterion optimizer logger main_folder :
  let r := train_surrogate_model model criterion optimizer logger main_folder h cfg w in
  profiles_plotted (trace r) <> [] \/ figures_saved (trace r) <> [] ->
  exists dataloaders amplification dl2,
    data_loaded (trace r) = [(dataloaders, amplification)] /\
    dataloaders !! 2%nat = Some dl2 /\
    (plots (trace r)).*1.*1 =
      ["TRAINING"; "VALIDATION"] ++ (if decide (len dl2 = 0%nat) then [] else ["TEST"]).
Proof.
  intros r.
  pose proof (train_surrogate_model_draws_last cfg model criterion optimizer logger
                main_folder h w) as Hlast.
  cbv beta in Hlast. fold r in Hlast. clearbody r.
  intros Hdrawn. destruct Hlast as [[Hplot Hsave]|Hdone]; [|done].
  by destruct Hdrawn.
Qed.

End Facts.

(** ** The theorems at work on the stand-in libraries *)

Section Examples.
#[local] Existing Instance Lab.integers.


(** The three splits, all with data, are post-processed. *)
Lemma splits_postprocessed_on_the_bench :
  let cfg := Lab.configs in
  let model := PyObj 1 in
  let criterion := PyObj 2 in
  let optimizer := PyObj 3 in
  let logger := PyNone in
  let main_folder := "training_data" in
  let r := train_surrogate_model model criterion optimizer logger main_folder
             (Lab.bench Lab.full_loaders) cfg 0%nat in
  value r = inr tt /\
  (exists dataloaders amplification dl0 dl1 dl2 results_dir trained
         (training validation test : Tensor * Tensor * Tensor) before after,
    data_loaded (trace r) = [(dataloaders, amplification)] /\
    dataloaders !! 0%nat = Some dl0 /\
    dataloaders !! 1%nat = Some dl1 /\
    dataloaders !! 2%nat = Some dl2 /\
    trace r =
      before ++
      postprocess_events (Whole (dataset dl0)) trained amplification results_dir
        "TRAINING" training.1.1 training.1.2 training.2 ++
      (if decide (len dl1 = 0%nat)
       then Event (dataset_getitem (dataset dl0) (Some 1000)) (inr validation.1) ::
            postprocess_events (Sliced validation.1.1 validation.1.2) trained
              amplification results_dir "VALIDATION"
              validation.1.1 validation.1.2 validation.2
       else postprocess_events (Whole (dataset dl1)) trained amplification results_dir
              "VALIDATION" validation.1.1 validation.1.2 validation.2) ++
      (if decide (len dl2 = 0%nat)
       then []
       else postprocess_events (Whole (dataset dl2)) trained amplification results_dir
              "TEST" test.1.1 test.1.2 test.2) ++
      after /\
    (plots (trace r)).*1.*1 =
      ["TRAINING"; "VALIDATION"] ++ (if decide (len dl2 = 0%nat) then [] else ["TEST"])).
Proof.
  intros. split; [by vm_compute|].
  apply (splits_postprocessed_when_present (Lab.bench Lab.full_loaders) cfg 0%nat). by vm_compute.
Defined.

(** The seed is written, and nothing else. *)
Lemma seed_written_on_the_bench :
  let cfg := Lab.configs in
  let model := PyObj 1 in
  let criterion := PyObj 2 in
  let optimizer := PyObj 3 in
  let logger := PyNone in
  let main_folder := "training_data" in
  let r := train_surrogate_model model criterion optimizer logger main_folder
             (Lab.bench Lab.full_loaders) cfg 0%nat in
  value r = inr tt /\
  (Forall (fun call => call = (default PyNone (cfg !! "seed"), true))
    (seed_calls (trace r)) /\
  configs_loaded (trace r) =
    (fun seed => <["seed" := seed]> cfg) <$> seeds_returned (trace r) /\
  store r = match seeds_returned (trace r) with
            | [] => cfg
            | seed :: _ => <["seed" := seed]> cfg
            end /\
  (forall key, key <> "seed" -> store r !! key = cfg !! key) /\
  (value r = inr tt ->
   exists seed, seeds_returned (trace r) = [seed] /\ store r !! "seed" = Some seed)).
Proof.
  intros. split; [by vm_compute|].
  apply (seed_is_the_only_key_written (Lab.bench Lab.full_loaders) cfg 0%nat).
Defined.

(** With an empty validation loader the first 1000 training samples stand in. *)
Lemma validation_fallback_on_the_bench :
  let cfg := Lab.configs in
  let model := PyObj 1 in
  let criterion := PyObj 2 in
  let optimizer := PyObj 3 in
  let logger := PyNone in
  let main_folder := "training_data" in
  let r := train_surrogate_model model criterion optimizer logger main_folder
             (Lab.bench Lab.training_only) cfg 0%nat in
  value r = inr tt /\
  (exists dataloaders amplification dl0 dl1 results_dir trained
         inputs targets predictions before after,
    data_loaded (trace r) = [(dataloaders, amplification)] /\
    dataloaders !! 0%nat = Some dl0 /\
    dataloaders !! 1%nat = Some dl1 /\
    trace r =
      before ++
      (if decide (len dl1 = 0%nat)
       then Event (dataset_getitem (dataset dl0) (Some 1000)) (inr (inputs, targets)) ::
            postprocess_events (Sliced inputs targets) trained amplification
              results_dir "VALIDATION" inputs targets predictions
       else postprocess_events (Whole (dataset dl1)) trained amplification results_dir
              "VALIDATION" inputs targets predictions) ++
      after /\
    filter (fun p => p.1.1 = "VALIDATION") (plots (trace r)) =
      [("VALIDATION",
        mul_l amplification (get_numpy_from_tensor targets),
        mul_l amplification (get_numpy_from_tensor predictions))]).
Proof.
  intros. split; [by vm_compute|].
  apply (validation_falls_back_to_training_samples (Lab.bench Lab.training_only)
           cfg 0%nat).
  by vm_compute.
Defined.

(** The plotted profile of the stand-in training. *)
Lemma training_profile_on_the_bench :
  let cfg := Lab.configs in
  let model := PyObj 1 in
  let criterion := PyObj 2 in
  let optimizer := PyObj 3 in
  let logger := PyNone in
  let main_folder := "training_data" in
  let r := train_surrogate_model model criterion optimizer logger main_folder
             (Lab.bench Lab.full_loaders) cfg 0%nat in
  value r = inr tt /\
  (exists dataloaders amplification trained performances history training_profile,
    data_loaded (trace r) = [(dataloaders, amplification)] /\
    train_returned (trace r) = [(trained, performances)] /\
    performances !! "performance_history" = Some history /\
    profiles_plotted (trace r) = [training_profile] /\
    length training_profile = length history /\
    forall (i : nat) entry,
      history !! i = Some entry ->
      training_profile !! i =
        Some (mul_r (get_numpy_from_tensor entry) (pow amplification 2))).
Proof.
  intros. split; [by vm_compute|].
  apply (training_profile_scales_the_history (Lab.bench Lab.full_loaders) cfg 0%nat). by vm_compute.
Defined.

(** [postprocess] on the stand-in training set. *)
Lemma postprocess_rescales_on_the_bench :
  let cfg := Lab.configs in
  let dataset := Whole Lab.training_set in
  let model := PyObj 1 in
  let amplification := 2 in
  let results_dir := "runs" in
  let label := "TRAINING" in
  let r := postprocess dataset model amplification results_dir label
             (Lab.bench []) cfg 0%nat in
  value r = inr tt /\
  (exists inputs targets predictions,
    samples_of dataset inputs targets /\
    trace r = postprocess_events dataset model amplification results_dir label
                inputs targets predictions /\
    let rescale := mul_l amplification in
    plots (trace r) =
      [(label, rescale (get_numpy_from_tensor targets),
               rescale (get_numpy_from_tensor predictions))]).
Proof.
  intros. split; [by vm_compute|].
  apply (postprocess_rescales_targets_and_outputs (Lab.bench []) cfg 0%nat).
  by vm_compute.
Defined.

(** A [configs] without 'results_base_dir'. *)
Lemma missing_results_base_dir_on_the_bench :
  let cfg : gmap string pyval := {["seed" := PyInt 7]} in
  let r := train_surrogate_model (PyObj 1) (PyObj 2) (PyObj 3) PyNone "training_data"
             (Lab.bench Lab.full_loaders) cfg 0%nat in
  cfg !! "results_base_dir" = None /\
  value r = inl (KeyError "results_base_dir") /\ trace r = [] /\ store r = cfg.
Proof.
  intros. split; [by vm_compute|].
  apply (missing_results_base_dir_raises (Lab.bench Lab.full_loaders) cfg 0%nat).
  by vm_compute.
Defined.

(** The saved profile, on three splits with data. *)
Lemma training_profile_saved_on_the_bench :
  let r := train_surrogate_model (PyObj 1) (PyObj 2) (PyObj 3) PyNone "training_data"
             (Lab.bench Lab.full_loaders) Lab.configs 0%nat in
  value r = inr tt /\
  exists base results_dir,
    head (trace r) =
      Some (Event (create_directory_timestamp base "training_data") (inr results_dir)) /\
    figures_saved (trace r) = [path_join results_dir "training_profile"] /\
    last (trace r) = Some (Event (print ("Model saved in :" +:+ results_dir)) (inr tt)).
Proof.
  intros. split; [by vm_compute|].
  apply (training_profile_saved_in_results_dir (Lab.bench Lab.full_loaders)
           Lab.configs 0%nat).
  by vm_compute.
Defined.

(** What the run on three splits found. *)
Lemma inputs_found_on_the_bench :
  let r := train_surrogate_model (PyObj 1) (PyObj 2) (PyObj 3) PyNone "training_data"
             (Lab.bench Lab.full_loaders) Lab.configs 0%nat in
  value r = inr tt /\
  is_Some (Lab.configs !! "results_base_dir") /\
  is_Some (Lab.configs !! "hyperparameters") /\
  exists dataloaders amplification trained performances,
    data_loaded (trace r) = [(dataloaders, amplification)] /\
    (3 <= length dataloaders)%nat /\
    train_returned (trace r) = [(trained, performances)] /\
    is_Some (performances !! "performance_history").
Proof.
  intros. split; [by vm_compute|].
  apply (returning_run_found_its_inputs (Lab.bench Lab.full_loaders) Lab.configs 0%nat).
  by vm_compute.
Defined.

(** The model evaluated on three splits. *)
Lemma trained_model_on_the_bench :
  let r := train_surrogate_model (PyObj 1) (PyObj 2) (PyObj 3) PyNone "training_data"
             (Lab.bench Lab.full_loaders) Lab.configs 0%nat in
  value r = inr tt /\
  exists trained performances,
    train_returned (trace r) = [(trained, performances)] /\
    models_evaluated (trace r) <> [] /\
    Forall (fun evaluated => evaluated = trained) (models_evaluated (trace r)).
Proof.
  intros. split; [by vm_compute|].
  apply (trained_model_is_postprocessed (Lab.bench Lab.full_loaders) Lab.configs 0%nat).
  by vm_compute.
Defined.

(** A [configs] without 'hyperparameters'. *)
Lemma missing_hyperparameters_on_the_bench :
  let cfg : gmap string pyval := {["results_base_dir" := PyStr "runs"]} in
  let r := train_surrogate_model (PyObj 1) (PyObj 2) (PyObj 3) PyNone "training_data"
             (Lab.bench Lab.full_loaders) cfg 0%nat in
  (cfg !! "hyperparameters" = None /\
   data_loaded (trace r) = [(Lab.full_loaders, 2)]) /\
  train_calls (trace r) = [] /\
  value r <> inr tt /\
  forall dataloaders amplification,
    data_loaded (trace r) = [(dataloaders, amplification)] ->
    (2 <= length dataloaders)%nat ->
    value r = inl (KeyError "hyperparameters").
Proof.
  intros. split; [by vm_compute|].
  apply (missing_hyperparameters_raises_after_loading (Lab.bench Lab.full_loaders)
           cfg 0%nat).
  by vm_compute.
Defined.

(** The profile of the run on three splits. *)
Lemma profile_drawn_last_on_the_bench :
  let r := train_surrogate_model (PyObj 1) (PyObj 2) (PyObj 3) PyNone "training_data"
             (Lab.bench Lab.full_loaders) Lab.configs 0%nat in
  (profiles_plotted (trace r) <> [] \/ figures_saved (trace r) <> []) /\
  exists dataloaders amplification dl2,
    data_loaded (trace r) = [(dataloaders, amplification)] /\
    dataloaders !! 2%nat = Some dl2 /\
    (plots (trace r)).*1.*1 =
      ["TRAINING"; "VALIDATION"] ++ (if decide (len dl2 = 0%nat) then [] else ["TEST"]).
Proof.
  intros. split; [left; by vm_compute|].
  apply (training_profile_drawn_after_postprocessing (Lab.bench Lab.full_loaders)
           Lab.configs 0%nat).
  left. by vm_compute.
Defined.

End Examples.

(** C2 as stated fails: with empty validation and test dataloaders the call
    returns, nothing is post-processed under 'TEST', and the only dataset
    read is the training one: whole, and its first 1000 samples. *)
Lemma empty_splits_are_not_postprocessed :
  let r := train_surrogate_model (H:=Lab.integers) (PyObj 1) (PyObj 2) (PyObj 3) PyNone
             "training_data" (Lab.bench Lab.training_only) Lab.configs 0%nat in
  value r = inr tt /\
  (plots (trace r)).*1.*1 = ["TRAINING"; "VALIDATION"] /\
  datasets_read (trace r) =
    [(Lab.training_set, None); (Lab.training_set, Some 1000)].
Proof. by vm_compute. Qed.

End TrainModelFacts.

(** * Facts about plots.py *)

Module PlotsFacts.
Import Plots.

Section Facts.
Context `{Numpy} {World : Type}.
Implicit Types (h : handler libE World) (w : World).

Ltac returns_with :=
  wp_run ltac:(try discriminate);
  intros _; repeat match goal with u : unit |- _ => destruct u end.

(** [plot_error_hist], when it returns, has saved one image, at
    [os.path.join(save_dir, name)], and closed the figure last. *)
Lemma plot_error_hist_spec targets prediction error mse save_dir name :
  wp (World:=World) (plot_error_hist targets prediction error mse save_dir name) tt
    (fun v _ t =>
       v = inr tt ->
       savefigs t = [PyStr (path_join save_dir name)] /\
       last t = Some (Event plt_close (inr tt))).
Proof. unfold plot_error_hist. returns_with. done. Qed.

Lemma plot_error_vs_output_spec targets error save_dir name :
  wp (World:=World) (plot_error_vs_output targets error save_dir name) tt
    (fun v _ t =>
       v = inr tt ->
       savefigs t = [PyStr (path_join save_dir name)] /\
       last t = Some (Event plt_close (inr tt))).
Proof. unfold plot_error_vs_output. returns_with. done. Qed.

Lemma plot_waves_spec inputs outputs input_no output_no batch legend save_directory :
  wp (World:=World)
    (plot_waves inputs outputs input_no output_no batch legend save_directory) tt
    (fun v _ t =>
       v = inr tt ->
       savefigs t = [PyStr (path_join save_directory "example_batch")] /\
       last t = Some (Event plt_close (inr tt))).
Proof. unfold plot_waves. returns_with. done. Qed.

Lemma output_hist_spec outputs data_dir bins show :
  wp (World:=World) (output_hist outputs data_dir bins show) tt
    (fun v _ t =>
       v = inr tt ->
       savefigs t = [PyStr (data_dir +:+ "/output_distribution")] /\
       last t = Some (Event plt_close (inr tt))).
Proof. unfold output_hist. returns_with; done. Qed.

(** *** Paths under a directory *)

Lemma prefix_app (a b : string) : String.prefix a (a +:+ b) = true.
Proof.
  induction a as [|c a IH]; simpl; [by destruct b|].
  by destruct (Ascii.ascii_dec c c).
Qed.

Lemma prefix_app_app (a b c : string) :
  String.prefix (a +:+ b) (a +:+ b +:+ c) = true.
Proof.
  induction a as [|x a IH].
  - change (String.prefix b (b +:+ c) = true). apply prefix_app.
  - change (String.prefix (String x (a +:+ b)) (String x (a +:+ b +:+ c)) = true).
    cbn [String.prefix]. by destruct (Ascii.ascii_dec x x).
Qed.

(** [os.path.join(directory, name)] lies under the directory unless [name]
    is an absolute path. *)
Lemma under_path_join (directory name : string) :
  String.prefix "/" name = false -> under directory (path_join directory name) = true.
Proof.
  intros Hname. unfold under, path_join, with_separator. rewrite Hname.
  destruct directory as [|c directory]; [cbn; by rewrite Hname|].
  cbn [String.eqb String.length Nat.eqb].
  destruct (String.eqb _ "/"); [apply prefix_app|apply prefix_app_app].
Qed.

Lemma under_output_distribution (data_dir : string) :
  data_dir <> "" -> under data_dir (data_dir +:+ "/output_distribution") = true.
Proof.
  intros Hdir. unfold under, with_separator.
  destruct data_dir as [|c data_dir]; [done|]. cbn [String.eqb].
  destruct (String.eqb _ "/"); [apply prefix_app|].
  apply (prefix_app_app _ "/" "output_distribution").
Qed.

(** C9, as amended. When it returns, each of [plot_error_hist],
    [plot_error_vs_output], [plot_waves] and [output_hist] has called
    [plt.savefig] exactly once and its last call is [plt.close()].  The
    path saved to is [os.path.join(directory, name)], which lies under the
    directory given when [name] is not an absolute path (for an absolute
    [name] it is [name] itself), and [data_dir + '/output_distribution'] for
    [output_hist], under a [data_dir] that is not empty, whether [show] is
    set or not.  [plot_waves] saves to
    [os.path.join(save_directory, 'example_batch')], under the directory,
    whatever the batch, so that a second call on the same directory writes
    to the path of the first. *)
Theorem plotting_routines_save_one_image_and_close h w :
  (forall targets prediction error mse save_dir name,
     let r := plot_error_hist targets prediction error mse save_dir name h tt w in
     value r = inr tt ->
     savefigs (trace r) = [PyStr (path_join save_dir name)] /\
     last (trace r) = Some (Event plt_close (inr tt)) /\
     (String.prefix "/" name = false ->
      under save_dir (path_join save_dir name) = true)) /\
  (forall targets error save_dir name,
     let r := plot_error_vs_output targets error save_dir name h tt w in
     value r = inr tt ->
     savefigs (trace r) = [PyStr (path_join save_dir name)] /\
     last (trace r) = Some (Event plt_close (inr tt)) /\
     (String.prefix "/" name = false ->
      under save_dir (path_join save_dir name) = true)) /\
  (forall inputs outputs input_no output_no batch legend save_directory,
     let r := plot_waves inputs outputs input_no output_no batch legend
                save_directory h tt w in
     value r = inr tt ->
     savefigs (trace r) = [PyStr (path_join save_directory "example_batch")] /\
     last (trace r) = Some (Event plt_close (inr tt)) /\
     under save_directory (path_join save_directory "example_batch") = true) /\
  (forall outputs data_dir bins show,
     let r := output_hist outputs data_dir bins show h tt w in
     value r = inr tt ->
     savefigs (trace r) = [PyStr (data_dir +:+ "/output_distribution")] /\
     last (trace r) = Some (Event plt_close (inr tt)) /\
     (data_dir <> "" ->
      under data_dir (data_dir +:+ "/output_distribution") = true)) /\
  (forall inputs outputs input_no output_no batch legend
          inputs' outputs' input_no' output_no' batch' legend' save_directory,
     let r := bind (plot_waves inputs outputs input_no output_no batch legend
                      save_directory)
                (fun _ => plot_waves inputs' outputs' input_no' output_no' batch'
                            legend' save_directory) h tt w in
     value r = inr tt ->
     savefigs (trace r) = [PyStr (path_join save_directory "example_batch");
                           PyStr (path_join save_directory "example_batch")]).
Proof.
  split; [|split; [|split; [|split]]].
  - intros ? ? ? ? ? ? r Hvalue.
    destruct (plot_error_hist_spec targets prediction error mse save_dir name h w Hvalue)
      as [Hsaved Hclosed].
    split; [done|]. split; [done|]. apply under_path_join.
  - intros ? ? ? ? r Hvalue.
    destruct (plot_error_vs_output_spec targets error save_dir name h w Hvalue)
      as [Hsaved Hclosed].
    split; [done|]. split; [done|]. apply under_path_join.
  - intros ? ? ? ? ? ? ? r Hvalue.
    destruct (plot_waves_spec inputs outputs input_no output_no batch legend
                save_directory h w Hvalue) as [Hsaved Hclosed].
    split; [done|]. split; [done|]. by apply under_path_join.
  - intros ? ? ? ? r Hvalue.
    destruct (output_hist_spec outputs data_dir bins show h w Hvalue)
      as [Hsaved Hclosed].
    split; [done|]. split; [done|]. apply under_output_distribution.
  - intros ? ? ? ? ? ? ? ? ? ? ? ? ? r.
    assert (wp (World:=World)
              (bind (plot_waves inputs outputs input_no output_no batch legend
                       save_directory)
                 (fun _ => plot_waves inputs' outputs' input_no' output_no' batch'
                             legend' save_directory)) tt
              (fun v _ t =>
                 v = inr tt ->
                 savefigs t = [PyStr (path_join save_directory "example_batch");
                               PyStr (path_join save_directory "example_batch")]))
      as Hwp by (unfold plot_waves; returns_with; done).
    apply Hwp.
Qed.

(** [iv_plot], in every run: [plt.savefig] is reached when [save_plot] is
    not [None] and the three drawing calls returned, and [plt.show] when
    [show_plot] is set and every call before it returned. *)
Lemma iv_plot_spec result input_electrode save_plot show_plot :
  wp (World:=World) (iv_plot result input_electrode save_plot show_plot) tt
    (fun v _ t =>
       Forall (fun fname => fname = save_plot) (savefigs t) /\
       (save_plot = PyNone -> savefigs t = []) /\
       (savefigs t <> [] <->
        save_plot <> PyNone /\ drawing_calls_returned t = 3%nat) /\
       (save_plot <> PyNone -> drawing_calls_returned t = 3%nat ->
        savefigs t = [save_plot]) /\
       (shown t = 1%nat <->
        show_plot = true /\ drawing_calls_returned t = 3%nat /\
        (save_plot = PyNone \/ figures_written t = 1%nat)) /\
       (shown t <= 1)%nat /\
       (v = inr tt ->
        (savefigs t <> [] <-> save_plot <> PyNone) /\
        (save_plot <> PyNone ->
         savefigs t = [save_plot] /\ figures_written t = 1%nat) /\
        shown t = if show_plot then 1%nat else 0%nat)).
Proof.
  unfold iv_plot. destruct save_plot; simpl; wp_run idtac.
  all: unfold shown, drawing_calls_returned, figures_written; simpl.
  all: split; [by repeat constructor|].
  all: split; [done|].
  all: split; [intuition (first [congruence|lia])|].
  all: split; [intuition (first [congruence|lia])|].
  all: split; [intuition (first [congruence|lia])|].
  all: split; [lia|].
  all: intros Hvalue; try discriminate Hvalue.
  all: split; [intuition (first [congruence|lia])|split; [intuition (first [congruence|lia])|done]].
Qed.

(** C10, as amended. [iv_plot] calls [plt.savefig] if and only if
    [save_plot] is not [None] and the three drawing calls before it
    returned, and then on [save_plot] itself, whatever it is: [None] is the
    only value that suppresses the call.  [plt.show] is called if and only
    if [show_plot] is set and every call before it returned: the drawing
    calls, and [plt.savefig] when [save_plot] is not [None].  When
    [plt.savefig] raises, [plt.show] is not called whatever [show_plot]
    is.  When the routine returns, [plt.savefig] was called and returned
    exactly when [save_plot] is not [None], and [plt.show] was called
    exactly when [show_plot] is set. *)
Theorem iv_plot_saves_unless_save_plot_is_None h w
    result input_electrode save_plot show_plot :
  let r := iv_plot result input_electrode save_plot show_plot h tt w in
  Forall (fun fname => fname = save_plot) (savefigs (trace r)) /\
  (save_plot = PyNone -> savefigs (trace r) = []) /\
  (savefigs (trace r) <> [] <->
   save_plot <> PyNone /\ drawing_calls_returned (trace r) = 3%nat) /\
  (save_plot <> PyNone -> drawing_calls_returned (trace r) = 3%nat ->
   savefigs (trace r) = [save_plot]) /\
  (shown (trace r) = 1%nat <->
   show_plot = true /\ drawing_calls_returned (trace r) = 3%nat /\
   (save_plot = PyNone \/ figures_written (trace r) = 1%nat)) /\
  (shown (trace r) <= 1)%nat /\
  (save_plot <> PyNone -> figures_written (trace r) = 0%nat -> shown (trace r) = 0%nat) /\
  (value r = inr tt ->
   (savefigs (trace r) <> [] <-> save_plot <> PyNone) /\
   (save_plot <> PyNone ->
    savefigs (trace r) = [save_plot] /\ figures_written (trace r) = 1%nat) /\
   shown (trace r) = if show_plot then 1%nat else 0%nat).
Proof.
  intros r.
  pose proof (iv_plot_spec result input_electrode save_plot show_plot h w) as Hspec.
  cbv beta in Hspec. fold r in Hspec. clearbody r.
  destruct Hspec as (Hall & Hnone & Hsaved & Hsave & Hshown & Honce & Hret).
  split; [done|]. split; [done|]. split; [done|]. split; [done|].
  split; [done|]. split; [done|]. split; [|done].
  intros Hsome Hwritten.
  destruct (decide (shown (trace r) = 1%nat)) as [Hshow|Hshow]; [|lia].
  apply Hshown in Hshow as (_ & _ & [Hnone'|Hone]); [done|lia].
Qed.

(** *** multi_iv_plot *)

(** A property of logs that holds of the empty log and of the
    concatenation of two logs with it is kept by the loops. *)
Lemma wp_forM_keeps {A} (l : list A) (body : A -> M libE World unit unit)
    (keeps : list (event libE) -> Prop)
    (post : result unit -> unit -> list (event libE) -> Prop) :
  keeps [] ->
  (forall t1 t2, keeps t1 -> keeps t2 -> keeps (t1 ++ t2)) ->
  (forall a, wp (body a) tt (fun _ _ t => keeps t)) ->
  (forall v t, keeps t -> post v tt t) ->
  wp (forM_ l body) tt post.
Proof.
  intros Hnil Happ Hbody Hpost.
  eapply wp_mono;
    [apply (wp_forM_ l body (fun _ _ t => keeps t)); [done|eauto|by intros a []]|].
  intros v [] t. apply Hpost.
Qed.

Ltac wp_loops keeps Hnil Happ :=
  repeat first
    [ lazymatch goal with
      | |- wp (forM_ _ _) _ _ =>
          apply (wp_forM_keeps _ _ keeps _ Hnil Happ); [intros ?|intros [?|[]] ? ?]
      | |- wp (bind (forM_ _ _) _) _ _ => apply wp_bind
      end
    | wp_step ]; simpl.

Lemma multi_iv_plot_managers configs inputs output :
  wp (World:=World) (multi_iv_plot configs inputs output) tt
    (fun _ _ t => Forall (plateau_manager configs) t).
Proof.
  unfold multi_iv_plot, plateaus.
  repeat (wp_loops (Forall (plateau_manager configs))
            (Forall_nil_2 (plateau_manager configs))
            (Forall_app_2 (plateau_manager configs))).
  all: repeat match goal with
         | |- Forall _ [] => constructor
         | |- Forall _ (_ :: _) => constructor
         | |- Forall _ (_ ++ _) => apply Forall_app_2
         | |- Forall _ _ => assumption
         | |- plateau_manager _ _ => simpl; eauto
         end.
Qed.

Lemma plateau_managers_configs configs (t : list (event libE)) :
  Forall (plateau_manager configs) t ->
  Forall (fun d => exists n, plateau_length configs = inr n /\
                             d = [("slope_length", PyInt 0); ("plateau_length", PyInt n)])
    (waveform_configs t).
Proof.
  induction 1 as [|[X c o] t He _ IH]; [constructor|].
  destruct c; try exact IH. by constructor.
Qed.

Lemma curves_converted_app inputs managers waves (t1 t2 : list (event libE)) :
  curves_converted inputs managers waves t1 ->
  (forall managers' waves', curves_converted inputs managers' waves' t2) ->
  curves_converted inputs managers waves (t1 ++ t2).
Proof.
  intros H1 H2. revert managers waves H1.
  induction t1 as [|[X c o] t1 IH]; intros managers waves H1; simpl; [apply H2|].
  destruct c; simpl in *; try (by apply IH).
  - destruct args; [by apply IH|]. destruct H1 as [? ?]. split; [done|by apply IH].
  - destruct H1 as (? & ? & ?). split; [done|]. split; [done|by apply IH].
Qed.

Lemma plateaus_plotted_nil inputs : plateaus_plotted inputs [].
Proof. by intros ? ?. Qed.

Lemma plateaus_plotted_app inputs (t1 t2 : list (event libE)) :
  plateaus_plotted inputs t1 -> plateaus_plotted inputs t2 ->
  plateaus_plotted inputs (t1 ++ t2).
Proof. intros H1 H2 ? ?. by apply curves_converted_app. Qed.

Ltac converted :=
  repeat match goal with
    | |- plateaus_plotted _ _ => intros ? ?
    | |- curves_converted _ _ _ [] => exact I
    | Ht : plateaus_plotted _ ?t |- curves_converted _ _ _ (?t ++ _) =>
        apply curves_converted_app; [apply Ht|intros ? ?]
    | Ht : plateaus_plotted _ ?t |- curves_converted _ _ _ ?t => apply Ht
    | |- curves_converted _ _ _ (_ :: _) => simpl
    | |- _ /\ _ => split
    | |- _ ∈ _ :: _ => by left
    | |- exists _ : Tensor, _ => eexists; split; [by left|]
    | |- exists _ _ _ _, _ = inr _ /\ _ =>
        do 4 eexists; split; [eassumption|reflexivity]
    | |- True => exact I
    | |- _ \/ _ => first [by left | right; by eauto]
    end.

Lemma multi_iv_plot_converts configs inputs output :
  not_average_io_point_difference configs = inr true ->
  wp (World:=World) (multi_iv_plot configs inputs output) tt
    (fun _ _ t => plateaus_plotted inputs t).
Proof.
  intros Hflag. unfold multi_iv_plot, plateaus.
  repeat (wp_loops (plateaus_plotted inputs) (plateaus_plotted_nil inputs)
            (plateaus_plotted_app inputs)).
  all: converted.
Qed.

Lemma multi_iv_plot_leaves_points configs inputs output :
  not_average_io_point_difference configs = inr false ->
  wp (World:=World) (multi_iv_plot configs inputs output) tt
    (fun _ _ t => Forall no_conversion t).
Proof.
  intros Hflag. unfold multi_iv_plot, plateaus.
  repeat (wp_loops (Forall no_conversion) (Forall_nil_2 no_conversion)
            (Forall_app_2 no_conversion)).
  all: repeat match goal with
         | |- Forall _ [] => constructor
         | |- Forall _ (_ :: _) => constructor; [exact I|]
         | |- Forall _ (_ ++ _) => apply Forall_app_2
         | |- Forall _ _ => assumption
         end.
Qed.

Lemma no_conversion_silent (t : list (event libE)) :
  Forall no_conversion t -> waveform_configs t = [] /\ plateau_calls t = [].
Proof.
  induction 1 as [|[X c o] t He _ IH]; [done|].
  by destruct c, IH.
Qed.

Lemma plateau_length_inv configs n :
  plateau_length configs = inr n ->
  exists setup readout activation ratio,
    instruments_setup configs = inr setup /\
    py_getitem setup "readout_sampling_frequency" = inr readout /\
    py_getitem setup "activation_sampling_frequency" = inr activation /\
    py_truediv readout activation = inr ratio /\
    py_int ratio = inr n.
Proof.
  unfold plateau_length, rbind.
  destruct (instruments_setup configs) as [|setup]; [done|].
  destruct (py_getitem setup "readout_sampling_frequency") as [|readout] eqn:?; [done|].
  destruct (py_getitem setup "activation_sampling_frequency")
    as [|activation] eqn:?; [done|].
  destruct (py_truediv readout activation) as [|ratio] eqn:?; [done|].
  intros Hn. by exists setup, readout, activation, ratio.
Qed.

(** *** Further properties of the routines *)

Lemma multi_iv_plot_no_savefig configs inputs output :
  wp (World:=World) (multi_iv_plot configs inputs output) tt
    (fun _ _ t => Forall no_savefig t).
Proof.
  unfold multi_iv_plot, plateaus.
  repeat (wp_loops (Forall no_savefig) (Forall_nil_2 no_savefig)
            (Forall_app_2 no_savefig)).
  all: repeat match goal with
         | |- Forall _ [] => constructor
         | |- Forall _ (_ :: _) => constructor; [exact I|]
         | |- Forall _ (_ ++ _) => apply Forall_app_2
         | |- Forall _ _ => assumption
         end.
Qed.

Lemma no_savefig_savefigs (t : list (event libE)) :
  Forall no_savefig t -> savefigs t = [].
Proof.
  induction 1 as [|[X c o] t He _ IH]; [done|].
  by destruct c.
Qed.

Lemma multi_iv_plot_ends configs inputs output :
  wp (World:=World) (multi_iv_plot configs inputs output) tt
    (fun v _ t =>
       v = inr tt ->
       exists t', t = t' ++ [Event (plt_subplots_adjust 0.3%float 0.35%float) (inr tt);
                             Event plt_show (inr tt)]).
Proof.
  unfold multi_iv_plot.
  repeat first
    [ lazymatch goal with
      | |- wp (bind (forM_ _ _) _) _ _ =>
          apply wp_bind;
          apply (wp_forM_keeps _ _ (fun _ => True) _ I (fun _ _ _ _ => I));
          [by intros ? ? ?|intros [?|[]] ? _]
      end
    | wp_step ]; simpl; try done.
  intros _. repeat match goal with u : unit |- _ => destruct u end.
  eexists (_ :: _). reflexivity.
Qed.

(** [multi_iv_plot] never saves a figure; when it returns, its last two
    calls are [plt.subplots_adjust(hspace=0.3, wspace=0.35)] and
    [plt.show()]. *)
Theorem multi_iv_plot_shows_and_never_saves h w configs inputs output :
  let r := multi_iv_plot configs inputs output h tt w in
  savefigs (trace r) = [] /\
  (value r = inr tt ->
   exists t, trace r = t ++ [Event (plt_subplots_adjust 0.3%float 0.35%float) (inr tt);
                             Event plt_show (inr tt)]).
Proof.
  intros r. split.
  - apply no_savefig_savefigs, multi_iv_plot_no_savefig.
  - apply multi_iv_plot_ends.
Qed.

(** Slices of a list that stay within it. *)
Lemma py_slice_to {A} (l : list A) (i : Z) :
  0 <= i -> py_slice l None (Some i) = take (Z.to_nat i) l.
Proof.
  intros Hi. unfold py_slice. simpl.
  assert ((i <? 0) = false) as -> by (apply Z.ltb_ge; lia).
  rewrite (Z.min_l 0) by lia. rewrite Z.sub_0_r.
  change (Z.to_nat 0) with 0%nat. rewrite drop_0.
  destruct (decide (i <= Z.of_nat (length l))) as [Hle|Hgt].
  - by rewrite Z.min_l by lia.
  - rewrite Z.min_r by lia. rewrite Nat2Z.id.
    by rewrite !take_ge by lia.
Qed.

Lemma py_slice_last {A} (l : list A) (o : Z) :
  0 < o <= Z.of_nat (length l) ->
  py_slice l (Some (- o)) None = drop (length l - Z.to_nat o) l.
Proof.
  intros Ho. unfold py_slice. simpl.
  assert ((- o <? 0) = true) as -> by (apply Z.ltb_lt; lia).
  assert ((Z.of_nat (length l) <? 0) = false) as -> by (apply Z.ltb_ge; lia).
  rewrite Z.min_id, Z.max_l by lia.
  replace (Z.to_nat (- o + Z.of_nat (length l))) with (length l - Z.to_nat o)%nat by lia.
  apply take_ge. rewrite length_drop. lia.
Qed.

Lemma py_slice_from_start {A} (l : list A) : py_slice l (Some 0) None = l.
Proof.
  unfold py_slice. simpl.
  assert ((Z.of_nat (length l) <? 0) = false) as -> by (apply Z.ltb_ge; lia).
  rewrite Z.min_id, (Z.min_l 0) by lia. rewrite Z.sub_0_r, Nat2Z.id.
  change (Z.to_nat 0) with 0%nat. rewrite drop_0. by apply take_ge.
Qed.

(** *** Figures opened and closed *)

Ltac figure_kept :=
  wp_run idtac; repeat match goal with u : unit |- _ => destruct u end;
  (split; [reflexivity|unfold figures_opened; simpl; lia]).

(** Each of [plot_error_hist], [plot_error_vs_output], [plot_waves] and
    [output_hist] opens at most one figure, and closes it in the runs that
    return and in no other: when numpy, [plt.savefig] or any call in between
    raises, the figure that [plt.figure()] opened is left open. *)
Theorem figure_is_closed_only_on_return h w :
  (forall targets prediction error mse save_dir name,
     let r := plot_error_hist targets prediction error mse save_dir name h tt w in
     figures_closed (trace r) = (match value r with inl _ => 0 | inr _ => 1 end)%nat /\
     (figures_opened (trace r) <= 1)%nat) /\
  (forall targets error save_dir name,
     let r := plot_error_vs_output targets error save_dir name h tt w in
     figures_closed (trace r) = (match value r with inl _ => 0 | inr _ => 1 end)%nat /\
     (figures_opened (trace r) <= 1)%nat) /\
  (forall inputs outputs input_no output_no batch legend save_directory,
     let r := plot_waves inputs outputs input_no output_no batch legend
                save_directory h tt w in
     figures_closed (trace r) = (match value r with inl _ => 0 | inr _ => 1 end)%nat /\
     (figures_opened (trace r) <= 1)%nat) /\
  (forall outputs data_dir bins show,
     let r := output_hist outputs data_dir bins show h tt w in
     figures_closed (trace r) = (match value r with inl _ => 0 | inr _ => 1 end)%nat /\
     (figures_opened (trace r) <= 1)%nat).
Proof.
  split; [|split; [|split]].
  - intros targets prediction error mse save_dir name.
    assert (wp (World:=World)
              (plot_error_hist targets prediction error mse save_dir name) tt
              (fun v _ t => figures_closed t = (match v with inl _ => 0 | inr _ => 1 end)%nat /\
                            (figures_opened t <= 1)%nat)) as Hwp
      by (unfold plot_error_hist; figure_kept).
    apply Hwp.
  - intros targets error save_dir name.
    assert (wp (World:=World) (plot_error_vs_output targets error save_dir name) tt
              (fun v _ t => figures_closed t = (match v with inl _ => 0 | inr _ => 1 end)%nat /\
                            (figures_opened t <= 1)%nat)) as Hwp
      by (unfold plot_error_vs_output; figure_kept).
    apply Hwp.
  - intros inputs outputs input_no output_no batch legend save_directory.
    assert (wp (World:=World)
              (plot_waves inputs outputs input_no output_no batch legend
                 save_directory) tt
              (fun v _ t => figures_closed t = (match v with inl _ => 0 | inr _ => 1 end)%nat /\
                            (figures_opened t <= 1)%nat)) as Hwp
      by (unfold plot_waves; figure_kept).
    apply Hwp.
  - intros outputs data_dir bins show.
    assert (wp (World:=World) (output_hist outputs data_dir bins show) tt
              (fun v _ t => figures_closed t = (match v with inl _ => 0 | inr _ => 1 end)%nat /\
                            (figures_opened t <= 1)%nat)) as Hwp
      by (unfold output_hist; figure_kept).
    apply Hwp.
Qed.

(** [iv_plot] calls neither [plt.figure()] nor [plt.close()]: it draws on
    the current figure and leaves it open, so that the curves of successive
    calls share a figure. *)
Theorem iv_plot_draws_on_the_current_figure h w
    result input_electrode save_plot show_plot :
  let r := iv_plot result input_electrode save_plot show_plot h tt w in
  Forall on_current_figure (trace r).
Proof.
  intros r.
  assert (wp (World:=World) (iv_plot result input_electrode save_plot show_plot) tt
            (fun _ _ t => Forall on_current_figure t)) as Hwp; [|apply Hwp].
  unfold iv_plot. wp_run idtac; by repeat constructor.
Qed.

(** *** The legends of plot_waves *)

Lemma plot_waves_legends inputs outputs input_no output_no batch legend save_directory :
  wp (World:=World)
    (plot_waves inputs outputs input_no output_no batch legend save_directory) tt
    (fun v _ t =>
       v = inr tt ->
       legends t = [py_slice legend None (Some input_no);
                    py_slice legend (Some (- output_no)) None]).
Proof. unfold plot_waves. returns_with. done. Qed.

(** When [legend] holds the [input_no] input headers followed by the
    [output_no] output headers, with at least one output, the two legends
    [plot_waves] draws are these two parts of it. *)
Theorem plot_waves_splits_the_legend h w
    inputs outputs input_no output_no batch legend save_directory :
  0 <= input_no ->
  0 < output_no ->
  input_no + output_no = Z.of_nat (length legend) ->
  let r := plot_waves inputs outputs input_no output_no batch legend
             save_directory h tt w in
  value r = inr tt ->
  exists for_inputs for_outputs,
    legends (trace r) = [for_inputs; for_outputs] /\
    for_inputs ++ for_outputs = legend /\
    Z.of_nat (length for_inputs) = input_no /\
    Z.of_nat (length for_outputs) = output_no.
Proof.
  intros Hin Hout Hlen r Hvalue.
  pose proof (plot_waves_legends inputs outputs input_no output_no batch legend
                save_directory h w Hvalue) as Hlegends.
  fold r in Hlegends. clearbody r.
  rewrite py_slice_to in Hlegends by done.
  rewrite py_slice_last in Hlegends by lia.
  replace (length legend - Z.to_nat output_no)%nat with (Z.to_nat input_no)
    in Hlegends by lia.
  eexists _, _. split; [exact Hlegends|].
  split; [apply take_drop|].
  rewrite length_take, length_drop. lia.
Qed.

(** With [output_no = 0] the legend of the outputs is not empty: it is the
    whole of [legend], since [legend[-0:]] is [legend[0:]]. *)
Theorem plot_waves_without_outputs_draws_the_whole_legend h w
    inputs outputs input_no batch legend save_directory :
  let r := plot_waves inputs outputs input_no 0 batch legend save_directory h tt w in
  value r = inr tt ->
  legends (trace r) = [py_slice legend None (Some input_no); legend].
Proof.
  intros r Hvalue.
  pose proof (plot_waves_legends inputs outputs input_no 0 batch legend
                save_directory h w Hvalue) as Hlegends.
  fold r in Hlegends. clearbody r.
  by rewrite py_slice_from_start in Hlegends.
Qed.

(** *** Showing and saving *)

Lemma output_hist_shows_first outputs data_dir bins :
  wp (World:=World) (output_hist outputs data_dir bins true) tt
    (fun v _ t =>
       v = inr tt ->
       exists before after,
         t = before ++ Event plt_show (inr tt) :: after /\
         savefigs before = [] /\
         savefigs after = [PyStr (data_dir +:+ "/output_distribution")]).
Proof.
  unfold output_hist. returns_with.
  by eexists [_; _; _; _; _], [_; _].
Qed.

Lemma iv_plot_saves_first result input_electrode save_plot :
  save_plot <> PyNone ->
  wp (World:=World) (iv_plot result input_electrode save_plot true) tt
    (fun v _ t =>
       v = inr tt ->
       exists before,
         t = before ++ [Event plt_show (inr tt)] /\
         savefigs before = [save_plot]).
Proof.
  intros Hsave. unfold iv_plot.
  destruct save_plot; try done; simpl; returns_with; by eexists [_; _; _; _].
Qed.

(** The two routines that can show a figure do it at opposite ends:
    [output_hist] with [show] set calls [plt.show()] before it saves, and
    [iv_plot] with [show_plot] set calls it after it has saved. *)
Theorem show_precedes_saving_in_output_hist_and_follows_it_in_iv_plot h w :
  (forall outputs data_dir bins,
     let r := output_hist outputs data_dir bins true h tt w in
     value r = inr tt ->
     exists before after,
       trace r = before ++ Event plt_show (inr tt) :: after /\
       savefigs before = [] /\
       savefigs after = [PyStr (data_dir +:+ "/output_distribution")]) /\
  (forall result input_electrode save_plot,
     let r := iv_plot result input_electrode save_plot true h tt w in
     save_plot <> PyNone ->
     value r = inr tt ->
     exists before,
       trace r = before ++ [Event plt_show (inr tt)] /\
       savefigs before = [save_plot]).
Proof.
  split.
  - intros outputs data_dir bins. apply output_hist_shows_first.
  - intros result input_electrode save_plot r Hsave.
    by apply iv_plot_saves_first.
Qed.

(** *** The channel mask *)

Lemma py_sum_mask (bits : list bool) :
  py_sum ((fun b : bool => PyInt (if b then 1 else 0)) <$> bits) =
  inr (Z.of_nat (length (filter (fun b => b = true) bits))).
Proof.
  induction bits as [|b bits IH]; [done|].
  rewrite fmap_cons. cbn [py_sum]. rewrite IH.
  destruct b.
  - rewrite filter_cons_True by done. cbn [length]. f_equal. lia.
  - rewrite filter_cons_False by done. f_equal.
Qed.

(** For a mask of zeros and ones and an active channel [k], the index
    [sum(mask[:k + 1]) - 1] used into [inputs[exp][dev]] is the number of
    active channels before [k]: it is below the number of active channels,
    so [inputs[exp][dev]] is read as one entry per active channel. *)
Theorem masked_index_counts_the_active_channels_before
    configs dev (bits : list bool) (k : nat) :
  activation_channel_mask configs dev = inr (mask_of bits) ->
  bits !! k = Some true ->
  let before := length (filter (fun b => b = true) (take k bits)) in
  channel_active configs dev (Z.of_nat k) = inr true /\
  masked_index configs dev (Z.of_nat k) = inr (Z.of_nat before) /\
  (before < length (filter (fun b => b = true) bits))%nat.
Proof.
  intros Hmask Hk before. pose proof (lookup_lt_Some _ _ _ Hk) as Hlt.
  split; [|split].
  - unfold channel_active. rewrite Hmask. simpl.
    rewrite (TrainModelFacts.list_getitem_lookup _ k (PyInt 1)); [done|].
    by rewrite list_lookup_fmap, Hk.
  - unfold masked_index. rewrite Hmask. simpl.
    rewrite py_slice_to by lia. rewrite <- fmap_take, py_sum_mask.
    replace (Z.to_nat (Z.of_nat k + 1)) with (S k) by lia.
    rewrite (take_S_r _ _ _ Hk), filter_app, length_app.
    rewrite filter_cons_True by done. simpl. f_equal. subst before. lia.
  - subst before. rewrite <- (take_drop_middle _ _ _ Hk) at 2.
    rewrite filter_app, length_app, filter_cons_True by done. simpl. lia.
Qed.

(** *** One figure per device *)

(** A loop that returns has gone through every pass: what the passes
    leave in the log, read by [obs], comes in the order of the list. *)
Lemma wp_forM_collects {A B} (l : list A) (body : A -> M libE World unit unit)
    (obs : list (event libE) -> list B) (R : A -> list B -> Prop) :
  obs [] = [] ->
  (forall t1 t2, obs (t1 ++ t2) = obs t1 ++ obs t2) ->
  (forall a, wp (body a) tt (fun v _ t => v = inr tt -> R a (obs t))) ->
  wp (forM_ l body) tt
    (fun v _ t => v = inr tt -> exists parts, Forall2 R l parts /\ obs t = concat parts).
Proof.
  intros Hnil Happ Hbody. induction l as [|a l IH]; simpl.
  - apply wp_ret. intros _. exists []. by split; [constructor|].
  - apply wp_bind. eapply wp_mono; [apply Hbody|].
    intros [e|[]] [] t1 H1; simpl; [done|].
    eapply wp_mono; [apply IH|]. intros v [] t2 H2 Hv.
    destruct (H2 Hv) as (parts & Hparts & Hobs).
    exists (obs t1 :: parts). split; [constructor; auto|].
    by rewrite Happ, Hobs.
Qed.

(** A loop that returns has returned from every pass. *)
Lemma wp_forM_each {A} (l : list A) (body : A -> M libE World unit unit)
    (P : A -> Prop) :
  (forall a, wp (body a) tt (fun v _ _ => v = inr tt -> P a)) ->
  wp (forM_ l body) tt (fun v _ _ => v = inr tt -> Forall P l).
Proof.
  intros Hbody. induction l as [|a l IH]; simpl.
  - apply wp_ret. by constructor.
  - apply wp_bind. eapply wp_mono; [apply Hbody|].
    intros [e|[]] [] t1 H1; simpl; [done|].
    eapply wp_mono; [apply IH|]. intros v [] t2 H2 Hv. constructor; auto.
Qed.

Lemma wp_anything {A} (m : M libE World unit A) :
  wp (World:=World) m tt (fun _ _ _ => True).
Proof. by intros h w. Qed.

Lemma no_figure_call_silent (t : list (event libE)) :
  Forall no_figure_call t -> figure_calls t = [].
Proof.
  induction 1 as [|[X c o] t He _ IH]; [done|].
  by destruct c.
Qed.

Lemma figure_calls_app (t1 t2 : list (event libE)) :
  figure_calls (t1 ++ t2) = figure_calls t1 ++ figure_calls t2.
Proof. apply omap_app. Qed.

Lemma multi_iv_plot_figures configs inputs output :
  wp (World:=World) (multi_iv_plot configs inputs output) tt
    (fun v _ t =>
       v = inr tt ->
       exists devices parts,
         (devs <- py_getitem configs "devices" ;; py_iter devs)%result = inr devices /\
         Forall2 (fun dev part =>
                    exists name fig,
                      dev = PyStr name /\
                      part = [Made 2 4 fig;
                              Titled fig ("Device " +:+ name +:+
                                          " - Input voltage vs Output current")])
           devices parts /\
         figure_calls t = concat parts).
Proof.
  unfold multi_iv_plot, plateaus.
  apply wp_bind, wp_call. intros [e|cmap]; [done|]. cbv beta iota.
  apply wp_bind, wp_lift. destruct (py_getitem configs "devices") as [e|devs] eqn:Hdevs; [done|].
  cbv beta iota. apply wp_bind, wp_lift. destruct (py_iter devs) as [e|devices] eqn:Hiter; [done|].
  cbv beta iota. apply wp_bind.
  eapply wp_mono;
    [apply (wp_forM_collects devices _ figure_calls
              (fun dev part =>
                 exists name fig,
                   dev = PyStr name /\
                   part = [Made 2 4 fig;
                           Titled fig ("Device " +:+ name +:+
                                       " - Input voltage vs Output current")])
              eq_refl figure_calls_app)|].
  - intros dev.
    apply wp_bind, wp_call. intros [e|[fig axs]]; [done|]. cbv beta iota.
    apply wp_bind, wp_lift. destruct dev as [| | | |name| | |]; try done. cbv beta iota.
    apply wp_bind, wp_call. intros [e|[]]; [done|]. cbv beta iota.
    apply (wp_mono _ _ (fun _ _ t => Forall no_figure_call t)).
    + repeat (wp_loops (Forall no_figure_call) (Forall_nil_2 no_figure_call)
                (Forall_app_2 no_figure_call)).
      all: repeat match goal with
             | |- Forall _ [] => constructor
             | |- Forall _ (_ :: _) => constructor; [exact I|]
             | |- Forall _ (_ ++ _) => apply Forall_app_2
             | |- Forall _ _ => assumption
             end.
    + intros v [] t Hquiet _. exists name, fig. split; [done|].
      by rewrite !figure_calls_app, (no_figure_call_silent _ Hquiet).
  - intros [e|[]] [] t Hloop; cbv beta iota; [done|].
    destruct (Hloop eq_refl) as (parts & Hparts & Hcalls).
    wp_run idtac; try done. intros _. exists devices, parts.
    split; [exact Hiter|]. split; [done|].
    rewrite !figure_calls_app, Hcalls. simpl. by rewrite app_nil_r.
Qed.

(** When [multi_iv_plot] returns, [configs['devices']] was a sequence of
    strings and, for each of them in order, [plt.subplots(2, 4)] made one
    figure, titled ['Device ' + dev + ' - Input voltage vs Output current'];
    no other figure was made or titled. *)
Theorem multi_iv_plot_makes_one_figure_per_device h w configs inputs output :
  let r := multi_iv_plot configs inputs output h tt w in
  value r = inr tt ->
  exists devices parts,
    (devs <- py_getitem configs "devices" ;; py_iter devs)%result = inr devices /\
    Forall2 (fun dev part =>
               exists name fig,
                 dev = PyStr name /\
                 part = [Made 2 4 fig;
                         Titled fig ("Device " +:+ name +:+
                                     " - Input voltage vs Output current")])
      devices parts /\
    figure_calls (trace r) = concat parts.
Proof. intros r. apply multi_iv_plot_figures. Qed.

(** *** What a returning multi_iv_plot has read *)

Lemma panel_found configs inputs output axs dev (i j : Z) body otherwise :
  (j + i * 4 <? 7) = true ->
  wp (World:=World)
    (active <- lift (channel_active configs dev (j + i * 4)) ;;
     (if active : bool then
        masked_idx <- lift (masked_index configs dev (j + i * 4)) ;;
        temp <- lift (input_points inputs ("IV" +:+ str (j + i * 4 + 1))
                        dev masked_idx) ;;
        convert <- lift (not_average_io_point_difference configs) ;;
        temp <- (if convert : bool
                 then plateaus configs inputs ("IV" +:+ str (j + i * 4 + 1))
                        dev masked_idx
                 else ret temp) ;;
        ax <- call (axs_getitem axs i j) ;;
        current <- lift (output_current output ("IV" +:+ str (j + i * 4 + 1)) dev) ;;
        body temp ax current
      else otherwise))%monad tt
    (fun v _ _ =>
       v = inr tt -> panel_inputs_found configs inputs output dev (j + i * 4)).
Proof.
  intros _. unfold panel_inputs_found, plateaus.
  apply wp_bind, wp_lift.
  destruct (channel_active configs dev (j + i * 4)) as [e|[]]; [done| |].
  - cbv beta iota. apply wp_bind, wp_lift.
    destruct (masked_index configs dev (j + i * 4)) as [e|masked_idx]; [done|].
    cbv beta iota. apply wp_bind, wp_lift.
    destruct (input_points inputs _ dev masked_idx) as [e|points] eqn:Hpoints; [done|].
    cbv beta iota. apply wp_bind, wp_lift.
    destruct (not_average_io_point_difference configs) as [e|convert]; [done|].
    cbv beta iota. apply wp_bind.
    apply (wp_mono _ _ (fun _ _ _ => True)); [apply wp_anything|].
    intros [e|temp] [] t _; [done|].
    apply wp_bind, wp_call. intros [e|ax]; [done|]. cbv beta iota.
    apply wp_bind, wp_lift.
    destruct (output_current output _ dev) as [e|current]; [done|].
    cbv beta iota. apply (wp_mono _ _ (fun _ _ _ => True)); [apply wp_anything|].
    intros v [] t' _ _. exists true. split; [done|]. intros _.
    by exists masked_idx, points, current.
  - cbv beta iota. apply (wp_mono _ _ (fun _ _ _ => True)); [apply wp_anything|].
    intros v [] t _ _. by exists false.
Qed.

Lemma multi_iv_plot_found configs inputs output :
  wp (World:=World) (multi_iv_plot configs inputs output) tt
    (fun v _ _ =>
       v = inr tt ->
       exists devices,
         (devs <- py_getitem configs "devices" ;; py_iter devs)%result = inr devices /\
         Forall (fun dev =>
                   exists name,
                     dev = PyStr name /\
                     Forall (fun i =>
                               Forall (fun j =>
                                         j + i * 4 < 7 ->
                                         panel_inputs_found configs inputs output
                                           name (j + i * 4))
                                 [0; 1; 2; 3])
                       [0; 1])
           devices).
Proof.
  unfold multi_iv_plot.
  apply wp_bind, wp_call. intros [e|cmap]; [done|]. cbv beta iota.
  apply wp_bind, wp_lift. destruct (py_getitem configs "devices") as [e|devs] eqn:Hdevs; [done|].
  cbv beta iota. apply wp_bind, wp_lift. destruct (py_iter devs) as [e|devices] eqn:Hiter; [done|].
  cbv beta iota. apply wp_bind.
  eapply wp_mono;
    [apply (wp_forM_each _ _
              (fun dev =>
                 exists name,
                   dev = PyStr name /\
                   Forall (fun i =>
                             Forall (fun j =>
                                       j + i * 4 < 7 ->
                                       panel_inputs_found configs inputs output
                                         name (j + i * 4))
                               [0; 1; 2; 3])
                     [0; 1]))|].
  - intros dev.
    apply wp_bind, wp_call. intros [e|[fig axs]]; [done|]. cbv beta iota.
    apply wp_bind, wp_lift. destruct dev as [| | | |name| | |]; try done.
    cbv beta iota.
    apply wp_bind, wp_call. intros [e|[]]; [done|]. cbv beta iota.
    eapply wp_mono;
      [apply (wp_forM_each _ _
                (fun i =>
                   Forall (fun j =>
                             j + i * 4 < 7 ->
                             panel_inputs_found configs inputs output name (j + i * 4))
                     [0; 1; 2; 3]))|].
    + intros i.
      apply (wp_forM_each _ _
               (fun j =>
                  j + i * 4 < 7 ->
                  panel_inputs_found configs inputs output name (j + i * 4))).
      intros j. cbv zeta.
      destruct (j + i * 4 <? 7) eqn:Hpanel.
      * eapply wp_mono;
          [apply (panel_found configs inputs output axs name i j _ _ Hpanel)|].
        intros v [] t Hfound Hv _. by apply Hfound.
      * apply (wp_mono _ _ (fun _ _ _ => True)); [apply wp_anything|].
        intros v [] t _ _ Hlt. apply Z.ltb_ge in Hpanel. lia.
    + intros v [] t Hi Hv. exists name. split; [done|]. by apply Hi.
  - intros [e|[]] [] t Hloop; cbv beta iota; [done|].
    apply (wp_mono _ _ (fun _ _ _ => True)); [apply wp_anything|].
    intros v [] t' _ _. exists devices. split; [exact Hiter|]. by apply Hloop.
Qed.

(** When [multi_iv_plot] returns, it has found what it reads for the seven
    experiments of every device: the mask of the device has an entry for
    every channel [k < 7], and for every active one [inputs] has
    [inputs['IV' + str(k + 1)][dev][masked_idx]] and [output] has
    [output['IV' + str(k + 1)][dev]]. *)
Theorem returning_multi_iv_plot_found_its_inputs h w configs inputs output :
  let r := multi_iv_plot configs inputs output h tt w in
  value r = inr tt ->
  exists devices,
    (devs <- py_getitem configs "devices" ;; py_iter devs)%result = inr devices /\
    forall dev k,
      PyStr dev ∈ devices -> 0 <= k < 7 ->
      panel_inputs_found configs inputs output dev k.
Proof.
  intros r Hvalue.
  destruct (multi_iv_plot_found configs inputs output h w Hvalue)
    as (devices & Hdevices & Hpanels).
  exists devices. split; [done|]. intros dev k Hdev Hk.
  rewrite Forall_forall in Hpanels.
  destruct (Hpanels _ Hdev) as (name & [= <-] & Hrows).
  repeat match goal with
         | Hall : Forall _ (_ :: _) |- _ => apply Forall_cons in Hall as [? Hall]
         | Hall : Forall _ [] |- _ => clear Hall
         end.
  assert (k = 0 \/ k = 1 \/ k = 2 \/ k = 3 \/ k = 4 \/ k = 5 \/ k = 6)
    as [->|[->|[->|[->|[->|[->| ->]]]]]] by lia;
    match goal with
    | Hpanel : _ -> panel_inputs_found _ _ _ _ ?k' |- panel_inputs_found _ _ _ _ ?k =>
        change k with k'; apply Hpanel; lia
    end.
Qed.

(** *** The labels of the eighth panel *)

Lemma enumerate_lookup {A} (l : list A) (z : Z) (a : A) :
  (z, a) ∈ enumerate l -> 0 <= z /\ l !! Z.to_nat z = Some a.
Proof.
  unfold enumerate. intros Hin.
  apply elem_of_lookup_imap in Hin as (i & b & [= -> ->] & Hi).
  split; [lia|]. by rewrite Nat2Z.id.
Qed.

(** The rule of [wp_forM_keeps] for a body that needs to know that it is
    run on an element of the list. *)
Lemma wp_forM_keeps_in {A} (l : list A) (body : A -> M libE World unit unit)
    (keeps : list (event libE) -> Prop)
    (post : result unit -> unit -> list (event libE) -> Prop) :
  keeps [] ->
  (forall t1 t2, keeps t1 -> keeps t2 -> keeps (t1 ++ t2)) ->
  (forall a, a ∈ l -> wp (body a) tt (fun _ _ t => keeps t)) ->
  (forall v t, keeps t -> post v tt t) ->
  wp (forM_ l body) tt post.
Proof.
  intros Hnil Happ Hbody Hpost.
  apply (wp_mono _ _ (fun _ _ t => keeps t)); [|by intros v [] t; apply Hpost].
  clear Hpost post. induction l as [|a l IH]; simpl.
  - by apply wp_ret.
  - apply wp_bind. eapply wp_mono; [apply Hbody; by left|].
    intros [e|[]] [] t1 H1; simpl; [done|].
    eapply wp_mono; [apply IH; intros b Hb; apply Hbody; by right|].
    intros v [] t2 H2. by apply Happ.
Qed.

Ltac wp_overview configs inputs :=
  repeat first
    [ lazymatch goal with
      | |- wp (forM_ (enumerate _) _) _ _ =>
          apply (wp_forM_keeps_in _ _ (Forall (overview_curve configs inputs)) _
                   (Forall_nil_2 _) (Forall_app_2 _));
          [intros [? ?] [? ?]%enumerate_lookup|intros [?|[]] ? ?]
      | |- wp (forM_ _ _) _ _ =>
          apply (wp_forM_keeps _ _ (Forall (overview_curve configs inputs)) _
                   (Forall_nil_2 _) (Forall_app_2 _));
          [intros ?|intros [?|[]] ? ?]
      | |- wp (bind (forM_ _ _) _) _ _ => apply wp_bind
      end
    | wp_step ]; simpl.

Lemma multi_iv_plot_overview configs inputs output :
  wp (World:=World) (multi_iv_plot configs inputs output) tt
    (fun _ _ t => Forall (overview_curve configs inputs) t).
Proof.
  unfold multi_iv_plot, plateaus.
  repeat (wp_overview configs inputs).
  all: repeat match goal with
         | |- Forall _ [] => constructor
         | |- Forall _ (_ :: _) => constructor
         | |- Forall _ (_ ++ _) => apply Forall_app_2
         | |- Forall _ _ => assumption
         | |- overview_curve _ _ (Event (ax_plot _ _ None _) _) => exact I
         | |- overview_curve _ _ (Event (ax_plot _ _ (Some _) _) _) => idtac
         | |- overview_curve _ _ _ => exact I
         end.
  all: simpl; eexists _, _, _; (split; [eassumption|]); (split; [eassumption|]);
    (split; [reflexivity|]); (split; [reflexivity|]); intros Hflag.
  all: first [congruence|by eexists _, _].
Qed.

Lemma overview_curve_labels configs inputs (t : list (event libE)) :
  Forall (overview_curve configs inputs) t ->
  Forall (fun label =>
            exists z key,
              0 <= z /\ inputs.*1 !! Z.to_nat z = Some key /\
              label = "IV" +:+ str z)
    (curve_labels t).
Proof.
  induction 1 as [|[X c o] t He _ IH]; [constructor|].
  destruct c; try exact IH.
  match goal with
  | label : option string |- _ => destruct label as [label|]; [|exact IH]
  end.
  destruct He as (z & key & x & Hz & Hkey & -> & _).
  constructor; [by exists z, key|exact IH].
Qed.

(** In every run of [multi_iv_plot], a curve drawn with a label (those of
    the eighth panel) is one array, labelled ['IV' + str(z)] for a position
    [z] in [inputs.keys()], counted from 0; when the input points are not
    converted to plateaus, the array is an [inputs[key][dev][i]] of the key
    at that position.  The label comes from the position and not from the
    key: with the keys 'IV1', 'IV2', ... of the first seven panels, the
    curve of 'IV1' is labelled 'IV0'. *)
Theorem overview_curves_are_labelled_by_position h w configs inputs output :
  let r := multi_iv_plot configs inputs output h tt w in
  Forall (overview_curve configs inputs) (trace r) /\
  Forall (fun label =>
            exists z key,
              0 <= z /\ inputs.*1 !! Z.to_nat z = Some key /\
              label = "IV" +:+ str z)
    (curve_labels (trace r)).
Proof.
  intros r.
  pose proof (multi_iv_plot_overview configs inputs output h w) as Hcurves.
  cbv beta in Hcurves. fold r in Hcurves. clearbody r.
  split; [done|]. by eapply overview_curve_labels.
Qed.

(** *** The log of a multi_iv_plot that returns *)

Lemma occurs_in_refl {A} (s : list A) : occurs_in s s.
Proof. exists [], []. by rewrite app_nil_r. Qed.

Lemma occurs_in_app_l {A} (s t u : list A) : occurs_in s t -> occurs_in s (u ++ t).
Proof.
  intros (before & after & ->). exists (u ++ before), after.
  by rewrite <- app_assoc.
Qed.

Lemma occurs_in_app_r {A} (s t u : list A) : occurs_in s t -> occurs_in s (t ++ u).
Proof.
  intros (before & after & ->). exists before, (after ++ u).
  by rewrite <- !app_assoc.
Qed.

Lemma occurs_in_trans {A} (s t u : list A) :
  occurs_in s t -> occurs_in t u -> occurs_in s u.
Proof.
  intros Hs (before & after & ->). by apply occurs_in_app_l, occurs_in_app_r.
Qed.

(** A part of a log made of parts, for each element of the list. *)
Lemma Forall2_concat_occurs {A B} (R : A -> list B -> Prop) (l : list A)
    (parts : list (list B)) (a : A) :
  Forall2 R l parts -> a ∈ l ->
  exists part, R a part /\ occurs_in part (concat parts).
Proof.
  induction 1 as [|b part l parts Hpart _ IH]; [by intros ?%elem_of_nil|].
  intros [->|Hin]%elem_of_cons; simpl.
  - exists part. split; [done|]. apply occurs_in_app_r, occurs_in_refl.
  - destruct (IH Hin) as (part' & Hpart' & Hoccurs).
    exists part'. split; [done|]. by apply occurs_in_app_l.
Qed.

Ltac found := first [eassumption|reflexivity].

Ltac conversion_made :=
  lazymatch goal with
  | |- conversion_log _ _ _ _ _ =>
      unfold conversion_log; eexists; split; [found|]; cbv beta iota;
      first
        [ do 3 eexists; split; [found|]; split; [reflexivity|found]
        | split; reflexivity ]
  end.

Ltac units :=
  repeat match goal with u : unit |- _ => destruct u end.

Lemma multi_iv_plot_returns configs inputs output :
  wp (World:=World) (multi_iv_plot configs inputs output) tt
    (fun v _ t => v = inr tt -> multi_iv_plot_log configs inputs output t).
Proof.
  unfold multi_iv_plot.
  apply wp_bind, wp_call. intros [e|cmap]; [done|]. cbv beta iota.
  apply wp_bind, wp_lift.
  destruct (py_getitem configs "devices") as [e|devs] eqn:Hdevs; [done|].
  cbv beta iota. apply wp_bind, wp_lift.
  destruct (py_iter devs) as [e|devices] eqn:Hiter; [done|].
  cbv beta iota. apply wp_bind.
  eapply wp_mono;
    [apply (wp_forM_collects devices _ (fun t => t)
              (device_log configs inputs output cmap) eq_refl (fun _ _ => eq_refl))|].
  - intros dev.
    apply wp_bind, wp_call. intros [e|[fig axs]]; [done|]. cbv beta iota.
    apply wp_bind, wp_lift. destruct dev as [| | | |name| | |]; try done.
    cbv beta iota.
    apply wp_bind, wp_call. intros [e|[]]; [done|]. cbv beta iota.
    eapply wp_mono;
      [apply (wp_forM_collects [0; 1] _ (fun t => t)
                (fun i row =>
                   exists panels,
                     Forall2 (panel_log configs inputs output cmap axs name i)
                       [0; 1; 2; 3] panels /\
                     row = concat panels)
                eq_refl (fun _ _ => eq_refl))|].
    + intros i.
      eapply wp_mono;
        [apply (wp_forM_collects [0; 1; 2; 3] _ (fun t => t)
                  (panel_log configs inputs output cmap axs name i)
                  eq_refl (fun _ _ => eq_refl))|].
      * intros j. cbv zeta. unfold panel_log.
        destruct (j + i * 4 <? 7) eqn:Hpanel.
        -- unfold experiment_log, plateaus. cbv zeta.
           wp_run idtac; try done; intros _; units.
           ++ eexists; (split; [found|]); cbv beta iota.
              do 11 eexists. split; [found|]. split; [found|].
              split; [conversion_made|]. split; [found|]. reflexivity.
           ++ eexists; (split; [found|]); cbv beta iota.
              do 11 eexists. split; [found|]. split; [found|].
              split; [conversion_made|]. split; [found|]. reflexivity.
           ++ eexists; (split; [found|]); cbv beta iota.
              by do 2 eexists.
        -- unfold overview_log, plateaus. apply wp_bind.
           eapply wp_mono;
             [apply (wp_forM_collects (enumerate inputs.*1) _ (fun t => t)
                       (fun zkey entry =>
                          overview_entry_log configs inputs cmap axs name i j
                            zkey.1 zkey.2 entry)
                       eq_refl (fun _ _ => eq_refl))|].
           ++ intros [z key]. unfold overview_entry_log. cbv beta iota.
              wp_run idtac; try done; intros _; units.
              ** eexists; (split; [found|]); cbv beta iota.
                 do 6 eexists. split; [found|]. split; [found|].
                 split; [conversion_made|]. reflexivity.
              ** eexists; (split; [found|]); cbv beta iota.
                 do 6 eexists. split; [found|]. split; [found|].
                 split; [conversion_made|]. reflexivity.
              ** eexists; (split; [found|]); cbv beta iota. reflexivity.
           ++ intros [e|[]] [] t Hloop; cbv beta iota; [done|].
              destruct (Hloop eq_refl) as (entries & Hentries & ->).
              wp_run idtac; try done. intros _. units.
              exists entries. do 6 eexists. split; [exact Hentries|]. reflexivity.
      * intros v [] t Hj Hv. destruct (Hj Hv) as (panels & Hpanels & ->).
        by exists panels.
    + intros v [] t Hi Hv. destruct (Hi Hv) as (rows & Hrows & ->).
      exists name, fig, axs, rows. split; [done|]. split; [exact Hrows|]. reflexivity.
  - intros [e|[]] [] t Hloop; cbv beta iota; [done|].
    destruct (Hloop eq_refl) as (figures & Hfigures & ->).
    wp_run idtac; try done. intros _. units.
    exists cmap, devices, figures. split; [by rewrite Hdevs|]. split; [exact Hfigures|].
    reflexivity.
Qed.

(** In the log of a [multi_iv_plot] that returns and converts, the panel
    of every active channel holds, one after the other: the construction
    of the manager, its conversion of the points of that panel, the look-up
    of the axes of the panel and of its colour, and the drawing of the
    converted points against the output of that panel. *)
Lemma multi_iv_plot_log_converts configs inputs output (t : list (event libE)) :
  multi_iv_plot_log configs inputs output t ->
  not_average_io_point_difference configs = inr true ->
  exists cmap devices,
    (devs <- py_getitem configs "devices" ;; py_iter devs)%result = inr devices /\
    forall dev i j,
      PyStr dev ∈ devices -> i ∈ [0; 1] -> j ∈ [0; 1; 2; 3] -> j + i * 4 < 7 ->
      channel_active configs dev (j + i * 4) = inr true ->
      exists axs masked_idx points current n wm waves ax color,
        masked_index configs dev (j + i * 4) = inr masked_idx /\
        input_points inputs ("IV" +:+ str (j + i * 4 + 1)) dev masked_idx = inr points /\
        output_current output ("IV" +:+ str (j + i * 4 + 1)) dev = inr current /\
        plateau_length configs = inr n /\
        occurs_in
          [Event (WaveformManager [("slope_length", PyInt 0);
                                   ("plateau_length", PyInt n)]) (inr wm);
           Event (points_to_plateaus wm (torch_tensor points)) (inr waves);
           Event (axs_getitem axs i j) (inr ax);
           Event (cmap_call cmap (j + i * 4)) (inr color);
           Event (ax_plot ax [tensor_numpy waves; current] None (Some color)) (inr tt)]
          t.
Proof.
  intros (cmap & devices & figures & Hdevices & Hfigures & ->) Hflag.
  exists cmap, devices. split; [done|]. intros dev i j Hdev Hi Hj Hlt Hactive.
  destruct (Forall2_concat_occurs _ _ _ _ Hfigures Hdev)
    as (figure & (name & fig & axs & rows & [= <-] & Hrows & ->) & Hfigure).
  destruct (Forall2_concat_occurs _ _ _ _ Hrows Hi)
    as (row & (panels & Hpanels & ->) & Hrow).
  destruct (Forall2_concat_occurs _ _ _ _ Hpanels Hj) as (panel & Hpanel & Hoccurs).
  unfold panel_log in Hpanel.
  assert ((j + i * 4 <? 7) = true) as Hlt' by (apply Z.ltb_lt; lia).
  rewrite Hlt' in Hpanel. unfold experiment_log in Hpanel. cbv zeta in Hpanel.
  destruct Hpanel as (active & Hact & Hbody).
  rewrite Hactive in Hact. injection Hact as <-.
  destruct Hbody
    as (masked_idx & points & temp & conversion & current & color
        & ax1 & ax2 & ax3 & ax4 & ax5 & Hmasked & Hpoints & Hconversion & Hcurrent & ->).
  destruct Hconversion as (convert & Hconvert & Hconversion).
  rewrite Hflag in Hconvert. injection Hconvert as <-.
  destruct Hconversion as (n & wm & waves & Hn & -> & ->).
  exists axs, masked_idx, points, current, n, wm, waves, ax1, color.
  split; [done|]. split; [done|]. split; [done|]. split; [done|].
  apply occurs_in_app_l, occurs_in_app_r.
  eapply occurs_in_trans; [|exact Hfigure]. apply occurs_in_app_l.
  eapply occurs_in_trans; [|exact Hrow].
  eapply occurs_in_trans; [|exact Hoccurs].
  by eexists [], [_; _; _; _; _; _; _; _].
Qed.

(** C8, as amended. [train] and [WaveformManager] are not defined in the
    two files: they are imported from modules of brainspy, outside the
    package of the repository; [load_data] is not defined in
    train_model.py either, but the module it is imported from,
    [bspysmg.model.data.inputs.dataset], belongs to that package.
    In every run of [multi_iv_plot], each [WaveformManager] is constructed
    with [slope_length] 0 and [plateau_length] the [int()] of
    [readout_sampling_frequency / activation_sampling_frequency], both read
    from [configs['driver']['instruments_setup']]; when
    [average_io_point_difference] is false, the first array of every curve
    drawn is what [points_to_plateaus], called on a manager constructed in
    the run and on the tensor of an [inputs[exp][dev][i]], returned (from
    [plateau_length] on in the last panel); when it is true, no manager is
    constructed and nothing is converted.  A run that returns has the log
    [multi_iv_plot_log]: in particular, when [average_io_point_difference]
    is false, for every device and every active channel [k = j + i * 4 < 7]
    the manager was constructed, it converted the points
    [inputs['IV' + str(k + 1)][dev][masked_idx]] of that panel, and the
    result was drawn on the axes [(i, j)] against [output['IV' + str(k + 1)][dev]]. *)
Theorem multi_iv_plot_converts_points_to_plateaus h w configs inputs output :
  let r := multi_iv_plot configs inputs output h tt w in
  (Imports.imported_from_outside Imports.train_model Imports.train_model_defines
     "train" = true /\
   Imports.imported_from_outside Imports.plots Imports.plots_defines
     "WaveformManager" = true /\
   ("points_to_plateaus" ∉ Imports.plots_defines) /\
   ("load_data" ∉ Imports.train_model_defines) /\
   exists module,
     Imports.module_of Imports.train_model "load_data" = Some module /\
     Imports.top_level module = Imports.package) /\
  Forall (fun d =>
            exists setup readout activation ratio n,
              instruments_setup configs = inr setup /\
              py_getitem setup "readout_sampling_frequency" = inr readout /\
              py_getitem setup "activation_sampling_frequency" = inr activation /\
              py_truediv readout activation = inr ratio /\
              py_int ratio = inr n /\
              d = [("slope_length", PyInt 0); ("plateau_length", PyInt n)])
    (waveform_configs (trace r)) /\
  (not_average_io_point_difference configs = inr true ->
   plateaus_plotted inputs (trace r)) /\
  (not_average_io_point_difference configs = inr false ->
   waveform_configs (trace r) = [] /\ plateau_calls (trace r) = []) /\
  (value r = inr tt -> multi_iv_plot_log configs inputs output (trace r)) /\
  (value r = inr tt ->
   not_average_io_point_difference configs = inr true ->
   exists cmap devices,
     (devs <- py_getitem configs "devices" ;; py_iter devs)%result = inr devices /\
     forall dev i j,
       PyStr dev ∈ devices -> i ∈ [0; 1] -> j ∈ [0; 1; 2; 3] -> j + i * 4 < 7 ->
       channel_active configs dev (j + i * 4) = inr true ->
       exists axs masked_idx points current n wm waves ax color,
         masked_index configs dev (j + i * 4) = inr masked_idx /\
         input_points inputs ("IV" +:+ str (j + i * 4 + 1)) dev masked_idx =
           inr points /\
         output_current output ("IV" +:+ str (j + i * 4 + 1)) dev = inr current /\
         plateau_length configs = inr n /\
         occurs_in
           [Event (WaveformManager [("slope_length", PyInt 0);
                                    ("plateau_length", PyInt n)]) (inr wm);
            Event (points_to_plateaus wm (torch_tensor points)) (inr waves);
            Event (axs_getitem axs i j) (inr ax);
            Event (cmap_call cmap (j + i * 4)) (inr color);
            Event (ax_plot ax [tensor_numpy waves; current] None (Some color))
              (inr tt)]
           (trace r)).
Proof.
  intros r.
  pose proof (multi_iv_plot_managers configs inputs output h w) as Hmanagers.
  pose proof (fun Hflag => multi_iv_plot_converts configs inputs output Hflag h w)
    as Hconverts.
  pose proof (fun Hflag => multi_iv_plot_leaves_points configs inputs output Hflag h w)
    as Hleaves.
  pose proof (multi_iv_plot_returns configs inputs output h w) as Hlog.
  cbv beta in Hmanagers, Hconverts, Hleaves, Hlog.
  fold r in Hmanagers, Hconverts, Hleaves, Hlog. clearbody r.
  split; [|split; [|split; [done|split; [|split; [done|]]]]].
  - split; [done|]. split; [done|].
    split; [by intros Hin; repeat apply elem_of_cons in Hin as [?|Hin];
            try discriminate; by apply elem_of_nil in Hin|].
    split; [by intros Hin; repeat apply elem_of_cons in Hin as [?|Hin];
            try discriminate; by apply elem_of_nil in Hin|].
    by eexists.
  - eapply Forall_impl; [by apply plateau_managers_configs|].
    intros d (n & Hn & ->).
    destruct (plateau_length_inv _ _ Hn)
      as (setup & readout & activation & ratio & ? & ? & ? & ? & ?).
    by exists setup, readout, activation, ratio, n.
  - intros Hflag. by apply no_conversion_silent, Hleaves.
  - intros Hvalue Hflag. by apply multi_iv_plot_log_converts; [apply Hlog|].
Qed.

End Facts.

(** ** The theorems at work on the stand-in libraries *)

Section Examples.
#[local] Existing Instance Lab.arrays.

(** The four routines, and two [plot_waves] in a row, on the stand-in
    matplotlib. *)
Lemma plotting_routines_in_the_studio :
  let r1 := plot_error_hist [1; 2] [1; 3] [0; 1] [1] "out" "error" Lab.studio tt 0%nat in
  let r2 := plot_error_vs_output [1; 2] [0; 1] "out" "error_vs_output"
              Lab.studio tt 0%nat in
  let r3 := plot_waves [1; 2] [3; 4] 1 1 7 ["in"; "out"] "out" Lab.studio tt 0%nat in
  let r4 := output_hist [1; 2] "out" 100 true Lab.studio tt 0%nat in
  (value r1 = inr tt /\ savefigs (trace r1) = [PyStr "out/error"] /\
   under "out" "out/error" = true) /\
  (value r2 = inr tt /\ savefigs (trace r2) = [PyStr "out/error_vs_output"]) /\
  (value r3 = inr tt /\ savefigs (trace r3) = [PyStr "out/example_batch"]) /\
  (value r4 = inr tt /\ savefigs (trace r4) = [PyStr "out/output_distribution"]).
Proof.
  intros.
  destruct (plotting_routines_save_one_image_and_close Lab.studio 0%nat)
    as (H1 & H2 & H3 & H4 & _).
  split; [|split; [|split]]; (split; [by vm_compute|]).
  - destruct (H1 [1; 2] [1; 3] [0; 1] [1] "out" "error") as (Hsaved & _ & Hunder);
      [by vm_compute|].
    split; [exact Hsaved|]. by apply Hunder.
  - by apply (H2 [1; 2] [0; 1] "out" "error_vs_output"); vm_compute.
  - by apply (H3 [1; 2] [3; 4] 1 1 7 ["in"; "out"] "out"); vm_compute.
  - by apply (H4 [1; 2] "out" 100 true); vm_compute.
Defined.

(** C9 as stated fails: with an absolute [name], [plot_error_hist] returns
    having saved its one image to [name] itself, which is not under the
    directory it was given. *)
Lemma absolute_name_is_saved_outside_the_directory :
  let r := plot_error_hist [1; 2] [1; 3] [0; 1] [1] "out" "/tmp/evil"
             Lab.studio tt 0%nat in
  value r = inr tt /\
  savefigs (trace r) = [PyStr "/tmp/evil"] /\
  under "out" "/tmp/evil" = false.
Proof. by vm_compute. Qed.

(** [iv_plot] with a file name and [show_plot=True], on a matplotlib whose
    [savefig] takes strings only. *)
Lemma iv_plot_in_the_studio :
  let r := iv_plot [1; 2] 3 (PyStr "iv.png") true Lab.strict_studio tt 0%nat in
  value r = inr tt /\
  savefigs (trace r) = [PyStr "iv.png"] /\
  figures_written (trace r) = 1%nat /\
  shown (trace r) = 1%nat.
Proof.
  intros.
  destruct (iv_plot_saves_unless_save_plot_is_None Lab.strict_studio 0%nat
              [1; 2] 3 (PyStr "iv.png") true)
    as (_ & _ & _ & _ & _ & _ & _ & Hret).
  split; [by vm_compute|].
  assert (value r = inr tt) as Hvalue by by vm_compute.
  destruct (Hret Hvalue) as (_ & Hsaved & Hshow).
  destruct (Hsaved ltac:(done)) as [Hcall Hwritten].
  split; [exact Hcall|]. split; [exact Hwritten|exact Hshow].
Defined.

(** C10 as stated fails: with [save_plot=False] and [show_plot=True], on a
    matplotlib whose [savefig] raises for a file name that is no string, as
    matplotlib's does for [False], [plt.savefig(False)] is called and
    raises: no figure is saved, and [plt.show()] is not called although
    [show_plot] is set. *)
Lemma iv_plot_on_False_saves_nothing_and_shows_nothing :
  let r := iv_plot [1; 2] 3 (PyBool false) true Lab.strict_studio tt 0%nat in
  value r = inl TypeError /\
  savefigs (trace r) = [PyBool false] /\
  figures_written (trace r) = 0%nat /\
  shown (trace r) = 0%nat.
Proof. by vm_compute. Qed.

(** [multi_iv_plot] on one device with two active channels, converting:
    the whole log, and in it the conversion of the first panel. *)
Lemma multi_iv_plot_in_the_studio :
  let r := multi_iv_plot (Lab.iv_configs false) Lab.iv_inputs Lab.iv_output
             Lab.studio tt 0%nat in
  (value r = inr tt /\
   not_average_io_point_difference (Lab.iv_configs false) = inr true /\
   channel_active (Lab.iv_configs false) "A" 0 = inr true /\
   length (waveform_configs (trace r)) = 4%nat /\
   length (plateau_calls (trace r)) = 4%nat) /\
  plateaus_plotted Lab.iv_inputs (trace r) /\
  multi_iv_plot_log (Lab.iv_configs false) Lab.iv_inputs Lab.iv_output (trace r) /\
  exists cmap axs masked_idx points current n wm waves ax color,
    masked_index (Lab.iv_configs false) "A" 0 = inr masked_idx /\
    input_points Lab.iv_inputs "IV1" "A" masked_idx = inr points /\
    output_current Lab.iv_output "IV1" "A" = inr current /\
    plateau_length (Lab.iv_configs false) = inr n /\
    occurs_in
      [Event (WaveformManager [("slope_length", PyInt 0);
                               ("plateau_length", PyInt n)]) (inr wm);
       Event (points_to_plateaus wm (torch_tensor points)) (inr waves);
       Event (axs_getitem axs 0 0) (inr ax);
       Event (cmap_call cmap 0) (inr color);
       Event (ax_plot ax [tensor_numpy waves; current] None (Some color)) (inr tt)]
      (trace r).
Proof.
  intros. split; [by vm_compute|].
  destruct (multi_iv_plot_converts_points_to_plateaus Lab.studio 0%nat
              (Lab.iv_configs false) Lab.iv_inputs Lab.iv_output)
    as (_ & _ & Hplotted & _ & Hlog & Hconverted).
  assert (value r = inr tt) as Hvalue by by vm_compute.
  split; [by apply Hplotted|]. split; [by apply Hlog|].
  destruct (Hconverted Hvalue) as (cmap & devices & [= <-] & Hpanels); [by vm_compute|].
  exists cmap.
  apply (Hpanels "A" 0 0); [by left|by left|by left|done|by vm_compute].
Defined.

(** C8 as stated fails: [load_data] is imported from
    [bspysmg.model.data.inputs.dataset], a module of the package of the
    repository and not of an external one. *)
Lemma load_data_is_imported_from_the_package :
  Imports.module_of Imports.train_model "load_data" =
    Some "bspysmg.model.data.inputs.dataset" /\
  Imports.top_level "bspysmg.model.data.inputs.dataset" = Imports.package /\
  Imports.imported_from_outside Imports.train_model Imports.train_model_defines
    "load_data" = false.
Proof. by vm_compute. Qed.

(** [plot_waves] on two input headers and one output header. *)
Lemma plot_waves_legend_in_the_studio :
  let legend := ["in1"; "in2"; "out"] in
  let r := plot_waves [1; 2] [3; 4] 2 1 7 legend "out" Lab.studio tt 0%nat in
  (0 <= 2 /\ 0 < 1 /\ 2 + 1 = Z.of_nat (length legend) /\ value r = inr tt) /\
  exists for_inputs for_outputs,
    legends (trace r) = [for_inputs; for_outputs] /\
    for_inputs ++ for_outputs = legend /\
    Z.of_nat (length for_inputs) = 2 /\
    Z.of_nat (length for_outputs) = 1.
Proof.
  intros. split; [by vm_compute|].
  apply (plot_waves_splits_the_legend Lab.studio 0%nat [1; 2] [3; 4] 2 1 7 legend "out");
    by vm_compute.
Defined.

(** [plot_waves] with [output_no = 0]. *)
Lemma plot_waves_without_outputs_in_the_studio :
  let legend := ["in1"; "in2"; "out"] in
  let r := plot_waves [1; 2] [3; 4] 2 0 7 legend "out" Lab.studio tt 0%nat in
  value r = inr tt /\
  legends (trace r) = [py_slice legend None (Some 2); legend].
Proof.
  intros. split; [by vm_compute|].
  apply (plot_waves_without_outputs_draws_the_whole_legend Lab.studio 0%nat
           [1; 2] [3; 4] 2 7 legend "out").
  by vm_compute.
Defined.

(** The third channel of device 'A' is its second active one. *)
Lemma masked_index_of_the_third_channel :
  let bits := [true; false; true; false; false; false; false] in
  let before := length (filter (fun b => b = true) (take 2 bits)) in
  (activation_channel_mask (Lab.iv_configs false) "A" = inr (mask_of bits) /\
   bits !! 2%nat = Some true) /\
  channel_active (Lab.iv_configs false) "A" 2 = inr true /\
  masked_index (Lab.iv_configs false) "A" 2 = inr (Z.of_nat before) /\
  (before < length (filter (fun b => b = true) bits))%nat.
Proof.
  intros. split; [by vm_compute|].
  apply (masked_index_counts_the_active_channels_before (Lab.iv_configs false) "A"
           bits 2); by vm_compute.
Defined.

(** The one figure of the one device. *)
Lemma one_figure_per_device_in_the_studio :
  let r := multi_iv_plot (Lab.iv_configs false) Lab.iv_inputs Lab.iv_output
             Lab.studio tt 0%nat in
  value r = inr tt /\
  exists devices parts,
    (devs <- py_getitem (Lab.iv_configs false) "devices" ;; py_iter devs)%result =
      inr devices /\
    Forall2 (fun dev part =>
               exists name fig,
                 dev = PyStr name /\
                 part = [Made 2 4 fig;
                         Titled fig ("Device " +:+ name +:+
                                     " - Input voltage vs Output current")])
      devices parts /\
    figure_calls (trace r) = concat parts.
Proof.
  intros. split; [by vm_compute|].
  apply (multi_iv_plot_makes_one_figure_per_device Lab.studio 0%nat
           (Lab.iv_configs false) Lab.iv_inputs Lab.iv_output).
  by vm_compute.
Defined.

(** What the run on device 'A' has read. *)
Lemma inputs_found_in_the_studio :
  let r := multi_iv_plot (Lab.iv_configs true) Lab.iv_inputs Lab.iv_output
             Lab.studio tt 0%nat in
  value r = inr tt /\
  exists devices,
    (devs <- py_getitem (Lab.iv_configs true) "devices" ;; py_iter devs)%result =
      inr devices /\
    forall dev k,
      PyStr dev ∈ devices -> 0 <= k < 7 ->
      panel_inputs_found (Lab.iv_configs true) Lab.iv_inputs Lab.iv_output dev k.
Proof.
  intros. split; [by vm_compute|].
  apply (returning_multi_iv_plot_found_its_inputs Lab.studio 0%nat
           (Lab.iv_configs true) Lab.iv_inputs Lab.iv_output).
  by vm_compute.
Defined.

(** The labels of the eighth panel for device 'A', whose first and third
    channels are active: the curves of 'IV1' and 'IV3'. *)
Lemma overview_labels_in_the_studio :
  let r := multi_iv_plot (Lab.iv_configs true) Lab.iv_inputs Lab.iv_output
             Lab.studio tt 0%nat in
  (value r = inr tt /\
   take 3 Lab.iv_inputs.*1 = ["IV1"; "IV2"; "IV3"] /\
   curve_labels (trace r) = ["IV0"; "IV2"]) /\
  Forall (overview_curve (Lab.iv_configs true) Lab.iv_inputs) (trace r) /\
  Forall (fun label =>
            exists z key,
              0 <= z /\ Lab.iv_inputs.*1 !! Z.to_nat z = Some key /\
              label = "IV" +:+ str z)
    (curve_labels (trace r)).
Proof.
  intros. split; [by vm_compute|].
  apply (overview_curves_are_labelled_by_position Lab.studio 0%nat
           (Lab.iv_configs true) Lab.iv_inputs Lab.iv_output).
Defined.

End Examples.

End PlotsFacts.
